(** * Carousel prompt generator: the visual-context mapping engine

    A shallow embedding of [api/prompt_generator.py]: the colour helpers,
    the keyword-scored topic and slide-purpose classifiers, the seeded
    design-template selection, the keyword extractor, the flow
    description and the Layer-1 / Layer-2 choice of the image prompt.

    Conventions of the embedding.
    - A Python [str] is a [string]: the bytes of its UTF-8 encoding, one
      byte per character on ASCII text.  The built-ins of [Py] and
      [PyInt] (case mapping, white space, the regex classes [\w] and
      [[a-zA-Z]], [int]) are those of Python on ASCII text: bytes of
      128 and above are left alone by [lower] and are neither word
      characters, nor white space, nor digits.  [Module Unicode] gives
      the functions of the program that depend on these built-ins for
      every text, with the Unicode character database as a parameter;
      on ASCII text they are the functions of the ASCII model.
    - A Python [int] is a [Z].
    - A [dict] literal is an association list in insertion order, which is
      the iteration order of a Python dict.
    - A function that can raise returns a [result]: [Ok] with its value
      or [Raise] with the exception. *)

From Stdlib Require Import ZArith List Bool Ascii String Lia.
From Stdlib Require Import HexadecimalString DecimalString DecimalZ DecimalPos.
Import ListNotations.

Open Scope string_scope.

(** ** Python built-ins used by the module *)

Module Py.

Definition is_upper (c : ascii) : bool :=
  let n := nat_of_ascii c in (65 <=? n)%nat && (n <=? 90)%nat.

Definition is_lower (c : ascii) : bool :=
  let n := nat_of_ascii c in (97 <=? n)%nat && (n <=? 122)%nat.

Definition is_digit (c : ascii) : bool :=
  let n := nat_of_ascii c in (48 <=? n)%nat && (n <=? 57)%nat.

Definition is_alpha (c : ascii) : bool := is_upper c || is_lower c.

(** The regex class [\w]: letters, digits and the underscore. *)
Definition is_word (c : ascii) : bool :=
  is_alpha c || is_digit c || (nat_of_ascii c =? 95)%nat.

Definition lower_char (c : ascii) : ascii :=
  if is_upper c then ascii_of_nat (nat_of_ascii c + 32) else c.

(** [s.lower()] on ASCII text; for every text it is the parameter
    [str_lower] of [Unicode]. *)
Fixpoint lower (s : string) : string :=
  match s with
  | EmptyString => EmptyString
  | String c r => String (lower_char c) (lower r)
  end.

(** [s.startswith(p)] *)
Fixpoint startswith (p s : string) : bool :=
  match p, s with
  | EmptyString, _ => true
  | String _ _, EmptyString => false
  | String a p', String b s' => Ascii.eqb a b && startswith p' s'
  end.

(** [needle in hay] on strings: substring containment. *)
Fixpoint contains (needle hay : string) : bool :=
  startswith needle hay ||
  match hay with
  | EmptyString => false
  | String _ r => contains needle r
  end.

(** [x in xs] on a list of strings. *)
Definition mem (x : string) (xs : list string) : bool :=
  existsb (String.eqb x) xs.

(** Stripping the characters of a class from the left, from the right
    and from both ends. *)
Fixpoint lstrip_by (p : ascii -> bool) (s : string) : string :=
  match s with
  | EmptyString => EmptyString
  | String c r => if p c then lstrip_by p r else s
  end.

Fixpoint rstrip_by (p : ascii -> bool) (s : string) : string :=
  match s with
  | EmptyString => EmptyString
  | String c r =>
      match rstrip_by p r with
      | EmptyString => if p c then EmptyString else String c EmptyString
      | r' => String c r'
      end
  end.

Definition strip_by (p : ascii -> bool) (s : string) : string :=
  rstrip_by p (lstrip_by p s).

(** The white space of [str.strip()] and [str.isspace()]. *)
Definition is_space (c : ascii) : bool :=
  let n := nat_of_ascii c in
  ((9 <=? n)%nat && (n <=? 13)%nat) ||
  ((28 <=? n)%nat && (n <=? 32)%nat).

(** [s.strip()] on ASCII text; [Unicode.strip] for every text. *)
Definition strip (s : string) : string := strip_by is_space s.

(** [s.split(sep)] for a one-character separator: the pieces between
    the separators, empty ones included; [cur] is the piece being
    read.  The result is never empty. *)
Fixpoint split_from (sep : ascii) (s cur : string) : list string :=
  match s with
  | EmptyString => [cur]
  | String c r =>
      if Ascii.eqb c sep then cur :: split_from sep r EmptyString
      else split_from sep r (cur ++ String c EmptyString)
  end.

Definition split (sep : ascii) (s : string) : list string :=
  split_from sep s EmptyString.

(** [sep.join(xs)] *)
Definition join (sep : string) (xs : list string) : string :=
  String.concat sep xs.

(** [str(n)] for an integer. *)
Definition str (n : Z) : string :=
  DecimalString.NilZero.string_of_int (Z.to_int n).

(** [sum(1 for w in words if w in text)] *)
Definition count_in (words : list string) (text : string) : nat :=
  list_sum (map (fun _ => 1%nat) (filter (fun w => contains w text) words)).

(** [max(d, key=d.get)] on a non-empty dict [d], given as its first
    item and the remaining ones: the keys are visited in insertion
    order and the running best is replaced only by a strictly greater
    value, so the first key that reaches the maximum is returned. *)
Fixpoint max_from (best : string * nat) (rest : list (string * nat))
  : string :=
  match rest with
  | [] => fst best
  | kv :: t =>
      if (snd best <? snd kv)%nat then max_from kv t else max_from best t
  end.

Definition max_key (d : list (string * nat)) : option string :=
  match d with
  | [] => None
  | kv :: t => Some (max_from kv t)
  end.

End Py.

(** ** Topic keyword table *)

Definition TOPIC_KEYWORDS : list (string * list string) :=
  [ ("business",
     ["business"; "startup"; "entrepreneur"; "company"; "finance"; "money";
      "investment"; "sales"; "profit"; "ceo"; "success"]);
    ("marketing",
     ["marketing"; "social media"; "instagram"; "content"; "brand";
      "audience"; "engagement"; "viral"; "followers"; "influencer";
      "tiktok"; "reels"]);
    ("technology",
     ["tech"; "technology"; "ai"; "software"; "app"; "digital"; "computer";
      "data"; "automation"; "code"; "programming"; "developer"]);
    ("health",
     ["health"; "fitness"; "wellness"; "diet"; "exercise"; "mental";
      "meditation"; "yoga"; "nutrition"; "workout"; "gym"]);
    ("lifestyle",
     ["lifestyle"; "life"; "daily"; "routine"; "productivity"; "habits";
      "morning"; "self-care"; "home"]);
    ("education",
     ["learn"; "education"; "course"; "study"; "teach"; "training"; "skill";
      "tips"; "how to"; "guide"; "tutorial"]);
    ("creative",
     ["art"; "design"; "creative"; "photography"; "video"; "music";
      "writing"; "craft"; "artist"]);
    ("travel",
     ["travel"; "trip"; "vacation"; "adventure"; "destination"; "explore";
      "tourism"; "journey"]);
    ("finance",
     ["finance"; "investing"; "stocks"; "crypto"; "wealth"; "budget";
      "savings"; "financial"]);
    ("fashion",
     ["fashion"; "style"; "outfit"; "clothing"; "beauty"; "makeup";
      "skincare"; "trends"]);
    ("food",
     ["food"; "recipe"; "cooking"; "chef"; "restaurant"; "baking";
      "cuisine"; "meal"]) ].

(** ** Keyword scoring, shared by the topic and the purpose classifier

    The loop
      [for key, words in TABLE.items():
           score = sum(1 for w in words if w in text)
           if score > 0: scores[key] = score]
    over a table whose keys are distinct: every assignment adds a new
    key, so the resulting dict lists the scoring keys in table order. *)

Fixpoint keyword_scores (table : list (string * list string)) (text : string)
  : list (string * nat) :=
  match table with
  | [] => []
  | (key, words) :: rest =>
      let score := Py.count_in words text in
      if (0 <? score)%nat
      then (key, score) :: keyword_scores rest text
      else keyword_scores rest text
  end.

(** [get_topic_category(topic)] *)
Definition get_topic_category (topic : string) : string :=
  let topic_lower := Py.lower topic in
  let category_scores := keyword_scores TOPIC_KEYWORDS topic_lower in
  match Py.max_key category_scores with
  | Some best_category => best_category
  | None => "default"
  end.

(** ** Exceptions

    The functions below either return a value or raise; the [try] /
    [except Exception] of the colour helpers is [try_except]. *)

Inductive exn : Type :=
| ValueError
| IndexError
| KeyError
| OverflowError.

Inductive result (A : Type) : Type :=
| Ok (a : A)
| Raise (e : exn).

Arguments Ok {A} a.
Arguments Raise {A} e.

Definition bind {A B : Type} (m : result A) (k : A -> result B) : result B :=
  match m with
  | Ok a => k a
  | Raise e => Raise e
  end.

Notation "x <- m ;; k" := (bind m (fun x => k))
  (at level 61, m at next level, right associativity).
Notation "' p <- m ;; k" := (bind m (fun x => let p := x in k))
  (at level 61, p pattern, m at next level, right associativity).

(** [try: body / except Exception: return fallback]: every exception of
    [exn] is an [Exception], so the handler catches all of them. *)
Definition try_except {A : Type} (body : result A) (fallback : A) : result A :=
  match body with
  | Ok a => Ok a
  | Raise _ => Ok fallback
  end.

(** ** ColorMath: hex and RGB *)

Module PyInt.

(** The white space [int()] skips around a number: tab, line feed,
    vertical tab, form feed, carriage return and space. *)
Definition is_space (c : ascii) : bool :=
  let n := nat_of_ascii c in
  ((9 <=? n)%nat && (n <=? 13)%nat) || (n =? 32)%nat.

(** Value of a base-16 digit, in either case. *)
Definition digit16 (c : ascii) : option Z :=
  let n := Z.of_nat (nat_of_ascii c) in
  if Py.is_digit c then Some (n - 48)%Z
  else if ((97 <=? n) && (n <=? 102))%Z then Some (n - 87)%Z
  else if ((65 <=? n) && (n <=? 70))%Z then Some (n - 55)%Z
  else None.

Definition is_underscore (c : ascii) : bool := (nat_of_ascii c =? 95)%nat.

(** The digits after the first one: a digit, or one underscore followed
    by a digit, until the end of the text. *)
Fixpoint more_digits (s : string) (acc : Z) : result Z :=
  match s with
  | EmptyString => Ok acc
  | String c r =>
      if is_underscore c then
        match r with
        | EmptyString => Raise ValueError
        | String d r' =>
            match digit16 d with
            | Some v => more_digits r' (16 * acc + v)
            | None => Raise ValueError
            end
        end
      else
        match digit16 c with
        | Some v => more_digits r (16 * acc + v)
        | None => Raise ValueError
        end
  end.

Definition digits (s : string) : result Z :=
  match s with
  | EmptyString => Raise ValueError
  | String c r =>
      match digit16 c with
      | Some v => more_digits r v
      | None => Raise ValueError
      end
  end.

(** An optional [0x] / [0X] prefix, which may be followed by one
    underscore. *)
Definition skip_prefix (s : string) : string :=
  match s with
  | String "0" (String x r) =>
      if Ascii.eqb x "x" || Ascii.eqb x "X" then
        match r with
        | String u r' => if is_underscore u then r' else r
        | EmptyString => r
        end
      else s
  | _ => s
  end.

(** [int(s, 16)] on ASCII text: surrounding white space, an optional
    sign, an optional prefix, digits with single underscores between
    them.  [Unicode.int16] for every text. *)
Definition int16 (s : string) : result Z :=
  match Py.strip_by is_space s with
  | String "+" r => digits (skip_prefix r)
  | String "-" r => v <- digits (skip_prefix r) ;; Ok (- v)%Z
  | t => digits (skip_prefix t)
  end.

End PyInt.

(** [s[i:j]] for [0 <= i <= j]: never raises, shorter near the end. *)
Fixpoint drop (n : nat) (s : string) : string :=
  match n, s with
  | O, _ => s
  | S _, EmptyString => EmptyString
  | S n', String _ r => drop n' r
  end.

Fixpoint take (n : nat) (s : string) : string :=
  match n, s with
  | O, _ => EmptyString
  | S _, EmptyString => EmptyString
  | S n', String c r => String c (take n' r)
  end.

Definition slice (s : string) (i j : nat) : string := take (j - i) (drop i s).

(** [s.lstrip('#')]: every leading [#] goes. *)
Fixpoint lstrip_hash (s : string) : string :=
  match s with
  | String "#" r => lstrip_hash r
  | _ => s
  end.

(** [hex_to_rgb(hex_color)] *)
Definition hex_to_rgb (hex_color : string) : result (Z * Z * Z) :=
  let hex_color := lstrip_hash hex_color in
  r <- PyInt.int16 (slice hex_color 0 2) ;;
  g <- PyInt.int16 (slice hex_color 2 4) ;;
  b <- PyInt.int16 (slice hex_color 4 6) ;;
  Ok (r, g, b).

(** [format(n, '02x')]: lower-case base-16 digits, a minus sign for a
    negative number, zeros after the sign up to a total width of 2. *)
Definition hex_digits (n : N) : string :=
  HexadecimalString.NilZero.string_of_uint (N.to_hex_uint n).

Definition format_02x (n : Z) : string :=
  let ds := hex_digits (Z.abs_N n) in
  if (n <? 0)%Z then
    String "-" (if (String.length ds <? 1)%nat then "0" ++ ds else ds)
  else
    match String.length ds with
    | O => "00" ++ ds
    | S O => "0" ++ ds
    | _ => ds
    end.

(** [rgb_to_hex(rgb)] on a triple of integers ([int(x)] is [x]). *)
Definition rgb_to_hex (rgb : Z * Z * Z) : string :=
  let '(r, g, b) := rgb in
  "#" ++ format_02x r ++ format_02x g ++ format_02x b.

(** ** Design templates *)

Record DesignTemplate : Type := {
  name : string;
  description : string;
  flow_element : string;
  accent_style : string;
  mood : string;
  font_color : string
}.

(** The [visual_elements] lists of the templates are not read by any
    function of the module and are left out. *)
Definition DESIGN_TEMPLATES : list (string * DesignTemplate) :=
  [ ("cream_lifestyle",
     {| name := "Cream Lifestyle";
        description := "Warm cream and beige tones with lifestyle objects, cozy and inviting";
        flow_element := "A subtle warm-toned curved line or shadow";
        accent_style := "warm golden highlights";
        mood := "cozy, warm, and inviting";
        font_color := "#5D4E37" |});
    ("soft_beige",
     {| name := "Soft Beige";
        description := "Light beige and off-white with clean minimalist objects";
        flow_element := "A thin elegant dividing line";
        accent_style := "clean shadow effects";
        mood := "clean, modern, and professional";
        font_color := "#3D3D3D" |});
    ("warm_ivory",
     {| name := "Warm Ivory";
        description := "Ivory and pale peach with elegant illustrated people";
        flow_element := "Flowing illustration that extends across slides";
        accent_style := "soft peachy highlights";
        mood := "elegant and aspirational";
        font_color := "#6B4423" |});
    ("light_gray_minimal",
     {| name := "Light Gray Minimal";
        description := "Soft gray with clean professional flat illustrations";
        flow_element := "A clean horizontal accent line";
        accent_style := "subtle blue-gray accents";
        mood := "professional and trustworthy";
        font_color := "#2C3E50" |});
    ("pastel_blush",
     {| name := "Pastel Blush";
        description := "Very light pink and cream with feminine elegance";
        flow_element := "A soft curved pastel ribbon";
        accent_style := "delicate rose gold accents";
        mood := "feminine, soft, and elegant";
        font_color := "#8B5A5A" |});
    ("clean_white",
     {| name := "Clean White";
        description := "Crisp white with strategic pops of objects and color";
        flow_element := "A simple connecting line or shape";
        accent_style := "clean object placement";
        mood := "fresh, clean, and modern";
        font_color := "#333333" |});
    ("sand_neutral",
     {| name := "Sand Neutral";
        description := "Sandy beige and taupe with earthy warmth";
        flow_element := "An organic curved shape or wave";
        accent_style := "warm earthy accents";
        mood := "grounded, natural, and authentic";
        font_color := "#4A3728" |});
    ("pearl_elegant",
     {| name := "Pearl Elegant";
        description := "Pearlescent white and soft gray with luxury feel";
        flow_element := "A subtle gradient transition";
        accent_style := "pearlescent sheen";
        mood := "luxurious and premium";
        font_color := "#2F2F2F" |}) ].

(** The [style_preferences] dict of [select_design_template]. *)
Definition style_preferences : list (string * list string) :=
  [ ("modern", ["light_gray_minimal"; "clean_white"; "soft_beige"]);
    ("minimal", ["clean_white"; "soft_beige"; "pearl_elegant"]);
    ("playful", ["pastel_blush"; "cream_lifestyle"; "warm_ivory"]);
    ("professional", ["light_gray_minimal"; "soft_beige"; "pearl_elegant"]);
    ("creative", ["warm_ivory"; "cream_lifestyle"; "pastel_blush"]);
    ("elegant", ["pearl_elegant"; "warm_ivory"; "cream_lifestyle"]) ].

(** [d.get(k)] on a dict given as an association list. *)
Fixpoint lookup {A : Type} (k : string) (d : list (string * A)) : option A :=
  match d with
  | [] => None
  | (k', v) :: rest => if String.eqb k k' then Some v else lookup k rest
  end.

(** Truthiness of an optional string: [None] and [''] are false. *)
Definition truthy (s : option string) : bool :=
  match s with
  | None => false
  | Some EmptyString => false
  | Some _ => true
  end.

(** ** Seeded template selection

    [random.seed] and [random.choice] act on the generator of the
    [random] module, one state shared by the whole process.  The
    generator is a parameter: its state after [random.seed(n)], and the
    draw of an index below a positive bound ([Random._randbelow]), which
    returns the index and the next state. *)

Section Random.

Variable rng : Type.
Variable seeded : Z -> rng.
Variable randbelow : rng -> nat -> nat * rng.

(** [random.seed(seed)] when [seed is not None]. *)
Definition random_seed (seed : option Z) (g : rng) : rng :=
  match seed with
  | Some n => seeded n
  | None => g
  end.

(** [random.choice(seq)]: [IndexError] on an empty sequence, else
    [seq[randbelow(len(seq))]]. *)
Definition random_choice (seq : list string) (g : rng)
  : result string * rng :=
  match seq with
  | [] => (Raise IndexError, g)
  | _ =>
      let (i, g') := randbelow g (List.length seq) in
      match nth_error seq i with
      | Some x => (Ok x, g')
      | None => (Raise IndexError, g')
      end
  end.

(** [select_design_template(seed, style_hint)], from the state [g] of
    the shared generator to the chosen key and the state left behind. *)
Definition select_design_template (seed : option Z)
    (style_hint : option string) (g : rng) : result string * rng :=
  let templates := map fst DESIGN_TEMPLATES in
  let preferred :=
    match style_hint with
    | Some h =>
        if truthy style_hint then lookup (Py.lower h) style_preferences
        else None
    | None => None
    end in
  let valid_preferred :=
    match preferred with
    | Some p => filter (fun t => Py.mem t templates) p
    | None => []
    end in
  match valid_preferred with
  | _ :: _ => random_choice valid_preferred (random_seed seed g)
  | [] => random_choice templates (random_seed seed g)
  end.

End Random.

(** ** Layer 2: per-slide purpose *)

Record PurposeType : Type := {
  purpose_type_name : string;
  purpose_type_description : string;
  purpose_type_visual_approach : string
}.

Definition SLIDE_PURPOSE_TYPES : list (string * PurposeType) :=
  [ ("data",
     {| purpose_type_name := "Data/Statistics";
        purpose_type_description := "Presenting numbers, percentages, metrics, growth figures";
        purpose_type_visual_approach := "Charts, graphs, metrics with visual impact" |});
    ("process",
     {| purpose_type_name := "Process/Flow";
        purpose_type_description := "Explaining steps, workflows, sequences, how things work";
        purpose_type_visual_approach := "Flowcharts, step diagrams, connected arrows" |});
    ("comparison",
     {| purpose_type_name := "Comparison/Contrast";
        purpose_type_description := "Comparing options, before/after, pros/cons";
        purpose_type_visual_approach := "Split visuals, comparison tables, side-by-side" |});
    ("concept",
     {| purpose_type_name := "Concept/Definition";
        purpose_type_description := "Explaining ideas, defining terms, abstract concepts";
        purpose_type_visual_approach := "Metaphorical illustrations, conceptual icons" |});
    ("timeline",
     {| purpose_type_name := "Timeline/Sequence";
        purpose_type_description := "Historical progression, roadmaps, milestones";
        purpose_type_visual_approach := "Timeline graphics, milestone markers, journey path" |});
    ("problem_solution",
     {| purpose_type_name := "Problem/Solution";
        purpose_type_description := "Identifying issues and proposing fixes";
        purpose_type_visual_approach := "Before/after visuals, problem icons, solution arrows" |});
    ("list",
     {| purpose_type_name := "List/Itemization";
        purpose_type_description := "Bullet points, numbered lists, tips, features";
        purpose_type_visual_approach := "Icon grids, numbered graphics, checkbox visuals" |});
    ("quote",
     {| purpose_type_name := "Quote/Testimonial";
        purpose_type_description := "Inspirational quotes, customer testimonials, expert opinions";
        purpose_type_visual_approach := "Elegant typography frames, quote marks, portrait frames" |});
    ("cta",
     {| purpose_type_name := "Call-to-Action";
        purpose_type_description := "Encouraging action, signup, purchase, follow";
        purpose_type_visual_approach := "Button graphics, directional arrows, action icons" |}) ].

Record PurposeVisuals : Type := {
  visuals_objects : string;
  visuals_icons : string;
  visuals_style : string
}.

Definition VISUAL_OBJECTS_BY_PURPOSE : list (string * PurposeVisuals) :=
  [ ("data",
     {| visuals_objects := "bar chart, line graph, pie chart, metrics dashboard, upward arrow, percentage badge, growth indicator, data visualization panel";
        visuals_icons := "trending up arrow, chart icon, statistics graph, metric counter, progress bar, analytics icon";
        visuals_style := "clean data visualization, infographic style, bold numbers, highlighted metrics" |});
    ("process",
     {| visuals_objects := "flowchart diagram, step arrows, numbered circles, process pipeline, gear mechanism, workflow nodes";
        visuals_icons := "connected arrows, step indicators, flow arrows, process wheels, sequential markers";
        visuals_style := "clean flowchart, numbered steps with connecting lines, process diagram aesthetic" |});
    ("comparison",
     {| visuals_objects := "split screen layout, comparison table, versus badge, balance scale, side-by-side panels";
        visuals_icons := "vs symbol, comparison arrows, check/x marks, rating stars, pro/con icons";
        visuals_style := "dual layout, clear separation, before/after effect, contrast zones" |});
    ("concept",
     {| visuals_objects := "lightbulb illustration, brain graphic, abstract shapes, conceptual diagram, thought bubble";
        visuals_icons := "idea bulb, brain icon, puzzle pieces, concept cloud, abstract symbols";
        visuals_style := "metaphorical illustration, abstract representation, conceptual visual" |});
    ("timeline",
     {| visuals_objects := "horizontal timeline, milestone markers, date badges, journey path, roadmap illustration";
        visuals_icons := "calendar icon, clock, milestone flag, date marker, progress dots";
        visuals_style := "timeline graphic, chronological markers, journey visualization" |});
    ("problem_solution",
     {| visuals_objects := "broken chain icon, warning symbol, checkmark solution, transformation arrow, before/after split";
        visuals_icons := "warning triangle, problem X, solution checkmark, fix wrench, healing cross";
        visuals_style := "problem illustration transitioning to solution, transformation visual" |});
    ("list",
     {| visuals_objects := "numbered list graphic, icon grid, feature boxes, bullet point markers, checklist visual";
        visuals_icons := "numbered badges, checkbox icons, bullet markers, list icons, feature stars";
        visuals_style := "organized grid layout, numbered or bulleted visual list, icon collection" |});
    ("quote",
     {| visuals_objects := "large quotation marks, elegant frame, portrait silhouette, speech bubble, testimonial card";
        visuals_icons := "quote marks, speech icon, person silhouette, star rating, testimonial badge";
        visuals_style := "elegant typography frame, inspirational quote layout, testimonial card design" |});
    ("cta",
     {| visuals_objects := "call-to-action button, pointing arrow, follow icon, subscribe button, action badge";
        visuals_icons := "arrow pointing right, click cursor, follow plus, subscribe bell, action hand";
        visuals_style := "prominent action visual, directional emphasis, invitation to act" |}) ].

Definition KEYWORD_TO_PURPOSE : list (string * list string) :=
  [ ("data",
     ["percent"; "percentage"; "%"; "growth"; "increase"; "decrease";
      "revenue"; "sales"; "metrics"; "statistics"; "numbers"; "data"; "rate";
      "ratio"; "score"; "results"; "quarterly"; "annually"; "yoy"; "mom";
      "kpi"; "roi"; "conversion"; "profits"]);
    ("process",
     ["step"; "steps"; "process"; "workflow"; "how to"; "guide"; "method";
      "procedure"; "framework"; "system"; "approach"; "sequence"; "phase";
      "stage"; "pipeline"]);
    ("comparison",
     ["vs"; "versus"; "compare"; "comparison"; "difference"; "between";
      "better"; "worse"; "pros"; "cons"; "advantages"; "disadvantages";
      "option"; "alternative"]);
    ("concept",
     ["what is"; "definition"; "meaning"; "concept"; "idea"; "understand";
      "learn"; "discover"; "introduce"; "about"; "overview"; "explained";
      "basics"]);
    ("timeline",
     ["timeline"; "history"; "evolution"; "journey"; "roadmap"; "milestone";
      "future"; "past"; "present"; "year"; "quarter"; "month"; "when"; "date";
      "period"]);
    ("problem_solution",
     ["problem"; "challenge"; "issue"; "solution"; "fix"; "solve"; "overcome";
      "struggle"; "difficulty"; "obstacle"; "barrier"; "pain point";
      "mistake"]);
    ("list",
     ["tip"; "tips"; "ways"; "reasons"; "things"; "list"; "top"; "best";
      "must"; "key"; "essential"; "important"; "features"; "benefits";
      "secrets"; "hacks"; "tricks"]);
    ("quote",
     ["quote"; "said"; "says"; "according"; "expert"; "testimonial"; "review";
      "feedback"; "opinion"; "believe"; "philosophy"; "wisdom"; "inspiration";
      "motivational"]);
    ("cta",
     ["follow"; "subscribe"; "join"; "sign up"; "start"; "get started"; "try";
      "download"; "click"; "share"; "comment"; "save"; "contact"; "book";
      "call"; "action"; "now"; "today"]) ].

(** [analyze_slide_purpose(title, description)] *)
Definition analyze_slide_purpose (title description : string) : string :=
  let text := Py.lower (title ++ " " ++ description) in
  let purpose_scores := keyword_scores KEYWORD_TO_PURPOSE text in
  match Py.max_key purpose_scores with
  | Some best_purpose => best_purpose
  | None => "concept"
  end.

(** ** Layer 2: keyword extraction *)

Definition stop_words : list string :=
  [ "the"; "a"; "an"; "and"; "or"; "but"; "in"; "on"; "at"; "to"; "for";
    "of"; "with"; "by"; "from"; "up"; "about"; "into"; "through"; "during";
    "is"; "are"; "was"; "were"; "be"; "been"; "being"; "have"; "has"; "had";
    "do"; "does"; "did"; "will"; "would"; "could"; "should"; "may"; "might";
    "must"; "can"; "this"; "that"; "these"; "those"; "it"; "its"; "your";
    "you"; "we"; "they"; "our"; "their"; "how"; "why"; "what"; "when"; "where";
    "which"; "who"; "whom"; "whose"; "not"; "no"; "yes"; "all"; "each"; "every";
    "most"; "more"; "some"; "any"; "make"; "get"; "just"; "also"; "than" ].

(** [re.findall(r'\b[a-zA-Z]{3,}\b', text)] on ASCII text, as one
    left-to-right scan; [Unicode.findall_words] for every text.

    A match starts at a letter that follows a non-word character or the
    start of the text (the first [\b]); the greedy [{3,}] takes the whole
    run of letters, and no shorter choice can end at a [\b], since the
    next character would be a letter.  The run is a match when it has at
    least 3 letters and is followed by a non-word character or the end
    of the text (the second [\b]).  A run that touches a digit or an
    underscore on either side is no match, and no match starts inside it.

    [prev_word]: the previous character is a word character;
    [run]: the letters of the candidate match in progress, if any. *)
Definition emit (run : option string) : list string :=
  match run with
  | Some w => if (3 <=? String.length w)%nat then [w] else []
  | None => []
  end.

Fixpoint scan_words (s : string) (prev_word : bool) (run : option string)
  : list string :=
  match s with
  | EmptyString => emit run
  | String c r =>
      if Py.is_alpha c then
        match run with
        | Some w => scan_words r true (Some (w ++ String c EmptyString))
        | None =>
            if prev_word then scan_words r true None
            else scan_words r true (Some (String c EmptyString))
        end
      else if Py.is_word c then scan_words r true None
      else (emit run ++ scan_words r false None)%list
  end.

Definition findall_words (text : string) : list string :=
  scan_words text false None.

(** The loop of [extract_slide_keywords] over the words found:
    [keywords] is the list built so far, [seen] the set of its
    elements.  The bound is tested after an append only, so one keyword
    is kept even for [max_keywords <= 0]. *)
Fixpoint keyword_loop (words keywords seen : list string) (max_keywords : Z)
  : list string :=
  match words with
  | [] => keywords
  | word :: rest =>
      if negb (Py.mem word stop_words) && negb (Py.mem word seen) then
        let keywords := (keywords ++ [word])%list in
        let seen := word :: seen in
        if (max_keywords <=? Z.of_nat (List.length keywords))%Z
        then keywords
        else keyword_loop rest keywords seen max_keywords
      else keyword_loop rest keywords seen max_keywords
  end.

(** [extract_slide_keywords(title, description, max_keywords)] *)
Definition extract_slide_keywords (title description : string)
    (max_keywords : Z) : list string :=
  let text := title ++ " " ++ description in
  let words := findall_words (Py.lower text) in
  keyword_loop words [] [] max_keywords.

(** [d[k]]: [KeyError] on a missing key. *)
Definition getitem {A : Type} (d : list (string * A)) (k : string) : result A :=
  match lookup k d with
  | Some v => Ok v
  | None => Raise KeyError
  end.

(** [d.get(k, default)] *)
Definition get_or {A : Type} (d : list (string * A)) (k : string) (default : A)
  : A :=
  match lookup k d with
  | Some v => v
  | None => default
  end.

(** ** Layer 2: visual context of a slide *)

Record SlideVisualContext : Type := {
  ctx_purpose_name : string;
  ctx_visual_approach : string;
  ctx_objects : string;
  ctx_icons : string;
  ctx_style : string;
  ctx_keywords : list string;
  ctx_slide_number : Z;
  ctx_total_slides : Z;
  ctx_detected_purpose : string;
  ctx_global_category : string
}.

(** [get_purpose_specific_visuals(purpose, keywords, global_category)]
    followed by the four assignments of [get_slide_visual_context]. *)
Definition get_purpose_specific_visuals (purpose : string)
    (keywords : list string) (global_category : string)
    (slide_number total_slides : Z) : result SlideVisualContext :=
  concept_visuals <- getitem VISUAL_OBJECTS_BY_PURPOSE "concept" ;;
  let purpose_visuals :=
    get_or VISUAL_OBJECTS_BY_PURPOSE purpose concept_visuals in
  concept_info <- getitem SLIDE_PURPOSE_TYPES "concept" ;;
  let purpose_info := get_or SLIDE_PURPOSE_TYPES purpose concept_info in
  Ok {| ctx_purpose_name := purpose_type_name purpose_info;
        ctx_visual_approach := purpose_type_visual_approach purpose_info;
        ctx_objects := visuals_objects purpose_visuals;
        ctx_icons := visuals_icons purpose_visuals;
        ctx_style := visuals_style purpose_visuals;
        ctx_keywords := keywords;
        ctx_slide_number := slide_number;
        ctx_total_slides := total_slides;
        ctx_detected_purpose := purpose;
        ctx_global_category := global_category |}.

(** The position override of [get_slide_visual_context]. *)
Definition position_override (purpose : string) (slide_number total_slides : Z)
  : string :=
  if (slide_number =? 1)%Z then
    if Py.mem purpose ["data"; "timeline"] then purpose else "concept"
  else if (slide_number =? total_slides)%Z then "cta"
  else purpose.

(** [get_slide_visual_context(title, description, slide_number,
    total_slides, global_topic)] *)
Definition get_slide_visual_context (title description : string)
    (slide_number total_slides : Z) (global_topic : string)
  : result SlideVisualContext :=
  let keywords := extract_slide_keywords title description 5 in
  let purpose := analyze_slide_purpose title description in
  let purpose := position_override purpose slide_number total_slides in
  let global_category := get_topic_category global_topic in
  get_purpose_specific_visuals purpose keywords global_category
    slide_number total_slides.

(** ** Flow description *)

Definition dquote : string := String (ascii_of_nat 34) EmptyString.

Definition opening_flow (total_slides : Z) (flow : string) : string :=
  "
VISUAL FLOW POSITION: OPENING SLIDE (1 of " ++ Py.str total_slides ++ ")
- " ++ flow ++ " ORIGINATES from the LEFT edge of the composition
- The element should flow gracefully toward the RIGHT edge
- Create a sense of beginning - the visual journey starts here
- Element should EXIT toward the right edge, inviting viewers to swipe
- Include a subtle " ++ dquote ++ "swipe" ++ dquote ++ " visual cue in bottom area".

Definition closing_flow (slide_number total_slides : Z) (flow : string)
  : string :=
  "
VISUAL FLOW POSITION: CLOSING SLIDE (" ++ Py.str slide_number ++ " of "
    ++ Py.str total_slides ++ ")
- " ++ flow ++ " ENTERS from the LEFT edge (continuing from previous slide)
- The element should CONCLUDE gracefully in the center or right area
- Create a sense of completion and resolution
- Include visual space for a call-to-action message
- Design should feel like a satisfying ending to the visual journey".

Definition middle_flow (slide_number total_slides : Z) (flow : string)
  : string :=
  "
VISUAL FLOW POSITION: MIDDLE SLIDE (" ++ Py.str slide_number ++ " of "
    ++ Py.str total_slides ++ ")
- " ++ flow ++ " ENTERS from the LEFT edge (continuing from previous slide)
- The element should flow ACROSS the composition
- Element EXITS toward the RIGHT edge (continuing to next slide)
- Maintain visual rhythm and momentum
- Keep the flowing element at roughly the same vertical position for continuity".

(** [get_slide_flow_description(slide_number, total_slides, flow_element)] *)
Definition get_slide_flow_description (slide_number total_slides : Z)
    (flow : string) : string :=
  if (slide_number =? 1)%Z then opening_flow total_slides flow
  else if (slide_number =? total_slides)%Z
  then closing_flow slide_number total_slides flow
  else middle_flow slide_number total_slides flow.

(** ** Colour palettes *)

Module Palette.

(** A palette dict.  [pastel] and [secondary] are the keys that
    [get_topic_color_palette] adds for brand colours. *)
Record t : Type := {
  background : string;
  background_alt : string;
  accent_bg : string;
  font_color : string;
  accent : string;
  highlight : string;
  light : string;
  objects : string;
  creative_elements : string;
  pastel : option string;
  secondary : option string
}.

End Palette.

Definition TOPIC_COLOR_PALETTES : list (string * Palette.t) :=
  [ ("business",
     {| Palette.background := "#E8F4FD";
        Palette.background_alt := "#D0E8FF";
        Palette.accent_bg := "#B8DCFF";
        Palette.font_color := "#1A365D";
        Palette.accent := "#0066FF";
        Palette.highlight := "#3399FF";
        Palette.light := "#F0F8FF";
        Palette.objects := "laptop, business charts, coffee cup, notebook, pen, smartphone, office desk, glass wall office, floating UI panels, minimal desk accessories, digital clock, leather chair, desk plant, sticky notes, tablet stand, wireless mouse, presentation screen, business documents, clipboard, file folders";
        Palette.creative_elements := "business infographics, statistics icons, growth charts, professional person in suit, abstract geometric shapes, subtle shadows, corporate illustration style, layered depth, soft reflections, modern gradients, isometric elements, corporate icons, workflow arrows, clean grid layout";
        Palette.pastel := None;
        Palette.secondary := None |});
    ("marketing",
     {| Palette.background := "#FFF0F5";
        Palette.background_alt := "#FFE4EC";
        Palette.accent_bg := "#FED7E2";
        Palette.font_color := "#702459";
        Palette.accent := "#ED64A6";
        Palette.highlight := "#F687B3";
        Palette.light := "#FFF5F7";
        Palette.objects := "phone with instagram, ring light, camera, pink laptop, content calendar, floating emojis, aesthetic props, neon frame, tripod, mic, story stickers, analytics dashboard, brand mood board, marketing funnel chart";
        Palette.creative_elements := "social media icons, heart icons, like buttons, influencer aesthetic, pink neon signs, gradient overlays, viral reel UI, sparkles, glow effects, motion arrows, floating reactions, swipe indicators, CTA buttons";
        Palette.pastel := None;
        Palette.secondary := None |});
    ("technology",
     {| Palette.background := "#E8E0FF";
        Palette.background_alt := "#D4C4FF";
        Palette.accent_bg := "#C5B3FF";
        Palette.font_color := "#2D1B69";
        Palette.accent := "#7C3AED";
        Palette.highlight := "#A855F7";
        Palette.light := "#F5F0FF";
        Palette.objects := "modern laptop, smartphone, tablet, headphones, smart devices, code on screen, holographic screen, glowing keyboard, server racks, VR headset, robotic arm, digital assistant orb, microchips, circuit boards";
        Palette.creative_elements := "circuit patterns, data visualization, tech icons, futuristic UI elements, neon lines, AI brain illustration, cyber grid, HUD overlays, sci-fi lighting, volumetric glow, matrix style code rain";
        Palette.pastel := None;
        Palette.secondary := None |});
    ("health",
     {| Palette.background := "#CCFBF1";
        Palette.background_alt := "#99F6E4";
        Palette.accent_bg := "#5EEAD4";
        Palette.font_color := "#134E4A";
        Palette.accent := "#14B8A6";
        Palette.highlight := "#2DD4BF";
        Palette.light := "#F0FDFA";
        Palette.objects := "yoga mat, water bottle, fresh fruits, plants, fitness equipment, smoothie, smart watch, resistance bands, dumbbells, foam roller, gym towel, protein shaker";
        Palette.creative_elements := "leaves, wellness icons, heart rate graphics, healthy food flat-lay, calm gradients, sunlight rays, zen symbols, breathing patterns, organic shapes, mindfulness icons";
        Palette.pastel := None;
        Palette.secondary := None |});
    ("lifestyle",
     {| Palette.background := "#FEF3C7";
        Palette.background_alt := "#FDE68A";
        Palette.accent_bg := "#FCD34D";
        Palette.font_color := "#78350F";
        Palette.accent := "#F59E0B";
        Palette.highlight := "#FBBF24";
        Palette.light := "#FFFBEB";
        Palette.objects := "planner, coffee, cozy blanket, candles, books, plants, aesthetic desk, ceramic mug, fairy lights, incense, journal, wooden tray, cushions, home decor items";
        Palette.creative_elements := "lifestyle flat-lay, cozy room aesthetic, morning routine items, self-care products, warm shadows, soft textures, lifestyle vignette, ambient lighting, neutral tones";
        Palette.pastel := None;
        Palette.secondary := None |});
    ("education",
     {| Palette.background := "#E0F7FF";
        Palette.background_alt := "#B8ECFF";
        Palette.accent_bg := "#9BE0FF";
        Palette.font_color := "#0C4A6E";
        Palette.accent := "#0EA5E9";
        Palette.highlight := "#38BDF8";
        Palette.light := "#F0FAFF";
        Palette.objects := "books, notebook, pencils, glasses, desk lamp, apple, graduation cap, sticky notes, digital tablet, chalk, ruler, school bag, whiteboard";
        Palette.creative_elements := "study desk setup, lightbulb ideas, brain icons, learning graphics, doodle arrows, chalkboard texture, mind maps, academic diagrams, educational symbols";
        Palette.pastel := None;
        Palette.secondary := None |});
    ("creative",
     {| Palette.background := "#F5D0FE";
        Palette.background_alt := "#E879F9";
        Palette.accent_bg := "#D946EF";
        Palette.font_color := "#701A75";
        Palette.accent := "#C026D3";
        Palette.highlight := "#E879F9";
        Palette.light := "#FDF4FF";
        Palette.objects := "camera, art supplies, sketchbook, color palette, iPad with stylus, paint tubes, creative props, scissors, brushes, markers, canvas board, glue tape";
        Palette.creative_elements := "paint splashes, creative tools, artistic workspace, colorful illustrations, abstract blobs, brush strokes, layered collage, surreal elements, mixed media textures";
        Palette.pastel := None;
        Palette.secondary := None |});
    ("travel",
     {| Palette.background := "#CFFAFE";
        Palette.background_alt := "#A5F3FC";
        Palette.accent_bg := "#67E8F9";
        Palette.font_color := "#164E63";
        Palette.accent := "#06B6D4";
        Palette.highlight := "#22D3EE";
        Palette.light := "#ECFEFF";
        Palette.objects := "passport, boarding pass, camera, suitcase, vintage map, sunglasses, airplane, travel stickers, compass, backpack, travel journal, map pins";
        Palette.creative_elements := "world map, destination pins, travel icons, adventure aesthetic, clouds, motion trails, paper cutouts, postcard style, travel doodles";
        Palette.pastel := None;
        Palette.secondary := None |});
    ("finance",
     {| Palette.background := "#D4FFED";
        Palette.background_alt := "#A7F3D0";
        Palette.accent_bg := "#6EE7B7";
        Palette.font_color := "#064E3B";
        Palette.accent := "#10B981";
        Palette.highlight := "#34D399";
        Palette.light := "#ECFDF5";
        Palette.objects := "calculator, coins, money graphics, financial charts, piggy bank, laptop with graphs, credit cards, wallet, receipt slips, budget notebook";
        Palette.creative_elements := "money icons, growth arrows, financial infographics, investment graphics, glowing bars, stock tickers, upward graphs, profit indicators";
        Palette.pastel := None;
        Palette.secondary := None |});
    ("fashion",
     {| Palette.background := "#FCE7F3";
        Palette.background_alt := "#FBCFE8";
        Palette.accent_bg := "#F9A8D4";
        Palette.font_color := "#831843";
        Palette.accent := "#EC4899";
        Palette.highlight := "#F472B6";
        Palette.light := "#FDF2F8";
        Palette.objects := "clothing rack, fashion accessories, sunglasses, handbag, stylish outfits, mirror, heels, perfume bottle, jewelry, fabric swatches";
        Palette.creative_elements := "fashion sketches, runway aesthetic, style icons, trendy flat-lay, editorial lighting, magazine layout, fashion grids";
        Palette.pastel := None;
        Palette.secondary := None |});
    ("food",
     {| Palette.background := "#FFEDD5";
        Palette.background_alt := "#FDBA74";
        Palette.accent_bg := "#FB923C";
        Palette.font_color := "#7C2D12";
        Palette.accent := "#F97316";
        Palette.highlight := "#FB923C";
        Palette.light := "#FFF7ED";
        Palette.objects := "beautiful food flat-lay, coffee, cooking ingredients, elegant plates, wooden table, herbs, napkin, cutlery, spices, sauce bowls";
        Palette.creative_elements := "food photography, recipe cards, kitchen aesthetic, chef icons, steam effects, rustic textures, overhead composition";
        Palette.pastel := None;
        Palette.secondary := None |});
    ("default",
     {| Palette.background := "#E0E7FF";
        Palette.background_alt := "#C7D2FE";
        Palette.accent_bg := "#A5B4FC";
        Palette.font_color := "#312E81";
        Palette.accent := "#6366F1";
        Palette.highlight := "#818CF8";
        Palette.light := "#EEF2FF";
        Palette.objects := "laptop, notebook, smartphone, coffee cup, modern desk items, ambient props, minimal decor, clean surfaces, neutral accessories";
        Palette.creative_elements := "clean minimalist aesthetic, professional workspace, modern design elements, soft gradients, depth layering, balanced composition";
        Palette.pastel := None;
        Palette.secondary := None |}) ].

(** ** Layer 1: rotation through the objects of the topic *)

(** [xs[i]] for an integer index that is not negative. *)
Definition getindex (xs : list string) (i : Z) : result string :=
  if (i <? 0)%Z then Raise IndexError
  else
    match nth_error xs (Z.to_nat i) with
    | Some x => Ok x
    | None => Raise IndexError
    end.

(** The loop [for i in range(3)] that fills [selected_objects]. *)
Fixpoint select_objects (range : list Z) (all_objects : list string)
    (object_index : Z) (selected_objects : list string)
  : result (list string) :=
  match range with
  | [] => Ok selected_objects
  | i :: range' =>
      let idx := ((object_index + i) mod Z.of_nat (List.length all_objects))%Z in
      obj <- getindex all_objects idx ;;
      if negb (Py.mem obj selected_objects)
      then select_objects range' all_objects object_index
             (selected_objects ++ [obj])%list
      else select_objects range' all_objects object_index selected_objects
  end.

(** The two forms of [objects_instruction], by the fields that the
    f-string interpolates. *)
Inductive ObjectsInstruction : Type :=
| Layer2 (slide_title : string) (context : SlideVisualContext)
| Layer1 (topic_category selected_objects_str selected_creative topic : string).

(** The Layer-1 branch of [generate_enhanced_image_prompt]. *)
Definition layer1_instruction (color_palette : Palette.t)
    (topic_category topic : string) (slide_number : Z)
  : result ObjectsInstruction :=
  let objects_str := Palette.objects color_palette in
  let creative_str := Palette.creative_elements color_palette in
  let all_objects := map Py.strip (Py.split "," objects_str) in
  let all_creative := map Py.strip (Py.split "," creative_str) in
  let object_index :=
    ((slide_number - 1) mod Z.of_nat (List.length all_objects))%Z in
  selected_objects <- select_objects [0; 1; 2]%Z all_objects object_index [] ;;
  let selected_objects_str := Py.join ", " (firstn 3 selected_objects) in
  let creative_index :=
    ((slide_number - 1) mod Z.of_nat (List.length all_creative))%Z in
  selected_creative <- getindex all_creative creative_index ;;
  Ok (Layer1 topic_category selected_objects_str selected_creative topic).

(** ** ColorMath in HLS space, palettes with brand colours, and the
    image prompt

    Between [hex_to_rgb] and [rgb_to_hex] the pastel and the
    complementary colour are computed on floating-point numbers with
    [colorsys.rgb_to_hls] and [colorsys.hls_to_rgb] of the Python
    library.  That arithmetic is a parameter: a function from the
    integer channels to the three integers [int(r*255)], [int(g*255)],
    [int(b*255)], which may raise (for instance [int()] of a NaN).
    [hashlib.md5] and the generator of [random] are parameters too. *)

Record ImagePrompt : Type := {
  prompt_template_key : string;
  prompt_flow_desc : string;
  prompt_bg_color : string;
  prompt_bg_alt : string;
  prompt_accent_color : string;
  prompt_objects_instruction : ObjectsInstruction
}.

Section Engine.

Variable float : Type.

(** The default [lightness_boost], 0.25. *)
Variable default_boost : float.

(** [l = min(1.0, l + boost)], [s = max(0.3, s * 0.6)] in HLS space. *)
Variable pastel_channels : Z * Z * Z -> float -> result (Z * Z * Z).

(** [h = (h + 0.5) % 1.0] in HLS space. *)
Variable complementary_channels : Z * Z * Z -> result (Z * Z * Z).

(** [int(hashlib.md5(s.encode()).hexdigest()[:8], 16)] *)
Variable md5_hex8 : string -> Z.

Variable rng : Type.
Variable seeded : Z -> rng.
Variable randbelow : rng -> nat -> nat * rng.

(** [generate_pastel_variant(hex_color, lightness_boost)] *)
Definition generate_pastel_variant (hex_color : string)
    (lightness_boost : float) : result string :=
  try_except
    (rgb <- hex_to_rgb hex_color ;;
     rgb' <- pastel_channels rgb lightness_boost ;;
     Ok (rgb_to_hex rgb'))
    "#FFE4EC".

(** [generate_complementary_color(hex_color)] *)
Definition generate_complementary_color (hex_color : string)
  : result string :=
  try_except
    (rgb <- hex_to_rgb hex_color ;;
     rgb' <- complementary_channels rgb ;;
     Ok (rgb_to_hex rgb'))
    "#A29BFE".

(** [get_topic_color_palette(topic, brand_colors)] *)
Definition get_topic_color_palette (topic : string)
    (brand_colors : option (list string)) : result Palette.t :=
  let category := get_topic_category topic in
  default_palette <- getitem TOPIC_COLOR_PALETTES "default" ;;
  let base_palette := get_or TOPIC_COLOR_PALETTES category default_palette in
  match brand_colors with
  | Some (first :: others) =>
      pastel <- generate_pastel_variant first default_boost ;;
      Ok {| Palette.background := Palette.background base_palette;
            Palette.background_alt := Palette.background_alt base_palette;
            Palette.accent_bg := Palette.accent_bg base_palette;
            Palette.font_color := Palette.font_color base_palette;
            Palette.accent := first;
            Palette.highlight := Palette.highlight base_palette;
            Palette.light := Palette.light base_palette;
            Palette.objects := Palette.objects base_palette;
            Palette.creative_elements :=
              Palette.creative_elements base_palette;
            Palette.pastel := Some pastel;
            Palette.secondary :=
              match others with
              | second :: _ => Some second
              | [] => None
              end |}
  | _ => Ok base_palette
  end.

(** [generate_carousel_flow_seed(project_id, topic)] *)
Definition generate_carousel_flow_seed (project_id : Z) (topic : string) : Z :=
  let seed_string := Py.str project_id ++ "-" ++ topic in
  md5_hex8 seed_string.

(** [generate_enhanced_image_prompt(...)]: the values interpolated in
    the prompt, from the state [g] of the shared generator.  The
    fixed text of the prompt around them is not modelled; [platform]
    is not read by the function. *)
Definition generate_enhanced_image_prompt (topic : string)
    (slide_number total_slides : Z) (style : option string)
    (brand_colors : option (list string)) (project_id : option Z)
    (slide_title slide_description : option string) (g : rng)
  : result ImagePrompt * rng :=
  let seed :=
    generate_carousel_flow_seed
      (match project_id with Some p => p | None => 0%Z end) topic in
  let (chosen, g') :=
    select_design_template rng seeded randbelow (Some seed) style g in
  (template_key <- chosen ;;
   template <- getitem DESIGN_TEMPLATES template_key ;;
   color_palette <- get_topic_color_palette topic brand_colors ;;
   let topic_category := get_topic_category topic in
   slide_visual_context <-
     match slide_title, slide_description with
     | Some title, Some description =>
         if truthy slide_title && truthy slide_description then
           context <- get_slide_visual_context title description
                        slide_number total_slides topic ;;
           Ok (Some (title, context))
         else Ok None
     | _, _ => Ok None
     end ;;
   let flow_desc :=
     get_slide_flow_description slide_number total_slides
       (flow_element template) in
   objects_instruction <-
     match slide_visual_context with
     | Some (title, context) => Ok (Layer2 title context)
     | None =>
         layer1_instruction color_palette topic_category topic slide_number
     end ;;
   Ok {| prompt_template_key := template_key;
         prompt_flow_desc := flow_desc;
         prompt_bg_color := Palette.background color_palette;
         prompt_bg_alt := Palette.background_alt color_palette;
         prompt_accent_color := Palette.accent color_palette;
         prompt_objects_instruction := objects_instruction |},
   g').

End Engine.

(** ** Auxiliary definitions for the statements *)

(** Every 8-bit character, for case analysis by computation. *)
Definition all_ascii : list ascii := map ascii_of_nat (seq 0 256).

(** A text made of hexadecimal digits only. *)
Fixpoint all_hex (s : string) : bool :=
  match s with
  | EmptyString => true
  | String c r =>
      match PyInt.digit16 c with
      | Some _ => all_hex r
      | None => false
      end
  end.

(** Exactly 6 hexadecimal digits. *)
Definition six_hex_digits (s : string) : bool :=
  (String.length s =? 6)%nat && all_hex s.

(** Exactly [#RRGGBB]. *)
Definition hash_rrggbb (s : string) : bool :=
  match s with
  | String "#" r => six_hex_digits r
  | _ => false
  end.

(** A triple of channels, each in [0, 255]. *)
Definition channels_in_range (rgb : Z * Z * Z) : Prop :=
  let '(r, g, b) := rgb in
  (0 <= r <= 255 /\ 0 <= g <= 255 /\ 0 <= b <= 255)%Z.

(** The candidate set implied by a style hint, in the words of the
    specification: the preferred list of the lower-cased hint filtered to
    the templates that exist, when the hint is in the style-preference
    mapping and that filtered list is not empty; every template key
    otherwise. *)
Definition candidate_set (style_hint : option string) : list string :=
  let templates := map fst DESIGN_TEMPLATES in
  match style_hint with
  | None => templates
  | Some hint =>
      match lookup (Py.lower hint) style_preferences with
      | None => templates
      | Some preferred =>
          match filter (fun t => Py.mem t templates) preferred with
          | [] => templates
          | valid => valid
          end
      end
  end.

(** A linear congruential generator: an instance of the generator that
    [select_design_template] takes as a parameter. *)
Module SampleRandom.

Definition rng : Type := Z.

Definition seeded (n : Z) : rng := n.

Definition randbelow (g : rng) (n : nat) : nat * rng :=
  (Z.to_nat (g mod Z.of_nat n),
   ((g * 1103515245 + 12345) mod 2147483648)%Z).

End SampleRandom.

(** Every character of a text is in a class. *)
Fixpoint all_chars (p : ascii -> bool) (s : string) : bool :=
  match s with
  | EmptyString => true
  | String c r => p c && all_chars p r
  end.

(** A run of at least 3 lower-case letters. *)
Definition good_word (w : string) : Prop :=
  (3 <= String.length w)%nat /\ all_chars Py.is_lower w = true.

(** The elements of a list in the order of their first occurrence, each
    one once, leaving out those already [seen]. *)
Fixpoint first_seen (seen l : list string) : list string :=
  match l with
  | [] => []
  | x :: r =>
      if Py.mem x seen then first_seen seen r
      else x :: first_seen (x :: seen) r
  end.

(** Keyword extraction in the words of the specification: the
    alphabetic runs of the lower-cased text, without the stop words, in
    first-seen order without duplicates, truncated to [max_keywords]. *)
Definition keywords_first_seen (title description : string)
    (max_keywords : Z) : list string :=
  let words := findall_words (Py.lower (title ++ " " ++ description)) in
  firstn (Z.to_nat max_keywords)
    (first_seen [] (filter (fun w => negb (Py.mem w stop_words)) words)).

(** The static palette of a category:
    [TOPIC_COLOR_PALETTES.get(category, TOPIC_COLOR_PALETTES['default'])]. *)
Definition category_palette (category : string) : option Palette.t :=
  match lookup category TOPIC_COLOR_PALETTES with
  | Some palette => Some palette
  | None => lookup "default" TOPIC_COLOR_PALETTES
  end.

(** The list held by a comma-separated field of a palette. *)
Definition static_list (field : string) : list string :=
  map Py.strip (Py.split "," field).

(** The three entries of a list read cyclically from [start] exist and
    are pairwise distinct. *)
Definition window_distinct (xs : list string) (start : Z) : bool :=
  let n := Z.of_nat (List.length xs) in
  match getindex xs start,
        getindex xs ((start + 1) mod n)%Z,
        getindex xs ((start + 2) mod n)%Z with
  | Ok o1, Ok o2, Ok o3 =>
      negb (String.eqb o1 o2) && negb (String.eqb o1 o3)
      && negb (String.eqb o2 o3)
  | _, _, _ => false
  end.

Definition windows_distinct (xs : list string) : bool :=
  forallb (fun k => window_distinct xs (Z.of_nat k)) (seq 0 (List.length xs)).

(** ** The rest of the prompt generator: colour accessors, exports and
    the content prompt *)

(** [s.upper()], on ASCII letters. *)
Definition upper_char (c : ascii) : ascii :=
  if Py.is_lower c then ascii_of_nat (nat_of_ascii c - 32) else c.

Fixpoint upper (s : string) : string :=
  match s with
  | EmptyString => EmptyString
  | String c r => String (upper_char c) (upper r)
  end.

(** [TOPIC_COLOR_PALETTES.get(get_topic_category(topic),
    TOPIC_COLOR_PALETTES['default'])], the first two lines of the three
    colour accessors and of [generate_slide_content_prompt]. *)
Definition topic_palette (topic : string) : result Palette.t :=
  let topic_category := get_topic_category topic in
  default_palette <- getitem TOPIC_COLOR_PALETTES "default" ;;
  Ok (get_or TOPIC_COLOR_PALETTES topic_category default_palette).

(** [get_topic_font_color(topic)] *)
Definition get_topic_font_color (topic : string) : result string :=
  palette <- topic_palette topic ;;
  Ok (Palette.font_color palette).

(** [get_topic_background_color(topic)] *)
Definition get_topic_background_color (topic : string) : result string :=
  palette <- topic_palette topic ;;
  Ok (Palette.background palette).

(** [get_topic_accent_color(topic)] *)
Definition get_topic_accent_color (topic : string) : result string :=
  palette <- topic_palette topic ;;
  Ok (Palette.accent palette).

(** [get_all_design_templates()] *)
Definition get_all_design_templates : list (string * string) :=
  map (fun entry => (fst entry, name (snd entry))) DESIGN_TEMPLATES.

(** [get_all_topic_categories()] *)
Definition get_all_topic_categories : list string :=
  map fst TOPIC_COLOR_PALETTES.

(** The f-string of [generate_slide_content_prompt]. *)
Definition content_prompt_text (topic : string) (slide_count : Z)
    (platform topic_category bg_color font_color accent_color : string)
  : string :=
  "Create " ++ Py.str slide_count ++ " carousel slides for " ++ dquote
  ++ topic ++ dquote ++ " that will go VIRAL on " ++ platform ++ ".

===== MANDATORY COLOR SCHEME FOR " ++ upper topic_category ++ " TOPIC =====
This is a " ++ topic_category
  ++ " carousel. Use these EXACT colors for ALL slides:
- background_color: " ++ dquote ++ bg_color ++ dquote ++ " (this is the "
  ++ topic_category ++ " theme background)
- font_color: " ++ dquote ++ font_color ++ dquote
  ++ " (this dark color matches the " ++ topic_category ++ " theme)
- accent_color: " ++ dquote ++ accent_color ++ dquote
  ++ " (for highlighted words)

DO NOT deviate from these colors - they are specifically designed for "
  ++ topic_category ++ " content!

===== CONTENT REQUIREMENTS =====
For each slide, provide:
- title: Compelling title (5-8 words) with ONE power word to emphasize
- highlight_word: The single most impactful word from the title
- description: Clear, valuable description (1-2 sentences)
- image_prompt: Description for background (NO TEXT in image, just objects/illustrations)
- background_color: " ++ dquote ++ bg_color ++ dquote
  ++ " (SAME for ALL slides)
- font_color: " ++ dquote ++ font_color ++ dquote ++ " (SAME for ALL slides)
- accent_color: " ++ dquote ++ accent_color ++ dquote
  ++ " (for highlighted word)

===== SLIDE STRUCTURE =====
- Slide 1: Hook/Attention grabber - Make them curious
- Slides 2-" ++ Py.str (slide_count - 1)
  ++ ": Value delivery - Each with ONE key insight  
- Slide " ++ Py.str slide_count
  ++ ": Call to action - What should they do next?

===== IMAGE PROMPT GUIDELINES =====
Each image_prompt should describe:
1. " ++ topic_category ++ "-themed light background
2. Topic-relevant objects at edges/corners (flat-lay style)
3. OR a stylized illustrated person relevant to the topic
4. CLEAR center area for text (NO TEXT in image itself!)
5. Same visual theme across all slides

Return ONLY a JSON array with " ++ Py.str slide_count
  ++ " objects. No explanations.
CRITICAL: Use " ++ dquote ++ bg_color ++ dquote
  ++ " for background_color and " ++ dquote ++ font_color ++ dquote
  ++ " for font_color in ALL slides!".

(** [generate_slide_content_prompt(topic, slide_count, platform, style)];
    [style] is not read. *)
Definition generate_slide_content_prompt (topic : string) (slide_count : Z)
    (platform style : string) : result string :=
  let topic_category := get_topic_category topic in
  default_palette <- getitem TOPIC_COLOR_PALETTES "default" ;;
  let palette := get_or TOPIC_COLOR_PALETTES topic_category default_palette in
  let bg_color := Palette.background palette in
  let font_color := Palette.font_color palette in
  let accent_color := Palette.accent palette in
  Ok (content_prompt_text topic slide_count platform topic_category
        bg_color font_color accent_color).

(** * Fallback content of the views ([api/views.py])

    The helpers that give a carousel its slides when the text model
    fails, the validation of colours and the mapping of layouts.  A
    slide is the dict of these functions; [sc_layout] is the ['layout']
    key, which only validated slides have. *)

Record SlideContent : Type := {
  sc_title : string;
  sc_description : string;
  sc_image_prompt : string;
  sc_background_color : string;
  sc_font_color : string;
  sc_layout : option string
}.

(** [xs[i]] for any integer: a negative index counts from the end,
    [IndexError] out of range. *)
Definition py_getitem {A : Type} (xs : list A) (i : Z) : result A :=
  let n := Z.of_nat (List.length xs) in
  let j := if (i <? 0)%Z then (i + n)%Z else i in
  if (j <? 0)%Z || (n <=? j)%Z then Raise IndexError
  else
    match nth_error xs (Z.to_nat j) with
    | Some x => Ok x
    | None => Raise IndexError
    end.

(** [range(n)] *)
Definition py_range (n : Z) : list Z := map Z.of_nat (seq 0 (Z.to_nat n)).

(** [xs[:k]]: the first [k] items, all but the last [-k] for a negative
    [k]. *)
Definition py_slice_to {A : Type} (xs : list A) (k : Z) : list A :=
  if (k <? 0)%Z then firstn (Z.to_nat (Z.of_nat (List.length xs) + k)) xs
  else firstn (Z.to_nat k) xs.

(** ** [validate_hex_color] *)

Definition is_upper_hex (c : ascii) : bool :=
  let n := nat_of_ascii c in
  Py.is_digit c || ((65 <=? n)%nat && (n <=? 70)%nat).

(** What is left of a text after [n] characters of [[0-9A-F]], if it
    starts with as many. *)
Fixpoint upper_hex_run (n : nat) (s : string) : option string :=
  match n with
  | O => Some s
  | S n' =>
      match s with
      | String c r => if is_upper_hex c then upper_hex_run n' r else None
      | EmptyString => None
      end
  end.

(** [re.match(r'^#[0-9A-F]{n}$', s)]: [$] matches at the end of the text
    and also before a line feed that ends it. *)
Definition match_hash_hex (n : nat) (s : string) : bool :=
  match s with
  | String "#" r =>
      match upper_hex_run n r with
      | Some rest =>
          String.eqb rest EmptyString
          || String.eqb rest (String "010" EmptyString)
      | None => false
      end
  | _ => false
  end.

(** [s[i]] as a one-character string, for [i >= 0]. *)
Definition char_at (s : string) (i : nat) : result string :=
  match String.get i s with
  | Some c => Ok (String c EmptyString)
  | None => Raise IndexError
  end.

(** [validate_hex_color(color)], for a colour given as a string or
    [None]. *)
Definition validate_hex_color (color : option string) : result string :=
  match color with
  | None => Ok "#FFFFFF"
  | Some text =>
      if negb (truthy color) then Ok "#FFFFFF"
      else
        let color := upper (Py.strip text) in
        let color :=
          if negb (Py.startswith "#" color) then "#" ++ color else color in
        if match_hash_hex 6 color then Ok color
        else if match_hash_hex 3 color then
          c1 <- char_at color 1 ;;
          c2 <- char_at color 2 ;;
          c3 <- char_at color 3 ;;
          Ok ("#" ++ c1 ++ c1 ++ c2 ++ c2 ++ c3 ++ c3)
        else Ok "#405DE6"
  end.

(** ** [create_default_slides] *)

Definition default_color_palettes : list (string * list (string * string)) :=
  [ ("instagram",
     [("#405DE6", "#FFFFFF"); ("#8A2BE2", "#FFFFFF"); ("#FF6B6B", "#FFFFFF"); ("#4ECDC4", "#000000"); ("#FFD166", "#000000")]);
    ("linkedin",
     [("#0A66C2", "#FFFFFF"); ("#333333", "#FFFFFF"); ("#666666", "#FFFFFF"); ("#999999", "#000000"); ("#CCCCCC", "#000000")]);
    ("twitter",
     [("#1DA1F2", "#FFFFFF"); ("#14171A", "#FFFFFF"); ("#657786", "#FFFFFF"); ("#AAB8C2", "#000000"); ("#E1E8ED", "#000000")]);
    ("presentation",
     [("#2E86AB", "#FFFFFF"); ("#A23B72", "#FFFFFF"); ("#F18F01", "#000000"); ("#C73E1D", "#FFFFFF"); ("#6BAA75", "#000000")]) ].

Record SlideTemplate : Type := {
  tpl_title : string;
  tpl_description : string;
  tpl_suffix : string
}.

(** The [templates] list of [create_default_slides]. *)
Definition default_templates (topic : string) : list SlideTemplate :=
  [ {| tpl_title := "Unlock " ++ topic ++ " Excellence";
       tpl_description := "Discover the essential concepts that drive success in " ++ topic ++ ".";
       tpl_suffix := "minimal clean background with soft gradients" |};
    {| tpl_title := "Master " ++ topic ++ " Fundamentals";
       tpl_description := "Build a strong foundation with core " ++ topic
         ++ " principles.";
       tpl_suffix := "professional geometric shapes and subtle patterns" |};
    {| tpl_title := "Transform Your " ++ topic ++ " Journey";
       tpl_description := "Implement proven strategies to accelerate your " ++ topic ++ " growth.";
       tpl_suffix := "modern abstract design with flowing elements" |};
    {| tpl_title := "Elevate Your " ++ topic ++ " Skills";
       tpl_description := "Take your expertise to the next level with advanced techniques.";
       tpl_suffix := "sophisticated color gradients and clean lines" |};
    {| tpl_title := "Dominate " ++ topic ++ " Strategies";
       tpl_description := "Learn industry-leading approaches that deliver results.";
       tpl_suffix := "premium design with elegant simplicity" |};
    {| tpl_title := "Navigate " ++ topic ++ " Like a Pro";
       tpl_description := "Master the skills needed to excel in " ++ topic
         ++ ".";
       tpl_suffix := "contemporary layout with subtle textures" |};
    {| tpl_title := "Revolutionize Your " ++ topic ++ " Approach";
       tpl_description := "Discover innovative methods that transform outcomes.";
       tpl_suffix := "cutting-edge design with minimalist elements" |};
    {| tpl_title := "Conquer " ++ topic ++ " Challenges";
       tpl_description := "Overcome obstacles and achieve " ++ topic
         ++ " mastery.";
       tpl_suffix := "bold and confident design aesthetic" |} ].

(** The loop of [create_default_slides] over [range(...)].  Every
    palette of the table has 5 pairs, so the modulus is not zero. *)
Fixpoint default_slides_loop (range : list Z)
    (colors : list (string * string)) (templates : list SlideTemplate)
    (platform topic : string) (slides : list SlideContent)
  : result (list SlideContent) :=
  match range with
  | [] => Ok slides
  | i :: range' =>
      let color_idx := (i mod Z.of_nat (List.length colors))%Z in
      colour <- py_getitem colors color_idx ;;
      template <- py_getitem templates i ;;
      let slide :=
        {| sc_title := tpl_title template;
           sc_description := tpl_description template;
           sc_image_prompt :=
             "Minimal saystory " ++ platform ++ " background: "
             ++ tpl_suffix template ++ ", perfect for professional "
             ++ topic ++ " content, text-friendly design";
           sc_background_color := fst colour;
           sc_font_color := snd colour;
           sc_layout := None |} in
      default_slides_loop range' colors templates platform topic
        (slides ++ [slide])%list
  end.

(** [create_default_slides(topic, slide_count, platform, style)];
    [style] is not read. *)
Definition create_default_slides (topic : string) (slide_count : Z)
    (platform style : string) : result (list SlideContent) :=
  instagram <- getitem default_color_palettes "instagram" ;;
  let colors := get_or default_color_palettes platform instagram in
  let templates := default_templates topic in
  default_slides_loop
    (py_range (Z.min slide_count (Z.of_nat (List.length templates))))
    colors templates platform topic [].

(** ** [create_fallback_slide] *)

Definition fallback_color_palettes : list (string * list (string * string)) :=
  [ ("instagram",
     [("#405DE6", "#FFFFFF"); ("#8A2BE2", "#FFFFFF"); ("#FF6B6B", "#FFFFFF"); ("#4ECDC4", "#000000"); ("#FFD166", "#000000")]);
    ("linkedin",
     [("#0A66C2", "#FFFFFF"); ("#333333", "#FFFFFF"); ("#666666", "#FFFFFF"); ("#999999", "#000000"); ("#CCCCCC", "#000000")]);
    ("twitter",
     [("#1DA1F2", "#FFFFFF"); ("#14171A", "#FFFFFF"); ("#657786", "#FFFFFF"); ("#AAB8C2", "#000000"); ("#E1E8ED", "#000000")]) ].

Definition saystory_titles (topic : string) : list string :=
  [ "Unlock " ++ topic ++ " Success";
    "Master " ++ topic ++ " Fundamentals";
    "Transform Your " ++ topic ++ " Journey";
    "Elevate Your " ++ topic ++ " Skills";
    "Discover " ++ topic ++ " Excellence";
    "Navigate " ++ topic ++ " Like a Pro";
    "Accelerate " ++ topic ++ " Growth";
    "Dominate " ++ topic ++ " Strategies";
    "Revolutionize Your " ++ topic ++ " Approach";
    "Conquer " ++ topic ++ " Challenges" ].

Definition saystory_descriptions (topic : string) : list string :=
  [ "Discover the essential concepts that drive success in " ++ topic ++ ".";
    "Master the core principles behind effective " ++ topic ++ " strategies.";
    "Transform your approach with proven " ++ topic ++ " techniques.";
    "Elevate your skills with professional " ++ topic ++ " insights.";
    "Unlock excellence through strategic " ++ topic ++ " implementation.";
    "Navigate complex " ++ topic ++ " challenges with confidence.";
    "Accelerate your progress with expert " ++ topic ++ " guidance.";
    "Dominate your field with advanced " ++ topic ++ " strategies.";
    "Revolutionize your results with innovative " ++ topic ++ " methods.";
    "Conquer obstacles and achieve " ++ topic ++ " mastery." ].

(** [create_fallback_slide(topic, slide_number, platform, style)] *)
Definition create_fallback_slide (topic : string) (slide_number : Z)
    (platform style : string) : result SlideContent :=
  instagram <- getitem fallback_color_palettes "instagram" ;;
  let colors := get_or fallback_color_palettes platform instagram in
  colour <- py_getitem colors
              ((slide_number - 1) mod Z.of_nat (List.length colors))%Z ;;
  let title_idx :=
    Z.min (slide_number - 1)
          (Z.of_nat (List.length (saystory_titles topic)) - 1) in
  let desc_idx :=
    Z.min (slide_number - 1)
          (Z.of_nat (List.length (saystory_descriptions topic)) - 1) in
  title <- py_getitem (saystory_titles topic) title_idx ;;
  description <- py_getitem (saystory_descriptions topic) desc_idx ;;
  Ok {| sc_title := title;
        sc_description := description;
        sc_image_prompt :=
          "Minimal saystory " ++ platform ++ " background with soft "
          ++ style ++ " gradients, subtle abstract shapes, and clean professional design perfect for "
          ++ topic ++ " content";
        sc_background_color := fst colour;
        sc_font_color := snd colour;
        sc_layout := None |}.

(** ** [map_layout] *)

(** [s.replace(a, b)] for one-character [a] and [b]. *)
Fixpoint replace_char (a b : ascii) (s : string) : string :=
  match s with
  | EmptyString => EmptyString
  | String c r =>
      String (if Ascii.eqb c a then b else c) (replace_char a b r)
  end.

Definition legacy_layouts : list string :=
  ["image-left"; "image-right"; "image-top"; "full-background"; "table"].

Definition layout_mapping : list (string * string) :=
  [ ("hero_split", "image-right");
    ("visual_focus", "full-background");
    ("card_grid", "image-left");
    ("step_flow", "image-right");
    ("stat_focus", "image-top") ].

(** [map_layout(layout_name, slide_num, total_slides)], the local
    function of [select_preview_and_create_project] and of
    [generate_saystory_slides_content], for a layout given as a string. *)
Definition map_layout (layout_name : string) (slide_num total_slides : Z)
  : string :=
  let layout_name := replace_char " " "_" (Py.strip (Py.lower layout_name)) in
  if Py.mem layout_name legacy_layouts then layout_name
  else get_or layout_mapping layout_name "image-right".

(** A colour as [validate_hex_color] returns it: [#] and 6 characters of
    [[0-9A-F]]. *)
Definition upper_hex_colour (s : string) : bool :=
  match s with
  | String "#" r => (String.length r =? 6)%nat && all_chars is_upper_hex r
  | _ => false
  end.

Fixpoint last_char (s : string) : option ascii :=
  match s with
  | EmptyString => None
  | String c EmptyString => Some c
  | String _ r => last_char r
  end.

(** The slide that [create_default_slides] makes at position [i]: the
    template of that position with the colour pair of position
    [i mod len(colors)]. *)
Definition default_slide_at (colors : list (string * string))
    (templates : list SlideTemplate) (platform topic : string) (i : nat)
  : option SlideContent :=
  match nth_error colors (i mod List.length colors),
        nth_error templates i with
  | Some colour, Some template =>
      Some {| sc_title := tpl_title template;
              sc_description := tpl_description template;
              sc_image_prompt :=
                "Minimal saystory " ++ platform ++ " background: "
                ++ tpl_suffix template ++ ", perfect for professional "
                ++ topic ++ " content, text-friendly design";
              sc_background_color := fst colour;
              sc_font_color := snd colour;
              sc_layout := None |}
  | _, _ => None
  end.

(** A table of colour pairs for platforms: 5 pairs of colours [#RRGGBB]
    in upper case for each platform. *)
Definition platform_palettes_valid
    (table : list (string * list (string * string))) : bool :=
  forallb (fun entry =>
             (List.length (snd entry) =? 5)%nat
             && forallb (fun pair =>
                           upper_hex_colour (fst pair)
                           && upper_hex_colour (snd pair))
                        (snd entry))
          table.

(** ** The validation of the parsed slides in
    [generate_saystory_slides_content]

    The part of the function that follows the parsing of the response:
    the [for] loop over [slides_data[:slide_count]], the [def map_layout]
    that comes after it, and the [while] loop that pads the list.  What
    the loop reads from a slide object of the response is a parameter;
    each reading returns a value, or raises an exception that the
    [except Exception] of the loop body catches ([None]). *)

Section ParsedSlides.

Variable json : Type.

(** [str(slide.get(key, default)).strip()] *)
Variable text_field : json -> string -> string -> option string.

(** [validate_hex_color(slide.get(key, default))] *)
Variable colour_field : json -> string -> string -> option string.

(** [slide.get('layout', 'hero_split')] *)
Variable layout_field : json -> option string.

Variable topic platform style : string.
Variable slide_count : Z.

(** The dict display of the loop body, its entries evaluated in order.
    [map_layout_local] is the local variable [map_layout] of the
    function: it is bound by a [def] statement, so it is local to the
    whole body, and it has no value before that statement has run;
    reading it then raises [UnboundLocalError], before the arguments of
    the call are evaluated. *)
Definition validated_slide
    (map_layout_local : option (string -> Z -> Z -> string))
    (i : Z) (slide : json) : option SlideContent :=
  match text_field slide "title" (topic ++ " - Part " ++ Py.str (i + 1)) with
  | None => None
  | Some title =>
  match text_field slide "description" ("Learn about " ++ topic ++ ".") with
  | None => None
  | Some description =>
  match text_field slide "image_prompt"
          ("saystory " ++ platform ++ " template with " ++ style ++ " style")
  with
  | None => None
  | Some image_prompt =>
  match colour_field slide "background_color" "#405DE6" with
  | None => None
  | Some background_color =>
  match colour_field slide "font_color" "#FFFFFF" with
  | None => None
  | Some _ =>
  match colour_field slide "font_color" "#FFFFFF" with
  | None => None
  | Some font_color =>
  match map_layout_local with
  | None => None
  | Some map_layout_bound =>
  match layout_field slide with
  | None => None
  | Some layout =>
      Some {| sc_title := title;
              sc_description := description;
              sc_image_prompt := image_prompt;
              sc_background_color := background_color;
              sc_font_color := font_color;
              sc_layout :=
                Some (map_layout_bound layout (i + 1)%Z slide_count) |}
  end end end end end end end end.

(** [for i, slide in enumerate(...)]: the slide of the loop body, or the
    fallback slide of the [except] clause. *)
Fixpoint validation_loop
    (map_layout_local : option (string -> Z -> Z -> string))
    (items : list json) (i : Z) (validated_slides : list SlideContent)
  : result (list SlideContent) :=
  match items with
  | [] => Ok validated_slides
  | slide :: rest =>
      match validated_slide map_layout_local i slide with
      | Some validated =>
          validation_loop map_layout_local rest (i + 1)
            (validated_slides ++ [validated])%list
      | None =>
          fallback <- create_fallback_slide topic (i + 1) platform style ;;
          validation_loop map_layout_local rest (i + 1)
            (validated_slides ++ [fallback])%list
      end
  end.

(** [while len(validated_slides) < slide_count]: [None] when the fuel
    runs out before the condition fails. *)
Fixpoint pad_loop (fuel : nat) (validated_slides : list SlideContent)
  : option (result (list SlideContent)) :=
  if (Z.of_nat (List.length validated_slides) <? slide_count)%Z then
    match fuel with
    | O => None
    | S fuel' =>
        let i := Z.of_nat (List.length validated_slides) in
        match create_fallback_slide topic (i + 1) platform style with
        | Ok fallback => pad_loop fuel' (validated_slides ++ [fallback])%list
        | Raise e => Some (Raise e)
        end
    end
  else Some (Ok validated_slides).

(** From [slides_data] to the list returned. *)
Definition validate_parsed_slides (fuel : nat) (slides_data : list json)
  : option (result (list SlideContent)) :=
  (* the loop runs before [def map_layout] *)
  match validation_loop None (py_slice_to slides_data slide_count) 0 [] with
  | Ok validated_slides => pad_loop fuel validated_slides
  | Raise e => Some (Raise e)
  end.

End ParsedSlides.

(** * The image prompt as text, and the prompt of [generate_saystory_image]

    The prompts have characters outside ASCII.  A text is held as its
    UTF-8 encoding; [len] and the slices of Python count characters, the
    bytes that are not continuation bytes. *)

Module Utf8.

Definition is_continuation (c : ascii) : bool :=
  let n := nat_of_ascii c in (128 <=? n)%nat && (n <? 192)%nat.


(** [s[k:]] for [k >= 0]: without the first [k] characters. *)
Fixpoint drop (k : nat) (s : string) : string :=
  match s with
  | EmptyString => EmptyString
  | String c r =>
      if is_continuation c then drop k r
      else
        match k with
        | O => s
        | S k' => drop k' r
        end
  end.

(** [s[:n]] for [n >= 0]: the first [n] characters. *)
Fixpoint take (n : nat) (s : string) : string :=
  match s with
  | EmptyString => EmptyString
  | String c r =>
      if is_continuation c then String c (take n r)
      else
        match n with
        | O => EmptyString
        | S n' => String c (take n' r)
        end
  end.


End Utf8.









Section SaystoryImage.

Variable float : Type.
Variable default_boost : float.
Variable pastel_channels : Z * Z * Z -> float -> result (Z * Z * Z).
Variable md5_hex8 : string -> Z.
Variable rng : Type.
Variable seeded : Z -> rng.
Variable randbelow : rng -> nat -> nat * rng.




End SaystoryImage.

(** * Utilities ([api/utils.py]) *)

(** The [dimensions] dict of [get_platform_dimensions]. *)
Definition platform_dimensions : list (string * list (string * (Z * Z))) :=
  [ ("instagram",
     [("square", (1080, 1080)); ("portrait", (1080, 1350));
      ("story", (1080, 1920)); ("landscape", (1080, 608))]%Z);
    ("linkedin",
     [("square", (1080, 1080)); ("portrait", (1080, 1350));
      ("story", (1080, 1920)); ("landscape", (1200, 627))]%Z) ].

(** [get_platform_dimensions(platform, format_type)] *)
Definition get_platform_dimensions (platform format_type : string)
  : result (Z * Z) :=
  instagram <- getitem platform_dimensions "instagram" ;;
  let platform_dims := get_or platform_dimensions platform instagram in
  square <- getitem platform_dims "square" ;;
  Ok (get_or platform_dims format_type square).

(** The [palettes] dict of [get_color_palette]. *)
Definition platform_colors : list (string * list string) :=
  [ ("instagram", ["#405DE6"; "#8A2BE2"; "#FF6B6B"; "#4ECDC4"; "#FFD166"]);
    ("linkedin", ["#0A66C2"; "#333333"; "#666666"; "#999999"; "#CCCCCC"]);
    ("twitter", ["#1DA1F2"; "#14171A"; "#657786"; "#AAB8C2"; "#E1E8ED"]);
    ("presentation",
     ["#2E86AB"; "#A23B72"; "#F18F01"; "#C73E1D"; "#6BAA75"]) ].

(** [get_color_palette(platform)] *)
Definition get_color_palette (platform : string) : result (list string) :=
  instagram <- getitem platform_colors "instagram" ;;
  Ok (get_or platform_colors platform instagram).

(** [generate_simple_slides(topic, slide_count)] *)
Definition generate_simple_slides (topic : string) (slide_count : Z)
  : list SlideContent :=
  map (fun i =>
         {| sc_title := topic ++ " - Part " ++ Py.str (i + 1);
            sc_description :=
              "Learn about " ++ topic ++ " in this comprehensive guide.";
            sc_image_prompt := "saystory template background for " ++ topic;
            sc_background_color := "#405DE6";
            sc_font_color := "#FFFFFF";
            sc_layout := None |})
      (py_range slide_count).

(** * Text outside ASCII

    The functions of [Py] read a text byte by byte, which is what
    Python does on ASCII text.  On other text Python works on characters
    and consults the Unicode character database: [str.lower] turns the
    Kelvin sign into [k], the [\b] of [re] takes an accented letter for
    a word character, [int] reads every decimal digit and skips every
    white space of Unicode, and so does [str.strip].

    The functions of the program that depend on it are given here for
    every text.  A text is held as its UTF-8 encoding and cut into its
    characters by [chars]; the database is a parameter:
    - [str_lower s] is [s.lower()];
    - [unicode_word ch] tells whether the character [ch], outside ASCII,
      is a word character of [re] (it is alphanumeric);
    - [unicode_space ch] tells whether the character [ch], outside
      ASCII, is white space ([str.isspace]);
    - [unicode_decimal ch] is the value of the character [ch], outside
      ASCII, when it is a decimal digit.
    ASCII characters are classified as in [Py] and [PyInt].  Equality,
    concatenation, [lstrip('#')], [replace(' ', '_')] and the substring
    test with an ASCII needle give the same result on the encoding as on
    the characters, since no byte of a character outside ASCII is an
    ASCII byte. *)

Module Unicode.

Definition is_ascii_char (c : ascii) : bool := (nat_of_ascii c <? 128)%nat.

(** A text of ASCII characters only. *)
Definition is_ascii (s : string) : bool := all_chars is_ascii_char s.

(** The text goes on with a continuation byte. *)
Definition continues (s : string) : bool :=
  match s with
  | String c _ => Utf8.is_continuation c
  | EmptyString => false
  end.

(** The characters of a text, each one as its bytes: a byte and the
    continuation bytes that follow it. *)
Fixpoint chars (s : string) : list string :=
  match s with
  | EmptyString => []
  | String c r =>
      match chars r with
      | ch :: more =>
          if continues r then String c ch :: more
          else String c EmptyString :: ch :: more
      | [] => [String c EmptyString]
      end
  end.

(** The character as an ASCII character, when it is one. *)
Definition ascii_of (ch : string) : option ascii :=
  match ch with
  | String c EmptyString => if is_ascii_char c then Some c else None
  | _ => None
  end.

(** [s[i:j]] on the characters, for [0 <= i <= j]. *)
Definition slice {A : Type} (s : list A) (i j : nat) : list A :=
  firstn (j - i) (skipn i s).

Fixpoint lstrip_chars (p : string -> bool) (s : list string) : list string :=
  match s with
  | [] => []
  | ch :: r => if p ch then lstrip_chars p r else s
  end.

(** What a character is to [int(., 16)]. *)
Inductive int_char : Type :=
| Digit (v : Z)
| Space
| Plus
| Minus
| Other.

Definition class16 (c : ascii) : int_char :=
  match PyInt.digit16 c with
  | Some v => Digit v
  | None =>
      if PyInt.is_space c then Space
      else if Ascii.eqb c "+" then Plus
      else if Ascii.eqb c "-" then Minus
      else Other
  end.

(** The texts of at most two characters that [int(., 16)] accepts, with
    their values: one digit, two digits, a digit after white space or
    before it, a digit after a sign. *)
Definition accepted (s : list int_char) : option Z :=
  match s with
  | [Digit v] => Some v
  | [Digit v; Digit w] => Some (16 * v + w)%Z
  | [Space; Digit w] => Some w
  | [Digit v; Space] => Some v
  | [Plus; Digit w] => Some w
  | [Minus; Digit w] => Some (- w)%Z
  | _ => None
  end.

(** Four characters outside ASCII, as their UTF-8 bytes: the Kelvin sign
    U+212A, which [str.lower] turns into [k]; the letter e with acute
    accent U+00E9, a word character; the Arabic-Indic digit three
    U+0663, a decimal digit of value 3; the no-break space U+00A0, a
    white space. *)
Definition kelvin_sign : string :=
  String "226" (String "132" (String "170" EmptyString)).

Definition e_acute : string := String "195" (String "169" EmptyString).

Definition arabic_three : string := String "217" (String "163" EmptyString).

Definition no_break_space : string :=
  String "194" (String "160" EmptyString).

Section Database.

Variable str_lower : string -> string.
Variable unicode_word : string -> bool.
Variable unicode_space : string -> bool.
Variable unicode_decimal : string -> option nat.

(** ** The classifiers *)

(** [get_topic_category(topic)] *)
Definition get_topic_category (topic : string) : string :=
  let topic_lower := str_lower topic in
  let category_scores := keyword_scores TOPIC_KEYWORDS topic_lower in
  match Py.max_key category_scores with
  | Some best_category => best_category
  | None => "default"
  end.

(** [analyze_slide_purpose(title, description)] *)
Definition analyze_slide_purpose (title description : string) : string :=
  let text := str_lower (title ++ " " ++ description) in
  let purpose_scores := keyword_scores KEYWORD_TO_PURPOSE text in
  match Py.max_key purpose_scores with
  | Some best_purpose => best_purpose
  | None => "concept"
  end.

(** ** Keyword extraction *)

(** The character is one of [[a-zA-Z]]. *)
Definition letter (ch : string) : option ascii :=
  match ascii_of ch with
  | Some c => if Py.is_alpha c then Some c else None
  | None => None
  end.

(** The character is a word character, [\w]. *)
Definition is_word (ch : string) : bool :=
  match ascii_of ch with
  | Some c => Py.is_word c
  | None => unicode_word ch
  end.

(** [re.findall(r'\b[a-zA-Z]{3,}\b', text)] as the scan of [scan_words],
    on characters: a run of letters is a match when it has at least 3
    letters and no word character, of ASCII or not, touches it. *)
Fixpoint scan_words (s : list string) (prev_word : bool) (run : option string)
  : list string :=
  match s with
  | [] => emit run
  | ch :: r =>
      match letter ch with
      | Some c =>
          match run with
          | Some w => scan_words r true (Some (w ++ String c EmptyString))
          | None =>
              if prev_word then scan_words r true None
              else scan_words r true (Some (String c EmptyString))
          end
      | None =>
          if is_word ch then scan_words r true None
          else (emit run ++ scan_words r false None)%list
      end
  end.

Definition findall_words (text : string) : list string :=
  scan_words (chars text) false None.

(** [extract_slide_keywords(title, description, max_keywords)] *)
Definition extract_slide_keywords (title description : string)
    (max_keywords : Z) : list string :=
  let text := title ++ " " ++ description in
  let words := findall_words (str_lower text) in
  keyword_loop words [] [] max_keywords.

(** ** [hex_to_rgb] *)

(** [int] first replaces a white space outside ASCII by a space and a
    decimal digit outside ASCII by the ASCII digit of its value; any
    other character outside ASCII makes the text invalid, as [?]
    does. *)
Definition to_ascii (ch : string) : ascii :=
  match ascii_of ch with
  | Some c => c
  | None =>
      if unicode_space ch then " "%char
      else
        match unicode_decimal ch with
        | Some d => if (d <=? 9)%nat then ascii_of_nat (48 + d) else "?"%char
        | None => "?"%char
        end
  end.

(** [int(s, 16)] *)
Definition int16 (s : list string) : result Z :=
  PyInt.int16 (string_of_list_ascii (map to_ascii s)).

(** [hex_to_rgb(hex_color)]: the slices are slices of characters. *)
Definition hex_to_rgb (hex_color : string) : result (Z * Z * Z) :=
  let hex_color := chars (lstrip_hash hex_color) in
  r <- int16 (slice hex_color 0 2) ;;
  g <- int16 (slice hex_color 2 4) ;;
  b <- int16 (slice hex_color 4 6) ;;
  Ok (r, g, b).

(** What the character is to [int(., 16)]. *)
Definition class (ch : string) : int_char := class16 (to_ascii ch).

(** ** [map_layout] *)

(** The character is white space, [str.isspace]. *)
Definition is_space (ch : string) : bool :=
  match ascii_of ch with
  | Some c => Py.is_space c
  | None => unicode_space ch
  end.

(** [s.strip()] *)
Definition strip (s : string) : string :=
  String.concat EmptyString
    (rev (lstrip_chars is_space (rev (lstrip_chars is_space (chars s))))).

(** [map_layout(layout_name, slide_num, total_slides)] *)
Definition map_layout (layout_name : string) (slide_num total_slides : Z)
  : string :=
  let layout_name := replace_char " " "_" (strip (str_lower layout_name)) in
  if Py.mem layout_name legacy_layouts then layout_name
  else get_or layout_mapping layout_name "image-right".

End Database.

End Unicode.

(** * Properties *)

(** ** The built-ins on values known from the Python interpreter *)

Example int16_samples :
  map PyInt.int16
      [" f"; "f "; "+f"; "-f"; "0x1"; "0x_f"; "1_1"; "Ff"; "0b";
       ""; "0x"; "x1"; "_1"; "1_"; "0x__f"; "f f"; "g0"; "+-"]
  = [Ok 15; Ok 15; Ok 15; Ok (-15); Ok 1; Ok 15; Ok 17; Ok 255; Ok 11;
     Raise ValueError; Raise ValueError; Raise ValueError; Raise ValueError;
     Raise ValueError; Raise ValueError; Raise ValueError; Raise ValueError;
     Raise ValueError]%Z.
Proof. reflexivity. Qed.

Example format_02x_samples :
  map format_02x [-1; -17; 300; 5; 0; 255]%Z
  = ["-1"; "-11"; "12c"; "05"; "00"; "ff"].
Proof. reflexivity. Qed.

Example hex_to_rgb_samples :
  map hex_to_rgb ["#FF00aa"; "##ff00AA"; "#12345"; "-f-f-f"; "#1234"; ""]
  = [Ok (255, 0, 170); Ok (255, 0, 170); Ok (18, 52, 5);
     Ok (-15, -15, -15); Raise ValueError; Raise ValueError]%Z.
Proof. reflexivity. Qed.

Example findall_words_samples :
  map findall_words
      ["abc123 def"; "abc_def ghi"; "ab cde"; "foo-bar"; "don't stop";
       "1abc"; "a bcd_"; "x abcd"]
  = [["def"]; ["ghi"]; ["cde"]; ["foo"; "bar"]; ["don"; "stop"];
     []; []; ["abcd"]].
Proof. reflexivity. Qed.

Example split_strip_samples :
  map Py.strip (Py.split "," "a, b ,,c") = ["a"; "b"; ""; "c"] /\
  Py.split "," "" = [""].
Proof. split; reflexivity. Qed.

(** ** Keyword scoring and the choice of the best key *)

Section ScoringFacts.

Variable text : string.

Lemma count_in_length (words : list string) :
  Py.count_in words text
  = List.length (filter (fun w => Py.contains w text) words).
Proof.
  unfold Py.count_in.
  induction (filter (fun w => Py.contains w text) words) as [|w l IH];
    simpl; congruence.
Qed.

Lemma count_in_zero (words : list string) :
  Py.count_in words text = 0%nat <->
  forall w, In w words -> Py.contains w text = false.
Proof.
  rewrite count_in_length. split.
  - intros H w Hw.
    destruct (Py.contains w text) eqn:E; [|reflexivity].
    assert (Hin : In w (filter (fun w => Py.contains w text) words))
      by (apply filter_In; auto).
    destruct (filter (fun w => Py.contains w text) words);
      [destruct Hin | discriminate].
  - intros H. induction words as [|w l IH]; simpl; [reflexivity|].
    rewrite (H w (or_introl eq_refl)). apply IH.
    intros w' Hw'. apply H. now right.
Qed.

Lemma count_in_pos (words : list string) :
  (0 < Py.count_in words text)%nat <->
  exists w, In w words /\ Py.contains w text = true.
Proof.
  rewrite count_in_length. split.
  - intros H.
    destruct (filter (fun w => Py.contains w text) words) as [|w l] eqn:E;
      [simpl in H; lia|].
    assert (Hin : In w (filter (fun w => Py.contains w text) words))
      by (rewrite E; now left).
    apply filter_In in Hin. now exists w.
  - intros [w [Hw Hc]].
    assert (Hin : In w (filter (fun w => Py.contains w text) words))
      by (apply filter_In; auto).
    destruct (filter (fun w => Py.contains w text) words);
      [destruct Hin | simpl; lia].
Qed.

(** The scores dict holds exactly the keys that score, in table order. *)
Lemma keyword_scores_app (t1 t2 : list (string * list string)) :
  keyword_scores (t1 ++ t2) text
  = (keyword_scores t1 text ++ keyword_scores t2 text)%list.
Proof.
  induction t1 as [|[k ws] t1 IH]; simpl; [reflexivity|].
  destruct (0 <? Py.count_in ws text)%nat; simpl; now rewrite IH.
Qed.

Lemma keyword_scores_nil (table : list (string * list string)) :
  keyword_scores table text = [] <->
  forall k ws, In (k, ws) table -> Py.count_in ws text = 0%nat.
Proof.
  induction table as [|[k ws] t IH]; simpl.
  - split; [intros _ k ws []|reflexivity].
  - destruct (0 <? Py.count_in ws text)%nat eqn:E.
    + apply Nat.ltb_lt in E. split; [discriminate|].
      intros H. specialize (H k ws (or_introl eq_refl)). lia.
    + apply Nat.ltb_ge in E. rewrite IH. split.
      * intros H k' ws' [Heq|Hin]; [inversion Heq; subst; lia|eauto].
      * intros H k' ws' Hin. apply (H k' ws'). now right.
Qed.

Lemma keyword_scores_positive (table : list (string * list string)) :
  Forall (fun kv => (0 < snd kv)%nat) (keyword_scores table text).
Proof.
  induction table as [|[k ws] t IH]; simpl; [constructor|].
  destruct (0 <? Py.count_in ws text)%nat eqn:E; [|exact IH].
  apply Nat.ltb_lt in E. constructor; [exact E|exact IH].
Qed.

(** An item of the scores dict comes from an entry of the table, and
    the items around it from the entries around that one. *)
Lemma keyword_scores_split (table : list (string * list string)) :
  forall pre kv post,
    keyword_scores table text = (pre ++ kv :: post)%list ->
    exists tpre ws tpost,
      table = (tpre ++ (fst kv, ws) :: tpost)%list /\
      snd kv = Py.count_in ws text /\
      keyword_scores tpre text = pre /\
      keyword_scores tpost text = post.
Proof.
  induction table as [|[k ws] t IH]; simpl; intros pre kv post H.
  - destruct pre; discriminate.
  - destruct (0 <? Py.count_in ws text)%nat eqn:E.
    + destruct pre as [|p pre]; simpl in H.
      * inversion H; subst. exists [], ws, t. simpl. auto.
      * inversion H; subst.
        destruct (IH _ _ _ H2) as (tpre & ws' & tpost & -> & Hs & Hp & Hq).
        exists ((k, ws) :: tpre), ws', tpost. simpl. rewrite E, Hp. auto.
    + destruct (IH _ _ _ H) as (tpre & ws' & tpost & -> & Hs & Hp & Hq).
      exists ((k, ws) :: tpre), ws', tpost. simpl. rewrite E. auto.
Qed.

(** Entries of the table compared with the items they leave in the
    scores dict: an entry that left no item scores 0. *)
Lemma keyword_scores_bound (P : nat -> Prop)
      (table : list (string * list string)) :
  P 0%nat ->
  Forall (fun kv => P (snd kv)) (keyword_scores table text) ->
  Forall (fun entry => P (Py.count_in (snd entry) text)) table.
Proof.
  intros H0. induction table as [|[k ws] t IH]; simpl; intros H;
    [constructor|].
  destruct (0 <? Py.count_in ws text)%nat eqn:E.
  - inversion H; subst. constructor; auto.
  - apply Nat.ltb_ge in E. constructor; [|auto].
    simpl. replace (Py.count_in ws text) with 0%nat by lia. exact H0.
Qed.

End ScoringFacts.

(** [max(d, key=d.get)] returns the first key of greatest value: the
    items before it are strictly smaller, the items after it are not
    greater. *)
Lemma max_from_first_max (rest : list (string * nat)) :
  forall best,
  exists pre kv post,
    best :: rest = (pre ++ kv :: post)%list /\
    Py.max_from best rest = fst kv /\
    Forall (fun x => (snd x < snd kv)%nat) pre /\
    Forall (fun x => (snd x <= snd kv)%nat) post.
Proof.
  induction rest as [|kv t IH]; intros best; simpl.
  - exists [], best, []. repeat split; constructor.
  - destruct (snd best <? snd kv)%nat eqn:E.
    + apply Nat.ltb_lt in E.
      destruct (IH kv) as (pre & m & post & Heq & Hm & Hpre & Hpost).
      exists (best :: pre), m, post. simpl. rewrite Heq.
      repeat split; auto. constructor; [|exact Hpre].
      destruct pre as [|p pre]; simpl in Heq; inversion Heq; subst.
      * exact E.
      * inversion Hpre; subst. simpl in *. lia.
    + apply Nat.ltb_ge in E.
      destruct (IH best) as (pre & m & post & Heq & Hm & Hpre & Hpost).
      destruct pre as [|p pre]; simpl in Heq; inversion Heq; subst.
      * exists [], m, (kv :: post). simpl.
        repeat split; auto.
      * exists (p :: kv :: pre), m, post. simpl.
        repeat split; auto. inversion Hpre; subst.
        constructor; [assumption|]. constructor; [lia|assumption].
Qed.

(** The key chosen from a keyword table for a text: some entry of the
    table that scores, strictly ahead of every earlier entry and not
    behind any later one. *)
Lemma best_key_first_max (table : list (string * list string))
      (text : string) (kv : string * nat) (rest : list (string * nat)) :
  keyword_scores table text = kv :: rest ->
  exists tpre key words tpost,
    table = (tpre ++ (key, words) :: tpost)%list /\
    Py.max_from kv rest = key /\
    (0 < Py.count_in words text)%nat /\
    Forall (fun entry =>
              (Py.count_in (snd entry) text < Py.count_in words text)%nat)
           tpre /\
    Forall (fun entry =>
              (Py.count_in (snd entry) text <= Py.count_in words text)%nat)
           tpost.
Proof.
  intros Hs.
  destruct (max_from_first_max rest kv)
    as (pre & m & post & Heq & Hm & Hpre & Hpost).
  rewrite <- Hs in Heq.
  destruct (keyword_scores_split text table _ _ _ Heq)
    as (tpre & ws & tpost & Ht & Hsnd & Hp & Hq).
  assert (Hpos : (0 < snd m)%nat).
  { pose proof (keyword_scores_positive text table) as HF.
    rewrite Heq in HF. apply Forall_app in HF. destruct HF as [_ HF].
    now inversion HF. }
  exists tpre, (fst m), ws, tpost. rewrite <- Hsnd.
  repeat split; auto.
  - apply (keyword_scores_bound text (fun n => (n < snd m)%nat));
      [exact Hpos | now rewrite Hp].
  - apply (keyword_scores_bound text (fun n => (n <= snd m)%nat));
      [lia | now rewrite Hq].
Qed.

(** ** TopicClassifier *)

Lemma topic_keys_not_default (category : string) (words : list string)
      (pre post : list (string * list string)) :
  TOPIC_KEYWORDS = (pre ++ (category, words) :: post)%list ->
  category <> "default".
Proof.
  intros H Hd.
  assert (Hin : In category (map fst TOPIC_KEYWORDS)).
  { rewrite H, map_app. apply in_or_app. right. now left. }
  subst category. simpl in Hin.
  repeat (destruct Hin as [Hin|Hin]; [discriminate|]). exact Hin.
Qed.

Lemma get_topic_category_scores (topic : string) :
  get_topic_category topic = "default" <->
  keyword_scores TOPIC_KEYWORDS (Py.lower topic) = [].
Proof.
  unfold get_topic_category, Py.max_key.
  destruct (keyword_scores TOPIC_KEYWORDS (Py.lower topic)) as [|kv rest] eqn:E.
  - split; reflexivity.
  - split; [|discriminate]. intros Hd. exfalso.
    destruct (best_key_first_max _ _ _ _ E)
      as (tpre & key & words & tpost & Ht & Hk & _).
    apply (topic_keys_not_default key words tpre tpost Ht). congruence.
Qed.

Lemma unicode_get_topic_category_scores
      (str_lower : string -> string) (topic : string) :
  Unicode.get_topic_category str_lower topic = "default" <->
  keyword_scores TOPIC_KEYWORDS (str_lower topic) = [].
Proof.
  unfold Unicode.get_topic_category, Py.max_key.
  destruct (keyword_scores TOPIC_KEYWORDS (str_lower topic))
    as [|kv rest] eqn:E.
  - split; reflexivity.
  - split; [|discriminate]. intros Hd. exfalso.
    destruct (best_key_first_max _ _ _ _ E)
      as (tpre & key & words & tpost & Ht & Hk & _).
    apply (topic_keys_not_default key words tpre tpost Ht). congruence.
Qed.

(** On ASCII text the classifier is the one of the ASCII model. *)
Lemma unicode_get_topic_category_ascii
      (str_lower : string -> string) (topic : string) :
  (forall s, Unicode.is_ascii s = true -> str_lower s = Py.lower s) ->
  Unicode.is_ascii topic = true ->
  Unicode.get_topic_category str_lower topic = get_topic_category topic.
Proof.
  intros Hlower Ha. unfold Unicode.get_topic_category, get_topic_category.
  now rewrite (Hlower _ Ha).
Qed.

(** C3.  For every topic, of ASCII or not, and with [str_lower] for
    [str.lower]: [get_topic_category] returns ['default'] exactly when
    no keyword of any category occurs as a substring of the lower-cased
    topic; the empty topic is classified ['default'] (a value, no
    exception); and a topic for which some category scores above zero
    is never ['default'].  Of [str.lower] only its result on ASCII text
    is used, for the empty topic. *)
Theorem get_topic_category_default_iff_no_keyword :
  forall str_lower : string -> string,
    (forall s, Unicode.is_ascii s = true -> str_lower s = Py.lower s) ->
    (forall topic,
        Unicode.get_topic_category str_lower topic = "default" <->
        (forall category words word,
            In (category, words) TOPIC_KEYWORDS -> In word words ->
            Py.contains word (str_lower topic) = false)) /\
    Unicode.get_topic_category str_lower "" = "default" /\
    (forall topic category words,
        In (category, words) TOPIC_KEYWORDS ->
        (0 < Py.count_in words (str_lower topic))%nat ->
        Unicode.get_topic_category str_lower topic <> "default").
Proof.
  intros str_lower Hlower.
  assert (Hiff : forall topic,
             Unicode.get_topic_category str_lower topic = "default" <->
             (forall category words word,
                 In (category, words) TOPIC_KEYWORDS -> In word words ->
                 Py.contains word (str_lower topic) = false)).
  { intros topic.
    rewrite unicode_get_topic_category_scores, keyword_scores_nil.
    split.
    - intros H category words word Hc Hw.
      exact (proj1 (count_in_zero _ words) (H _ _ Hc) word Hw).
    - intros H category words Hc. apply count_in_zero.
      intros word Hw. exact (H _ _ _ Hc Hw). }
  split; [exact Hiff|]. split.
  - rewrite unicode_get_topic_category_ascii by (exact Hlower || reflexivity).
    reflexivity.
  - intros topic category words Hc Hpos Hd.
    apply unicode_get_topic_category_scores in Hd.
    rewrite keyword_scores_nil in Hd. specialize (Hd _ _ Hc). lia.
Qed.

Lemma get_topic_category_default_iff_no_keyword_witness :
  Unicode.get_topic_category Py.lower "" = "default" /\
  Unicode.get_topic_category Py.lower "Gym WORKOUT plan" <> "default".
Proof.
  destruct (get_topic_category_default_iff_no_keyword
              Py.lower (fun s _ => eq_refl)) as (_ & Hempty & Hscores).
  split; [exact Hempty|].
  apply (Hscores "Gym WORKOUT plan" "health"
           ["health"; "fitness"; "wellness"; "diet"; "exercise"; "mental";
            "meditation"; "yoga"; "nutrition"; "workout"; "gym"]);
    [simpl; tauto | vm_compute; lia].
Defined.

(** C4.  For every topic, of ASCII or not, and with [str_lower] for
    [str.lower]: when some category scores, [get_topic_category] returns
    the first category of the table whose keyword list has the greatest
    number of substrings occurring in the lower-cased topic: it scores
    above zero, every category before it in the table scores strictly
    less and every category after it scores no more.  The table lists
    the categories in the order business, marketing, technology, health,
    lifestyle, education, creative, travel, finance, fashion, food.  The
    topic "Top 5 productivity hacks for busy professionals" is
    classified ['lifestyle'], whose keywords score 1 on it.  Of
    [str.lower] only its result on ASCII text is used, for that topic. *)
Theorem get_topic_category_first_highest_score :
  forall str_lower : string -> string,
    (forall s, Unicode.is_ascii s = true -> str_lower s = Py.lower s) ->
    (forall topic,
        (exists category words,
            In (category, words) TOPIC_KEYWORDS /\
            (0 < Py.count_in words (str_lower topic))%nat) ->
        exists before category words after,
          TOPIC_KEYWORDS = (before ++ (category, words) :: after)%list /\
          Unicode.get_topic_category str_lower topic = category /\
          (0 < Py.count_in words (str_lower topic))%nat /\
          Forall (fun entry =>
                    (Py.count_in (snd entry) (str_lower topic)
                     < Py.count_in words (str_lower topic))%nat) before /\
          Forall (fun entry =>
                    (Py.count_in (snd entry) (str_lower topic)
                     <= Py.count_in words (str_lower topic))%nat) after) /\
    map fst TOPIC_KEYWORDS
    = ["business"; "marketing"; "technology"; "health"; "lifestyle";
       "education"; "creative"; "travel"; "finance"; "fashion"; "food"] /\
    Unicode.get_topic_category str_lower
      "Top 5 productivity hacks for busy professionals"
    = "lifestyle" /\
    (exists words,
        lookup "lifestyle" TOPIC_KEYWORDS = Some words /\
        (1 <= Py.count_in words
                (str_lower
                   "Top 5 productivity hacks for busy professionals"))%nat).
Proof.
  intros str_lower Hlower.
  split; [|split; [reflexivity|split]].
  - intros topic (category & words & Hin & Hpos).
    unfold Unicode.get_topic_category, Py.max_key.
    destruct (keyword_scores TOPIC_KEYWORDS (str_lower topic))
      as [|kv rest] eqn:E.
    + exfalso.
      pose proof (proj1 (keyword_scores_nil _ _) E _ _ Hin). lia.
    + destruct (best_key_first_max _ _ _ _ E)
        as (tpre & key & ws & tpost & Ht & Hk & Hp & Hb & Ha).
      exists tpre, key, ws, tpost. auto.
  - rewrite unicode_get_topic_category_ascii by (exact Hlower || reflexivity).
    vm_compute. reflexivity.
  - eexists. split; [reflexivity|].
    rewrite Hlower by reflexivity. vm_compute. lia.
Qed.

(** The classification of a topic that scores, at a concrete topic. *)
Lemma get_topic_category_first_highest_score_witness :
  exists before category words after,
    TOPIC_KEYWORDS = (before ++ (category, words) :: after)%list /\
    Unicode.get_topic_category Py.lower "Meal prep and gym workout"
    = category /\
    (0 < Py.count_in words (Py.lower "Meal prep and gym workout"))%nat.
Proof.
  destruct (proj1 (get_topic_category_first_highest_score
                     Py.lower (fun s _ => eq_refl))
                  "Meal prep and gym workout")
    as (before & category & words & after & H1 & H2 & H3 & _).
  - exists "health", ["health"; "fitness"; "wellness"; "diet"; "exercise";
                      "mental"; "meditation"; "yoga"; "nutrition"; "workout";
                      "gym"].
    split; [simpl; tauto | vm_compute; lia].
  - exists before, category, words, after. auto.
Defined.

(** ** ColorMath *)

Lemma in_all_ascii (c : ascii) : In c all_ascii.
Proof.
  unfold all_ascii. rewrite <- (ascii_nat_embedding c).
  apply in_map, in_seq. pose proof (nat_ascii_bounded c). lia.
Qed.

(** A property of characters checked on each of the 256. *)
Lemma forall_ascii (p : ascii -> bool) :
  forallb p all_ascii = true -> forall c, p c = true.
Proof.
  intros H c. exact (proj1 (forallb_forall p all_ascii) H c (in_all_ascii c)).
Qed.

(** [int(cd, 16)] of two hexadecimal digits. *)
Lemma int16_two_digits (c d : ascii) (v w : Z) :
  PyInt.digit16 c = Some v -> PyInt.digit16 d = Some w ->
  PyInt.int16 (String c (String d EmptyString)) = Ok (16 * v + w)%Z /\
  (0 <= 16 * v + w <= 255)%Z.
Proof.
  intros Hc Hd.
  assert (H : forallb (fun c => forallb (fun d =>
             match PyInt.digit16 c, PyInt.digit16 d with
             | Some v, Some w =>
                 match PyInt.int16 (String c (String d EmptyString)) with
                 | Ok n => (n =? 16 * v + w)%Z && (0 <=? n)%Z && (n <=? 255)%Z
                 | Raise _ => false
                 end
             | _, _ => true
             end) all_ascii) all_ascii = true) by (vm_compute; reflexivity).
  pose proof (forall_ascii _ (forall_ascii _ H c) d) as E. cbv beta in E.
  rewrite Hc, Hd in E.
  destruct (PyInt.int16 (String c (String d EmptyString))); [|discriminate].
  apply andb_prop in E. destruct E as [E E3].
  apply andb_prop in E. destruct E as [E1 E2].
  apply Z.eqb_eq in E1. apply Z.leb_le in E2. apply Z.leb_le in E3.
  subst a. split; [reflexivity|lia].
Qed.

(** [format(n, '02x')] of a byte: two characters, the first of which is
    not [#], that [int(., 16)] reads back as the byte. *)
Lemma format_02x_byte (n : Z) :
  (0 <= n <= 255)%Z ->
  exists c d,
    format_02x n = String c (String d EmptyString) /\
    c <> "#"%char /\
    PyInt.int16 (String c (String d EmptyString)) = Ok n.
Proof.
  intros Hn.
  assert (H : forallb (fun k =>
             match format_02x (Z.of_nat k) with
             | String c (String d EmptyString) =>
                 negb (Ascii.eqb c "#") &&
                 match PyInt.int16 (String c (String d EmptyString)) with
                 | Ok m => (m =? Z.of_nat k)%Z
                 | Raise _ => false
                 end
             | _ => false
             end) (seq 0 256) = true) by (vm_compute; reflexivity).
  rewrite forallb_forall in H.
  specialize (H (Z.to_nat n)). rewrite Z2Nat.id in H by lia.
  assert (Hin : In (Z.to_nat n) (seq 0 256)) by (apply in_seq; lia).
  specialize (H Hin).
  destruct (format_02x n) as [|c [|d [|? ?]]]; try discriminate.
  exists c, d. apply andb_prop in H. destruct H as [H1 H2].
  split; [reflexivity|]. split.
  - intros ->. discriminate H1.
  - destruct (PyInt.int16 (String c (String d ""))); [|discriminate].
    apply Z.eqb_eq in H2. now subst.
Qed.

Lemma lstrip_hash_hash (s : string) :
  lstrip_hash (String "#" s) = lstrip_hash s.
Proof. reflexivity. Qed.

Lemma lstrip_hash_first (c : ascii) (r : string) :
  c <> "#"%char -> lstrip_hash (String c r) = String c r.
Proof.
  intros Hc. destruct c as [[] [] [] [] [] [] [] []]; try reflexivity.
  now elim Hc.
Qed.

(** C5.  Round trip: for integers [r], [g], [b] in [0, 255],
    [hex_to_rgb(rgb_to_hex((r, g, b)))] returns [(r, g, b)]. *)
Theorem hex_rgb_round_trip (r g b : Z) :
  (0 <= r <= 255)%Z -> (0 <= g <= 255)%Z -> (0 <= b <= 255)%Z ->
  hex_to_rgb (rgb_to_hex (r, g, b)) = Ok (r, g, b).
Proof.
  intros Hr Hg Hb.
  destruct (format_02x_byte r Hr) as (r1 & r2 & Er & Nr & Ir).
  destruct (format_02x_byte g Hg) as (g1 & g2 & Eg & _ & Ig).
  destruct (format_02x_byte b Hb) as (b1 & b2 & Eb & _ & Ib).
  unfold rgb_to_hex, hex_to_rgb. rewrite Er, Eg, Eb.
  cbn [append]. rewrite lstrip_hash_hash, lstrip_hash_first.
  - cbn [slice drop take Nat.sub].
    rewrite Ir. cbn [bind]. rewrite Ig. cbn [bind]. rewrite Ib. reflexivity.
  - exact Nr.
Qed.

Lemma hex_rgb_round_trip_witness :
  hex_to_rgb (rgb_to_hex (255, 0, 171)%Z) = Ok (255, 0, 171)%Z.
Proof.
  apply hex_rgb_round_trip; lia.
Defined.

(** [int(s, 16)] raises nothing but [ValueError]. *)
Lemma more_digits_raise_upto (n : nat) :
  forall s acc e,
    (String.length s <= n)%nat ->
    PyInt.more_digits s acc = Raise e -> e = ValueError.
Proof.
  induction n as [|n IH]; intros [|c r] acc e Hlen; simpl in *;
    try discriminate; try lia.
  destruct (PyInt.is_underscore c).
  - destruct r as [|d r']; [congruence|].
    destruct (PyInt.digit16 d); [|congruence].
    apply IH. simpl in Hlen. lia.
  - destruct (PyInt.digit16 c); [|congruence].
    apply IH. lia.
Qed.

Lemma more_digits_raise (s : string) (acc : Z) (e : exn) :
  PyInt.more_digits s acc = Raise e -> e = ValueError.
Proof. apply (more_digits_raise_upto (String.length s)). lia. Qed.

Lemma digits_raise (s : string) (e : exn) :
  PyInt.digits s = Raise e -> e = ValueError.
Proof.
  destruct s as [|c r]; simpl; [congruence|].
  destruct (PyInt.digit16 c); [apply more_digits_raise|congruence].
Qed.

Lemma int16_raise (s : string) (e : exn) :
  PyInt.int16 s = Raise e -> e = ValueError.
Proof.
  unfold PyInt.int16.
  assert (Hneg : forall t,
             (v <- PyInt.digits t ;; Ok (- v)%Z) = Raise e -> e = ValueError).
  { intros t. destruct (PyInt.digits t) eqn:E; simpl; [discriminate|].
    intros H. inversion H; subst. exact (digits_raise _ _ E). }
  destruct (Py.strip_by PyInt.is_space s) as [|c r];
    [apply digits_raise|].
  destruct c as [[] [] [] [] [] [] [] []];
    first [apply digits_raise | apply Hneg].
Qed.

Lemma hex_to_rgb_raise (s : string) (e : exn) :
  hex_to_rgb s = Raise e -> e = ValueError.
Proof.
  unfold hex_to_rgb.
  destruct (PyInt.int16 (slice (lstrip_hash s) 0 2)) eqn:E1; simpl;
    [|intros H; inversion H; subst; exact (int16_raise _ _ E1)].
  destruct (PyInt.int16 (slice (lstrip_hash s) 2 4)) eqn:E2; simpl;
    [|intros H; inversion H; subst; exact (int16_raise _ _ E2)].
  destruct (PyInt.int16 (slice (lstrip_hash s) 4 6)) eqn:E3; simpl;
    [discriminate|intros H; inversion H; subst; exact (int16_raise _ _ E3)].
Qed.

(** A text of exactly 6 hexadecimal digits, digit by digit. *)
Lemma six_hex_digits_inv (s : string) :
  six_hex_digits s = true ->
  exists c1 c2 c3 c4 c5 c6 v1 v2 v3 v4 v5 v6,
    s = String c1 (String c2 (String c3 (String c4 (String c5
          (String c6 EmptyString))))) /\
    PyInt.digit16 c1 = Some v1 /\ PyInt.digit16 c2 = Some v2 /\
    PyInt.digit16 c3 = Some v3 /\ PyInt.digit16 c4 = Some v4 /\
    PyInt.digit16 c5 = Some v5 /\ PyInt.digit16 c6 = Some v6.
Proof.
  unfold six_hex_digits. intros H. apply andb_prop in H. destruct H as [Hl Hh].
  apply Nat.eqb_eq in Hl.
  destruct s as [|c1 [|c2 [|c3 [|c4 [|c5 [|c6 [|c7 r]]]]]]]; try discriminate.
  cbn [all_hex] in Hh.
  destruct (PyInt.digit16 c1) as [v1|] eqn:E1; [|discriminate].
  destruct (PyInt.digit16 c2) as [v2|] eqn:E2; [|discriminate].
  destruct (PyInt.digit16 c3) as [v3|] eqn:E3; [|discriminate].
  destruct (PyInt.digit16 c4) as [v4|] eqn:E4; [|discriminate].
  destruct (PyInt.digit16 c5) as [v5|] eqn:E5; [|discriminate].
  destruct (PyInt.digit16 c6) as [v6|] eqn:E6; [|discriminate].
  exists c1, c2, c3, c4, c5, c6, v1, v2, v3, v4, v5, v6. repeat split; assumption.
Qed.

Lemma hex_to_rgb_six_hex_digits (s : string) :
  six_hex_digits (lstrip_hash s) = true ->
  exists rgb, hex_to_rgb s = Ok rgb /\ channels_in_range rgb.
Proof.
  intros H.
  destruct (six_hex_digits_inv _ H)
    as (c1 & c2 & c3 & c4 & c5 & c6 & v1 & v2 & v3 & v4 & v5 & v6
        & Hs & H1 & H2 & H3 & H4 & H5 & H6).
  unfold hex_to_rgb. rewrite Hs. cbn [slice drop take Nat.sub].
  destruct (int16_two_digits _ _ _ _ H1 H2) as [-> R1].
  destruct (int16_two_digits _ _ _ _ H3 H4) as [-> R2].
  destruct (int16_two_digits _ _ _ _ H5 H6) as [-> R3].
  cbn [bind]. eexists. split; [reflexivity|]. unfold channels_in_range. lia.
Qed.

Lemma slice_short (s : string) (i j : nat) :
  (String.length s <= i)%nat -> slice s i j = EmptyString.
Proof.
  unfold slice. intros H.
  assert (Hd : drop i s = EmptyString).
  { revert s H. induction i as [|i IH]; intros [|c r] H; simpl in *;
      try reflexivity; try lia. apply IH. lia. }
  rewrite Hd. destruct (j - i)%nat; reflexivity.
Qed.

(** ** Characters of a text *)

Lemma ascii_not_continuation (c : ascii) :
  Unicode.is_ascii_char c = true -> Utf8.is_continuation c = false.
Proof.
  unfold Unicode.is_ascii_char, Utf8.is_continuation. intros H.
  apply Nat.ltb_lt in H.
  replace (128 <=? nat_of_ascii c)%nat with false; [reflexivity|].
  symmetry. apply Nat.leb_gt. exact H.
Qed.

(** The characters of an ASCII text are its bytes. *)
Lemma chars_ascii (s : string) :
  Unicode.is_ascii s = true ->
  Unicode.chars s
  = map (fun c => String c EmptyString) (list_ascii_of_string s).
Proof.
  induction s as [|c r IH]; intros H; [reflexivity|].
  unfold Unicode.is_ascii in H. cbn [all_chars] in H.
  apply andb_prop in H. destruct H as [Hc Hr].
  cbn [Unicode.chars list_ascii_of_string map]. rewrite (IH Hr).
  destruct r as [|d r']; [reflexivity|].
  cbn [list_ascii_of_string map Unicode.continues].
  cbn [all_chars] in Hr. apply andb_prop in Hr. destruct Hr as [Hd _].
  now rewrite (ascii_not_continuation _ Hd).
Qed.

(** Every byte of a character of a text is a byte of the text. *)
Lemma chars_all (p : ascii -> bool) (s : string) :
  all_chars p s = true ->
  Forall (fun ch => all_chars p ch = true) (Unicode.chars s).
Proof.
  induction s as [|c r IH]; intros H; cbn [Unicode.chars]; [constructor|].
  cbn [all_chars] in H. apply andb_prop in H. destruct H as [Hc Hr].
  specialize (IH Hr).
  destruct (Unicode.chars r) as [|ch more].
  - constructor; [cbn [all_chars]; now rewrite Hc|constructor].
  - inversion IH; subst. destruct (Unicode.continues r).
    + constructor; [cbn [all_chars]; now rewrite Hc|assumption].
    + constructor; [cbn [all_chars]; now rewrite Hc|].
      constructor; assumption.
Qed.

Lemma all_chars_list (p : ascii -> bool) (s : string) :
  all_chars p s = true -> Forall (fun c => p c = true) (list_ascii_of_string s).
Proof.
  induction s as [|c r IH]; intros H; cbn [list_ascii_of_string];
    [constructor|].
  cbn [all_chars] in H. apply andb_prop in H. destruct H as [Hc Hr].
  constructor; [exact Hc|exact (IH Hr)].
Qed.

Lemma skipn_list_of_string (i : nat) :
  forall s, skipn i (list_ascii_of_string s) = list_ascii_of_string (drop i s).
Proof.
  induction i as [|i IH]; intros [|c r]; try reflexivity.
  cbn [list_ascii_of_string skipn drop]. apply IH.
Qed.

Lemma firstn_list_of_string (n : nat) :
  forall s, string_of_list_ascii (firstn n (list_ascii_of_string s)) = take n s.
Proof.
  induction n as [|n IH]; intros [|c r]; try reflexivity.
  cbn [list_ascii_of_string firstn string_of_list_ascii take].
  now rewrite IH.
Qed.

(** ** [int(., 16)] on the characters of a slice *)

(** On an ASCII slice, [int(., 16)] of the characters is [int(., 16)] of
    the bytes. *)
Lemma unicode_int16_ascii
      (unicode_space : string -> bool)
      (unicode_decimal : string -> option nat) (s : string) (i j : nat) :
  Unicode.is_ascii s = true ->
  Unicode.int16 unicode_space unicode_decimal
    (Unicode.slice (Unicode.chars s) i j)
  = PyInt.int16 (slice s i j).
Proof.
  intros Ha. unfold Unicode.int16, Unicode.slice, slice.
  rewrite (chars_ascii _ Ha), skipn_map, firstn_map, map_map.
  rewrite <- firstn_list_of_string, <- skipn_list_of_string.
  f_equal. f_equal.
  rewrite <- (map_id (firstn (j - i) (skipn i (list_ascii_of_string s))))
    at 2.
  apply map_ext_in. intros c Hc.
  assert (Hin : In c (list_ascii_of_string s)).
  { rewrite <- (firstn_skipn i (list_ascii_of_string s)).
    apply in_or_app. right.
    rewrite <- (firstn_skipn (j - i) (skipn i (list_ascii_of_string s))).
    apply in_or_app. now left. }
  pose proof (proj1 (Forall_forall _ _) (all_chars_list _ _ Ha) c Hin) as Hc'.
  unfold Unicode.to_ascii, Unicode.ascii_of. now rewrite Hc'.
Qed.

(** On a text that is ASCII after the leading [#], [hex_to_rgb] is the
    function of the ASCII model. *)
Lemma unicode_hex_to_rgb_ascii
      (unicode_space : string -> bool)
      (unicode_decimal : string -> option nat) (s : string) :
  Unicode.is_ascii (lstrip_hash s) = true ->
  Unicode.hex_to_rgb unicode_space unicode_decimal s = hex_to_rgb s.
Proof.
  intros Ha. unfold Unicode.hex_to_rgb, hex_to_rgb.
  now rewrite !(unicode_int16_ascii _ _ _ _ _ Ha).
Qed.

Lemma all_hex_is_ascii (s : string) :
  all_hex s = true -> Unicode.is_ascii s = true.
Proof.
  unfold Unicode.is_ascii.
  induction s as [|c r IH]; intros H; [reflexivity|].
  cbn [all_hex] in H. cbn [all_chars].
  destruct (PyInt.digit16 c) as [v|] eqn:E; [|discriminate].
  rewrite (IH H), andb_true_r.
  pose proof (forall_ascii
                (fun c => match PyInt.digit16 c with
                          | Some _ => Unicode.is_ascii_char c
                          | None => true
                          end)
                ltac:(vm_compute; reflexivity) c) as Hc.
  cbv beta in Hc. now rewrite E in Hc.
Qed.

(** [int(., 16)] of at most two ASCII characters, read off the table of
    the accepted texts; checked on every such text. *)
Lemma int16_accepted (s : list ascii) :
  (List.length s <= 2)%nat ->
  PyInt.int16 (string_of_list_ascii s)
  = match Unicode.accepted (map Unicode.class16 s) with
    | Some v => Ok v
    | None => Raise ValueError
    end.
Proof.
  intros Hl.
  destruct s as [|c1 [|c2 [|c3 s]]]; [reflexivity| | |simpl in Hl; lia];
    clear Hl; cbn [string_of_list_ascii map].
  - pose proof (forall_ascii
                  (fun c =>
                     match PyInt.int16 (String c EmptyString),
                           Unicode.accepted [Unicode.class16 c] with
                     | Ok x, Some y => (x =? y)%Z
                     | Raise ValueError, None => true
                     | _, _ => false
                     end)
                  ltac:(vm_compute; reflexivity) c1) as E.
    cbv beta in E.
    destruct (PyInt.int16 (String c1 EmptyString)) as [x|[]];
      destruct (Unicode.accepted [Unicode.class16 c1]);
      try discriminate E; [|reflexivity].
    apply Z.eqb_eq in E. now subst.
  - assert (H : forallb
                  (fun c =>
                     forallb
                       (fun d =>
                          match PyInt.int16 (String c (String d EmptyString)),
                                Unicode.accepted
                                  [Unicode.class16 c; Unicode.class16 d] with
                          | Ok x, Some y => (x =? y)%Z
                          | Raise ValueError, None => true
                          | _, _ => false
                          end) all_ascii) all_ascii = true)
      by (vm_compute; reflexivity).
    pose proof (forall_ascii _ (forall_ascii _ H c1) c2) as E.
    cbv beta in E.
    destruct (PyInt.int16 (String c1 (String c2 EmptyString))) as [x|[]];
      destruct (Unicode.accepted [Unicode.class16 c1; Unicode.class16 c2]);
      try discriminate E; [|reflexivity].
    apply Z.eqb_eq in E. now subst.
Qed.

Lemma unicode_int16_accepted
      (unicode_space : string -> bool)
      (unicode_decimal : string -> option nat) (s : list string) :
  (List.length s <= 2)%nat ->
  Unicode.int16 unicode_space unicode_decimal s
  = match Unicode.accepted
            (map (Unicode.class unicode_space unicode_decimal) s) with
    | Some v => Ok v
    | None => Raise ValueError
    end.
Proof.
  intros Hl. unfold Unicode.int16.
  rewrite int16_accepted by now rewrite length_map.
  now rewrite map_map.
Qed.

Lemma slice_two {A : Type} (s : list A) (i : nat) :
  (List.length (Unicode.slice s i (i + 2)) <= 2)%nat.
Proof.
  unfold Unicode.slice. replace (i + 2 - i)%nat with 2%nat by lia.
  apply firstn_le_length.
Qed.

(** [hex_to_rgb] through the table of the accepted slices. *)
Lemma unicode_hex_to_rgb_accepted
      (unicode_space : string -> bool)
      (unicode_decimal : string -> option nat) (s : string) :
  let channel := fun i j =>
    Unicode.accepted
      (map (Unicode.class unicode_space unicode_decimal)
           (Unicode.slice (Unicode.chars (lstrip_hash s)) i j)) in
  Unicode.hex_to_rgb unicode_space unicode_decimal s
  = match channel 0 2, channel 2 4, channel 4 6 with
    | Some r, Some g, Some b => Ok (r, g, b)
    | _, _, _ => Raise ValueError
    end.
Proof.
  intros channel. unfold Unicode.hex_to_rgb.
  rewrite (unicode_int16_accepted _ _ _ (slice_two _ 0)).
  rewrite (unicode_int16_accepted _ _ _ (slice_two _ 2)).
  rewrite (unicode_int16_accepted _ _ _ (slice_two _ 4)).
  subst channel. cbv beta.
  destruct (Unicode.accepted _) as [r|]; [|reflexivity].
  destruct (Unicode.accepted _) as [g|]; [|reflexivity].
  destruct (Unicode.accepted _) as [b|]; reflexivity.
Qed.

(** No accepted text has a character that is neither a digit, nor white
    space, nor a sign. *)
Lemma accepted_other (s : list Unicode.int_char) :
  In Unicode.Other s -> Unicode.accepted s = None.
Proof.
  destruct s as [|a [|b [|c s]]]; cbn [In].
  - intros [].
  - intros [->|[]]. reflexivity.
  - intros [->|[->|[]]]; [reflexivity|]. destruct a; reflexivity.
  - intros _. destruct a; try reflexivity; destruct b; reflexivity.
Qed.

Lemma first_six_slices {A : Type} (s : list A) :
  firstn 6 s
  = (Unicode.slice s 0 2 ++ Unicode.slice s 2 4 ++ Unicode.slice s 4 6)%list /\
  Unicode.slice s 0 2 = Unicode.slice (firstn 6 s) 0 2 /\
  Unicode.slice s 2 4 = Unicode.slice (firstn 6 s) 2 4 /\
  Unicode.slice s 4 6 = Unicode.slice (firstn 6 s) 4 6.
Proof.
  destruct s as [|a [|b [|c [|d [|e [|f s]]]]]]; repeat split; reflexivity.
Qed.

(** C6, as the code has it, for every text, of ASCII or not.
    [hex_to_rgb] strips every leading [#] and reads the slices [0:2],
    [2:4] and [4:6] of the characters left with [int(., 16)]; there is
    no other validation.  So it returns [(r, g, b)] exactly when each of
    the three slices is a text that [int(., 16)] accepts, with [r], [g]
    and [b] their values: two digits, or one digit with white space
    before or after it or a sign before it, or, for a text of 5
    characters, one digit alone; the digits are those of base 16 and
    the decimal digits outside ASCII, the white space is that of ASCII
    and of Unicode.  In every other case it raises, and what it raises
    is a [ValueError].  Hence:
    - it returns a triple of channels, each in [0, 255], whenever the
      text left after stripping is exactly 6 hexadecimal digits, hence
      on every [#RRGGBB]; when it raises, the stripped text is not 6
      hexadecimal digits;
    - it raises on every text with fewer than 5 characters after
      stripping, and on every text with, among the first 6 characters
      after stripping, one that is neither a digit, nor white space,
      nor a sign;
    - it does not raise on every other text: the result depends on the
      first 6 characters after stripping only, so ['FFFFFF00'] gives
      [(255, 255, 255)]. *)
Theorem hex_to_rgb_six_digits_sufficient :
  forall (unicode_space : string -> bool)
         (unicode_decimal : string -> option nat),
    let class := Unicode.class unicode_space unicode_decimal in
    let stripped := fun s => Unicode.chars (lstrip_hash s) in
    let channel := fun s i j =>
      Unicode.accepted (map class (Unicode.slice (stripped s) i j)) in
    (forall s r g b,
        Unicode.hex_to_rgb unicode_space unicode_decimal s = Ok (r, g, b) <->
        channel s 0%nat 2%nat = Some r /\
        channel s 2%nat 4%nat = Some g /\
        channel s 4%nat 6%nat = Some b) /\
    (forall s e,
        Unicode.hex_to_rgb unicode_space unicode_decimal s = Raise e ->
        e = ValueError /\ six_hex_digits (lstrip_hash s) = false) /\
    (forall s, six_hex_digits (lstrip_hash s) = true ->
               exists rgb,
                 Unicode.hex_to_rgb unicode_space unicode_decimal s = Ok rgb /\
                 channels_in_range rgb) /\
    (forall s, hash_rrggbb s = true ->
               exists rgb,
                 Unicode.hex_to_rgb unicode_space unicode_decimal s = Ok rgb /\
                 channels_in_range rgb) /\
    (forall s, (List.length (stripped s) < 5)%nat ->
               Unicode.hex_to_rgb unicode_space unicode_decimal s
               = Raise ValueError) /\
    (forall s ch,
        In ch (firstn 6 (stripped s)) -> class ch = Unicode.Other ->
        Unicode.hex_to_rgb unicode_space unicode_decimal s
        = Raise ValueError) /\
    (forall s s',
        firstn 6 (stripped s) = firstn 6 (stripped s') ->
        Unicode.hex_to_rgb unicode_space unicode_decimal s
        = Unicode.hex_to_rgb unicode_space unicode_decimal s') /\
    Unicode.hex_to_rgb unicode_space unicode_decimal "FFFFFF00"
    = Ok (255, 255, 255)%Z.
Proof.
  intros unicode_space unicode_decimal class stripped channel.
  assert (Hsix : forall s,
             six_hex_digits (lstrip_hash s) = true ->
             exists rgb,
               Unicode.hex_to_rgb unicode_space unicode_decimal s = Ok rgb /\
               channels_in_range rgb).
  { intros s H. rewrite unicode_hex_to_rgb_ascii.
    - now apply hex_to_rgb_six_hex_digits.
    - apply all_hex_is_ascii. unfold six_hex_digits in H.
      apply andb_prop in H. exact (proj2 H). }
  assert (Htable := unicode_hex_to_rgb_accepted unicode_space unicode_decimal).
  cbv zeta in Htable.
  split; [|split; [|split; [|split; [|split; [|split; [|split]]]]]].
  - intros s r g b. rewrite Htable. subst channel stripped class. cbv beta.
    destruct (Unicode.accepted _) as [r'|];
      [|split; [discriminate|intros (H & _); discriminate H]].
    destruct (Unicode.accepted _) as [g'|];
      [|split; [discriminate|intros (_ & H & _); discriminate H]].
    destruct (Unicode.accepted _) as [b'|];
      [|split; [discriminate|intros (_ & _ & H); discriminate H]].
    split.
    + intros H. injection H as -> -> ->. repeat split.
    + intros (H1 & H2 & H3). congruence.
  - intros s e H. split.
    + rewrite Htable in H.
      destruct (Unicode.accepted _); [|congruence].
      destruct (Unicode.accepted _); [|congruence].
      destruct (Unicode.accepted _); [discriminate H|congruence].
    + destruct (six_hex_digits (lstrip_hash s)) eqn:E; [|reflexivity].
      destruct (Hsix _ E) as (rgb & Hok & _). congruence.
  - exact Hsix.
  - intros s H. apply Hsix.
    destruct s as [|c r]; [discriminate|].
    destruct c as [[] [] [] [] [] [] [] []]; try discriminate.
    cbn [hash_rrggbb] in H. rewrite lstrip_hash_hash.
    destruct (six_hex_digits_inv _ H)
      as (c1 & c2 & c3 & c4 & c5 & c6 & v1 & v2 & v3 & v4 & v5 & v6
          & Hs & H1 & _).
    rewrite Hs, lstrip_hash_first; [now rewrite <- Hs|].
    intros ->. discriminate H1.
  - intros s Hlen. rewrite Htable. subst stripped. cbv beta in Hlen.
    replace (Unicode.slice (Unicode.chars (lstrip_hash s)) 4 6)
      with (@nil string).
    + cbn [map Unicode.accepted].
      destruct (Unicode.accepted _); [|reflexivity].
      destruct (Unicode.accepted _); reflexivity.
    + unfold Unicode.slice. rewrite skipn_all2 by lia. reflexivity.
  - intros s ch Hin Hother. rewrite Htable.
    subst stripped class. cbv beta in Hin, Hother.
    rewrite (proj1 (first_six_slices _)) in Hin.
    assert (Hnone : forall l,
               In ch l ->
               Unicode.accepted
                 (map (Unicode.class unicode_space unicode_decimal) l)
               = None).
    { intros l Hl. apply accepted_other. rewrite <- Hother.
      now apply in_map. }
    apply in_app_or in Hin. destruct Hin as [Hin|Hin].
    + now rewrite (Hnone _ Hin).
    + apply in_app_or in Hin. destruct Hin as [Hin|Hin].
      * rewrite (Hnone _ Hin). now destruct (Unicode.accepted _).
      * rewrite (Hnone _ Hin).
        destruct (Unicode.accepted _); [|reflexivity].
        now destruct (Unicode.accepted _).
  - intros s s' Heq. rewrite !Htable. subst stripped. cbv beta in Heq.
    destruct (first_six_slices (Unicode.chars (lstrip_hash s)))
      as (_ & -> & -> & ->).
    destruct (first_six_slices (Unicode.chars (lstrip_hash s')))
      as (_ & -> & -> & ->).
    now rewrite Heq.
  - rewrite unicode_hex_to_rgb_ascii; reflexivity.
Qed.

Lemma hex_to_rgb_six_digits_sufficient_witness :
  (exists rgb,
      Unicode.hex_to_rgb (fun _ => false) (fun _ => None) "#1A365D" = Ok rgb /\
      channels_in_range rgb) /\
  Unicode.hex_to_rgb (fun _ => false) (fun _ => None) "#12"
  = Raise ValueError /\
  Unicode.hex_to_rgb (fun _ => false) (fun _ => None) "#GGGGGG"
  = Raise ValueError.
Proof.
  destruct (hex_to_rgb_six_digits_sufficient (fun _ => false) (fun _ => None))
    as (_ & _ & _ & H4 & H5 & H6 & _).
  split; [|split].
  - apply H4. reflexivity.
  - apply H5. simpl. lia.
  - apply (H6 "#GGGGGG" "G"); [simpl; tauto|reflexivity].
Defined.

(** C6 as stated fails: [hex_to_rgb] does not raise exactly on the texts
    that are not 6 hexadecimal digits after stripping.  ['FFFFFF00'] is
    not 6 hexadecimal digits and is not [#RRGGBB], and is converted, in
    the ASCII model and in the model for every text alike. *)
Lemma hex_to_rgb_raises_iff_not_six_digits_counterexample :
  six_hex_digits (lstrip_hash "FFFFFF00") = false /\
  hash_rrggbb "FFFFFF00" = false /\
  hex_to_rgb "FFFFFF00" = Ok (255, 255, 255)%Z /\
  ~ (forall s, (exists e, hex_to_rgb s = Raise e) <->
               six_hex_digits (lstrip_hash s) = false) /\
  (forall (unicode_space : string -> bool)
          (unicode_decimal : string -> option nat),
      Unicode.hex_to_rgb unicode_space unicode_decimal "FFFFFF00"
      = Ok (255, 255, 255)%Z /\
      ~ (forall s,
            (exists e,
                Unicode.hex_to_rgb unicode_space unicode_decimal s = Raise e)
            <-> six_hex_digits (lstrip_hash s) = false)).
Proof.
  split; [reflexivity|]. split; [reflexivity|]. split; [reflexivity|].
  split.
  - intros H. destruct (proj2 (H "FFFFFF00") eq_refl) as [e He].
    discriminate He.
  - intros unicode_space unicode_decimal.
    assert (Hok : Unicode.hex_to_rgb unicode_space unicode_decimal "FFFFFF00"
                  = Ok (255, 255, 255)%Z)
      by (rewrite unicode_hex_to_rgb_ascii; reflexivity).
    split; [exact Hok|].
    intros H. destruct (proj2 (H "FFFFFF00") eq_refl) as [e He].
    rewrite Hok in He. discriminate He.
Qed.

(** C7.  Whatever the floating-point conversion does, neither
    [generate_pastel_variant] nor [generate_complementary_color] raises:
    each returns a string for every input.  When a conversion fails,
    in [hex_to_rgb] (malformed hex text) or in the HLS arithmetic,
    [generate_pastel_variant] returns ['#FFE4EC'] and
    [generate_complementary_color] returns ['#A29BFE']. *)
Theorem colour_variants_fall_back :
  forall (float : Type)
         (pastel_channels : Z * Z * Z -> float -> result (Z * Z * Z))
         (complementary_channels : Z * Z * Z -> result (Z * Z * Z))
         (hex_color : string) (boost : float),
    (exists c, generate_pastel_variant float pastel_channels hex_color boost
               = Ok c) /\
    (exists c, generate_complementary_color complementary_channels hex_color
               = Ok c) /\
    ((exists e, hex_to_rgb hex_color = Raise e) ->
     generate_pastel_variant float pastel_channels hex_color boost
     = Ok "#FFE4EC" /\
     generate_complementary_color complementary_channels hex_color
     = Ok "#A29BFE") /\
    (forall rgb e,
        hex_to_rgb hex_color = Ok rgb ->
        pastel_channels rgb boost = Raise e ->
        generate_pastel_variant float pastel_channels hex_color boost
        = Ok "#FFE4EC") /\
    (forall rgb e,
        hex_to_rgb hex_color = Ok rgb ->
        complementary_channels rgb = Raise e ->
        generate_complementary_color complementary_channels hex_color
        = Ok "#A29BFE").
Proof.
  intros float pastel_channels complementary_channels hex_color boost.
  unfold generate_pastel_variant, generate_complementary_color, try_except.
  repeat split.
  - destruct (hex_to_rgb hex_color) as [rgb|e]; cbn [bind]; [|eauto].
    destruct (pastel_channels rgb boost); cbn [bind]; eauto.
  - destruct (hex_to_rgb hex_color) as [rgb|e]; cbn [bind]; [|eauto].
    destruct (complementary_channels rgb); cbn [bind]; eauto.
  - destruct H as [e ->]. reflexivity.
  - destruct H as [e ->]. reflexivity.
  - intros rgb e -> H. cbn [bind]. now rewrite H.
  - intros rgb e -> H. cbn [bind]. now rewrite H.
Qed.

(** The fallbacks on the malformed text ['#12'], for a conversion that
    always succeeds. *)
Lemma colour_variants_fall_back_witness :
  generate_pastel_variant unit (fun rgb _ => Ok rgb) "#12" tt = Ok "#FFE4EC" /\
  generate_complementary_color (fun rgb => Ok rgb) "#12" = Ok "#A29BFE".
Proof.
  destruct (colour_variants_fall_back unit (fun rgb _ => Ok rgb)
              (fun rgb => Ok rgb) "#12" tt) as (_ & _ & H & _).
  apply H. exists ValueError. reflexivity.
Defined.

(** ** DesignTemplateSelector *)

Section SelectFacts.

Variable rng : Type.
Variable seeded : Z -> rng.
Variable randbelow : rng -> nat -> nat * rng.

(** The contract of [Random._randbelow]: an index below the bound. *)
Hypothesis randbelow_lt :
  forall g n, (0 < n)%nat -> (fst (randbelow g n) < n)%nat.

Lemma random_choice_member (seq : list string) (g : rng) :
  seq <> [] ->
  exists x, fst (random_choice rng randbelow seq g) = Ok x /\ In x seq.
Proof.
  intros Hne. unfold random_choice.
  destruct seq as [|a l]; [congruence|].
  pose proof (randbelow_lt g (List.length (a :: l))) as Hlt.
  destruct (randbelow g (List.length (a :: l))) as [i g'].
  simpl fst in Hlt.
  destruct (nth_error (a :: l) i) as [x|] eqn:E.
  - exists x. split; [reflexivity|]. exact (nth_error_In _ _ E).
  - exfalso. apply nth_error_None in E. simpl in *. lia.
Qed.

(** With a seed, the template is drawn from the candidate set by the
    generator freshly seeded: the state found in the shared generator
    plays no part. *)
Lemma select_design_template_seeded (seed : Z) (style_hint : option string)
      (g : rng) :
  select_design_template rng seeded randbelow (Some seed) style_hint g
  = random_choice rng randbelow (candidate_set style_hint) (seeded seed).
Proof.
  unfold select_design_template, candidate_set, random_seed, truthy.
  destruct style_hint as [[|c r]|]; try reflexivity.
  destruct (lookup (Py.lower (String c r)) style_preferences) as [p|];
    [|reflexivity].
  destruct (filter (fun t => Py.mem t (map fst DESIGN_TEMPLATES)) p);
    reflexivity.
Qed.

Lemma candidate_set_not_empty (style_hint : option string) :
  candidate_set style_hint <> [].
Proof.
  unfold candidate_set.
  destruct style_hint as [h|]; [|discriminate].
  destruct (lookup (Py.lower h) style_preferences) as [p|]; [|discriminate].
  destruct (filter (fun t => Py.mem t (map fst DESIGN_TEMPLATES)) p);
    discriminate.
Qed.

End SelectFacts.

(** C1.  For a generator whose draws stay below the bound, every integer
    seed and every style hint (a string or [None]):
    [select_design_template] returns the same key whatever the state of
    the shared generator before the call, so two calls with the same
    seed and hint agree; and the key returned is a member of the
    candidate set of the hint, the filtered preferred list of a hint
    found in the style-preference mapping when that list is not empty,
    the keys of [DESIGN_TEMPLATES] otherwise. *)
Theorem select_design_template_deterministic_in_candidates :
  forall (rng : Type) (seeded : Z -> rng)
         (randbelow : rng -> nat -> nat * rng),
    (forall g n, (0 < n)%nat -> (fst (randbelow g n) < n)%nat) ->
    forall (seed : Z) (style_hint : option string),
      (forall g1 g2,
          fst (select_design_template rng seeded randbelow
                 (Some seed) style_hint g1)
          = fst (select_design_template rng seeded randbelow
                   (Some seed) style_hint g2)) /\
      (forall g,
          exists key,
            fst (select_design_template rng seeded randbelow
                   (Some seed) style_hint g) = Ok key /\
            In key (candidate_set style_hint)).
Proof.
  intros rng seeded randbelow Hlt seed style_hint. split.
  - intros g1 g2. now rewrite !select_design_template_seeded.
  - intros g. rewrite select_design_template_seeded.
    apply random_choice_member; [exact Hlt|apply candidate_set_not_empty].
Qed.

Lemma sample_randbelow_lt (g : SampleRandom.rng) (n : nat) :
  (0 < n)%nat -> (fst (SampleRandom.randbelow g n) < n)%nat.
Proof.
  intros Hn. unfold SampleRandom.randbelow. simpl fst.
  pose proof (Z.mod_pos_bound g (Z.of_nat n)). lia.
Qed.

(** The selection for seed 42 and the hint ['Modern'], with the sample
    generator. *)
Lemma select_design_template_deterministic_in_candidates_witness :
  exists key,
    fst (select_design_template SampleRandom.rng SampleRandom.seeded
           SampleRandom.randbelow (Some 42%Z) (Some "Modern") 7%Z) = Ok key /\
    In key ["light_gray_minimal"; "clean_white"; "soft_beige"].
Proof.
  exact (proj2 (select_design_template_deterministic_in_candidates
                  SampleRandom.rng SampleRandom.seeded SampleRandom.randbelow
                  sample_randbelow_lt 42%Z (Some "Modern")) 7%Z).
Defined.

(** ** SlidePurposeAnalyzer *)

Lemma mem_data_timeline (purpose : string) :
  Py.mem purpose ["data"; "timeline"] = true <->
  purpose = "data" \/ purpose = "timeline".
Proof.
  unfold Py.mem. simpl. rewrite !orb_true_iff, !String.eqb_eq.
  intuition discriminate.
Qed.

(** The position rule, case by case. *)
Lemma position_override_cases (purpose : string) (slide_number total_slides : Z) :
  (slide_number = 1%Z -> purpose <> "data" -> purpose <> "timeline" ->
   position_override purpose slide_number total_slides = "concept") /\
  (slide_number = 1%Z -> purpose = "data" \/ purpose = "timeline" ->
   position_override purpose slide_number total_slides = purpose) /\
  (slide_number = total_slides -> (1 < total_slides)%Z ->
   position_override purpose slide_number total_slides = "cta").
Proof.
  unfold position_override. repeat split.
  - intros -> Hd Ht. rewrite Z.eqb_refl.
    destruct (Py.mem purpose ["data"; "timeline"]) eqn:E; [|reflexivity].
    apply mem_data_timeline in E. tauto.
  - intros -> H. rewrite Z.eqb_refl.
    now rewrite (proj2 (mem_data_timeline purpose) H).
  - intros -> H.
    replace (total_slides =? 1)%Z with false by (symmetry; apply Z.eqb_neq; lia).
    now rewrite Z.eqb_refl.
Qed.

(** The context of a slide is always built, for the purpose that the
    position rule leaves. *)
Lemma get_slide_visual_context_purpose
      (title description : string) (slide_number total_slides : Z)
      (global_topic : string) :
  exists context,
    get_slide_visual_context title description slide_number total_slides
      global_topic = Ok context /\
    ctx_detected_purpose context
    = position_override (analyze_slide_purpose title description)
        slide_number total_slides.
Proof.
  unfold get_slide_visual_context, get_purpose_specific_visuals.
  assert (Hv : exists v, getitem VISUAL_OBJECTS_BY_PURPOSE "concept" = Ok v)
    by (eexists; reflexivity).
  assert (Hi : exists v, getitem SLIDE_PURPOSE_TYPES "concept" = Ok v)
    by (eexists; reflexivity).
  destruct Hv as [v ->]. destruct Hi as [i ->]. cbn [bind].
  eexists. split; reflexivity.
Qed.

(** C2.  [get_slide_visual_context] returns a context for every title,
    description, slide number and number of slides.  On slide 1 the
    final purpose is ['concept'] when the purpose detected from the
    keywords is neither ['data'] nor ['timeline'], and a detected
    ['data'] or ['timeline'] is kept.  On the last slide of a carousel of
    more than one slide the final purpose is ['cta'], whatever the
    keywords detected. *)
Theorem slide_purpose_position_override :
  forall (title description : string) (slide_number total_slides : Z)
         (global_topic : string),
  exists context,
    get_slide_visual_context title description slide_number total_slides
      global_topic = Ok context /\
    (slide_number = 1%Z ->
     analyze_slide_purpose title description <> "data" ->
     analyze_slide_purpose title description <> "timeline" ->
     ctx_detected_purpose context = "concept") /\
    (slide_number = 1%Z ->
     analyze_slide_purpose title description = "data" \/
     analyze_slide_purpose title description = "timeline" ->
     ctx_detected_purpose context = analyze_slide_purpose title description) /\
    (slide_number = total_slides -> (1 < total_slides)%Z ->
     ctx_detected_purpose context = "cta").
Proof.
  intros title description slide_number total_slides global_topic.
  destruct (get_slide_visual_context_purpose title description slide_number
              total_slides global_topic) as (context & Hc & Hp).
  exists context. split; [exact Hc|]. rewrite Hp.
  apply position_override_cases.
Qed.

(** Slide 1 of 5 titled "Quarterly Revenue Growth of 40%" keeps ['data'];
    slide 5 of 5 with the same title is ['cta']. *)
Lemma slide_purpose_position_override_witness :
  (exists context,
      get_slide_visual_context "Quarterly Revenue Growth of 40%" "" 1 5
        "Business growth" = Ok context /\
      ctx_detected_purpose context = "data") /\
  (exists context,
      get_slide_visual_context "Quarterly Revenue Growth of 40%" "" 5 5
        "Business growth" = Ok context /\
      ctx_detected_purpose context = "cta").
Proof.
  split.
  - destruct (slide_purpose_position_override
                "Quarterly Revenue Growth of 40%" "" 1 5 "Business growth")
      as (context & Hc & _ & Hkeep & _).
    exists context. split; [exact Hc|].
    rewrite Hkeep; [reflexivity|reflexivity|left; reflexivity].
  - destruct (slide_purpose_position_override
                "Quarterly Revenue Growth of 40%" "" 5 5 "Business growth")
      as (context & Hc & _ & _ & Hlast).
    exists context. split; [exact Hc|].
    apply Hlast; [reflexivity|lia].
Defined.

(** ** FlowDescriptionBuilder *)

Lemma contains_startswith (needle post : string) :
  Py.startswith needle (needle ++ post) = true.
Proof.
  induction needle as [|c r IH]; simpl; [reflexivity|].
  now rewrite Ascii.eqb_refl, IH.
Qed.

Lemma contains_append_right (needle pre s : string) :
  Py.contains needle s = true -> Py.contains needle (pre ++ s) = true.
Proof.
  intros H. induction pre as [|c r IH]; simpl; [exact H|].
  rewrite IH. apply orb_true_r.
Qed.

(** C10.  For a carousel of a single slide ([slide_number = 1],
    [total_slides = 1]) [get_slide_flow_description] returns the opening
    description: the flow element originates at the left edge, exits
    toward the right edge, and a swipe cue is asked for.  It is not the
    closing description.  The test [slide_number == 1] comes first:
    slide 1 gets the opening description whatever the number of
    slides. *)
Theorem single_slide_flow_is_opening :
  forall flow : string,
    get_slide_flow_description 1 1 flow = opening_flow 1 flow /\
    get_slide_flow_description 1 1 flow <> closing_flow 1 1 flow /\
    Py.startswith
      (String "010" "VISUAL FLOW POSITION: OPENING SLIDE (1 of 1)")
      (get_slide_flow_description 1 1 flow) = true /\
    Py.contains "ORIGINATES from the LEFT edge"
      (get_slide_flow_description 1 1 flow) = true /\
    Py.contains "EXIT toward the right edge"
      (get_slide_flow_description 1 1 flow) = true /\
    Py.contains "swipe" (get_slide_flow_description 1 1 flow) = true /\
    (forall total_slides,
        get_slide_flow_description 1 total_slides flow
        = opening_flow total_slides flow).
Proof.
  intros flow.
  assert (H1 : forall total_slides,
             get_slide_flow_description 1 total_slides flow
             = opening_flow total_slides flow) by reflexivity.
  rewrite H1.
  split; [reflexivity|]. split; [|split; [|split; [|split; [|split]]]].
  - unfold opening_flow, closing_flow. cbn [append]. discriminate.
  - reflexivity.
  - unfold opening_flow; do 4 apply contains_append_right;
      vm_compute; reflexivity.
  - unfold opening_flow; do 4 apply contains_append_right;
      vm_compute; reflexivity.
  - unfold opening_flow; do 4 apply contains_append_right;
      vm_compute; reflexivity.
  - exact H1.
Qed.

(** ** Keyword extraction *)

Lemma all_chars_snoc (p : ascii -> bool) (w : string) (c : ascii) :
  all_chars p (w ++ String c EmptyString) = all_chars p w && p c.
Proof.
  induction w as [|a r IH]; simpl; [now rewrite andb_true_r|].
  now rewrite IH, andb_assoc.
Qed.

Lemma emit_good (run : option string) :
  match run with
  | Some w => all_chars Py.is_lower w = true
  | None => True
  end ->
  Forall good_word (emit run).
Proof.
  destruct run as [w|]; unfold emit; [|constructor].
  intros Hw. destruct (3 <=? String.length w)%nat eqn:E; [|constructor].
  apply Nat.leb_le in E. repeat constructor; assumption.
Qed.

(** On a text whose letters are all lower-case, the words found are
    runs of at least 3 lower-case letters. *)
Lemma scan_words_good (s : string) :
  forall prev_word run,
    all_chars (fun c => implb (Py.is_alpha c) (Py.is_lower c)) s = true ->
    match run with
    | Some w => all_chars Py.is_lower w = true
    | None => True
    end ->
    Forall good_word (scan_words s prev_word run).
Proof.
  induction s as [|c r IH]; intros prev_word run Hs Hrun; simpl.
  - now apply emit_good.
  - simpl in Hs. apply andb_prop in Hs. destruct Hs as [Hc Hr].
    destruct (Py.is_alpha c) eqn:Ea.
    + simpl in Hc. destruct run as [w|].
      * apply IH; [exact Hr|]. now rewrite all_chars_snoc, Hrun, Hc.
      * destruct prev_word; apply IH; simpl; auto. now rewrite Hc.
    + destruct (Py.is_word c).
      * now apply IH.
      * apply Forall_app. split; [now apply emit_good|now apply IH].
Qed.

Lemma lower_char_not_upper (c : ascii) :
  implb (Py.is_alpha (Py.lower_char c)) (Py.is_lower (Py.lower_char c)) = true.
Proof.
  apply (forall_ascii
           (fun c => implb (Py.is_alpha (Py.lower_char c))
                           (Py.is_lower (Py.lower_char c)))).
  vm_compute. reflexivity.
Qed.

Lemma lower_letters (s : string) :
  all_chars (fun c => implb (Py.is_alpha c) (Py.is_lower c)) (Py.lower s)
  = true.
Proof.
  induction s as [|c r IH]; simpl; [reflexivity|].
  now rewrite lower_char_not_upper, IH.
Qed.

Lemma findall_words_lower_good (text : string) :
  Forall good_word (findall_words (Py.lower text)).
Proof.
  apply scan_words_good; [apply lower_letters|exact I].
Qed.

Lemma mem_In (x : string) (xs : list string) :
  Py.mem x xs = true <-> In x xs.
Proof.
  unfold Py.mem. rewrite existsb_exists. split.
  - intros (y & Hy & E). apply String.eqb_eq in E. now subst.
  - intros H. exists x. split; [exact H|apply String.eqb_refl].
Qed.

(** [first_seen]: no duplicates, nothing already seen, nothing new. *)
Lemma first_seen_spec (l : list string) :
  forall seen,
    NoDup (first_seen seen l) /\
    (forall x, In x (first_seen seen l) -> In x l /\ ~ In x seen).
Proof.
  induction l as [|a r IH]; intros seen; simpl.
  - split; [constructor|intros x []].
  - destruct (Py.mem a seen) eqn:E.
    + destruct (IH seen) as [Hn Hi]. split; [exact Hn|].
      intros x Hx. destruct (Hi x Hx). auto.
    + destruct (IH (a :: seen)) as [Hn Hi]. split.
      * constructor; [|exact Hn]. intros Ha.
        destruct (Hi a Ha) as [_ Hns]. apply Hns. now left.
      * intros x [->|Hx].
        -- split; [now left|]. intros Hin. apply mem_In in Hin. congruence.
        -- destruct (Hi x Hx) as [H1 H2]. split; [now right|].
           intros Hs. apply H2. now right.
Qed.

Lemma NoDup_firstn_prefix (n : nat) (l : list string) :
  NoDup l -> NoDup (firstn n l).
Proof.
  revert l. induction n as [|n IH]; intros [|a r] H; simpl; try constructor.
  - inversion H; subst. intros Hin. apply H2.
    rewrite <- (firstn_skipn n r). apply in_or_app. now left.
  - inversion H; subst. now apply IH.
Qed.

Lemma In_firstn (n : nat) (l : list string) (x : string) :
  In x (firstn n l) -> In x l.
Proof.
  intros H. rewrite <- (firstn_skipn n l). apply in_or_app. now left.
Qed.

(** The loop of [extract_slide_keywords], from a state in which fewer
    than [max_keywords] keywords are held: it appends the first-seen new
    words that are not stop words, up to the bound. *)
Lemma keyword_loop_first_seen (words : list string) :
  forall keywords seen max_keywords,
    (Z.of_nat (List.length keywords) < max_keywords)%Z ->
    keyword_loop words keywords seen max_keywords
    = (keywords ++
       firstn (Z.to_nat max_keywords - List.length keywords)
         (first_seen seen
            (filter (fun w => negb (Py.mem w stop_words)) words)))%list.
Proof.
  induction words as [|w r IH]; intros keywords seen max_keywords Hlt.
  - simpl. rewrite firstn_nil. now rewrite app_nil_r.
  - cbn [keyword_loop filter].
    destruct (Py.mem w stop_words) eqn:Es; cbn [negb andb].
    + now apply IH.
    + cbn [first_seen]. destruct (Py.mem w seen) eqn:Ed; cbn [negb].
      * now apply IH.
      * rewrite length_app. cbn [List.length].
        destruct (Z.to_nat max_keywords - List.length keywords)%nat
          as [|k] eqn:Ek; [lia|]. cbn [firstn].
        destruct (max_keywords
                  <=? Z.of_nat (List.length keywords + 1))%Z eqn:El.
        -- apply Z.leb_le in El.
           replace k with 0%nat by lia. reflexivity.
        -- apply Z.leb_gt in El. rewrite IH by (rewrite length_app; simpl; lia).
           rewrite <- app_assoc, length_app. cbn [List.length app].
           do 3 f_equal. lia.
Qed.

Lemma extract_slide_keywords_first_seen
      (title description : string) (max_keywords : Z) :
  (1 <= max_keywords)%Z ->
  extract_slide_keywords title description max_keywords
  = keywords_first_seen title description max_keywords.
Proof.
  intros H. unfold extract_slide_keywords, keywords_first_seen.
  rewrite keyword_loop_first_seen by (simpl; lia).
  simpl. now rewrite Nat.sub_0_r.
Qed.

(** ** Keyword extraction on every text *)

Lemma letter_inv (ch : string) (c : ascii) :
  Unicode.letter ch = Some c ->
  ch = String c EmptyString /\ Unicode.is_ascii_char c = true /\
  Py.is_alpha c = true.
Proof.
  unfold Unicode.letter, Unicode.ascii_of.
  destruct ch as [|a [|b r]]; try discriminate.
  destruct (Unicode.is_ascii_char a) eqn:Ea; [|discriminate].
  destruct (Py.is_alpha a) eqn:El; [|discriminate].
  intros H. injection H as <-. auto.
Qed.

(** On a text without upper-case ASCII letters, the words found are
    runs of at least 3 lower-case letters. *)
Lemma unicode_scan_words_good (unicode_word : string -> bool)
      (s : list string) :
  forall prev_word run,
    Forall (fun ch => all_chars (fun c => negb (Py.is_upper c)) ch = true) s ->
    match run with
    | Some w => all_chars Py.is_lower w = true
    | None => True
    end ->
    Forall good_word (Unicode.scan_words unicode_word s prev_word run).
Proof.
  induction s as [|ch r IH]; intros prev_word run Hs Hrun;
    cbn [Unicode.scan_words].
  - now apply emit_good.
  - inversion Hs as [|? ? Hch Hr]; subst.
    destruct (Unicode.letter ch) as [c|] eqn:El.
    + destruct (letter_inv _ _ El) as (-> & _ & Ha).
      cbn [all_chars] in Hch. rewrite andb_true_r in Hch.
      apply negb_true_iff in Hch.
      assert (Hc : Py.is_lower c = true)
        by (unfold Py.is_alpha in Ha; now rewrite Hch in Ha).
      destruct run as [w|].
      * apply IH; [exact Hr|]. now rewrite all_chars_snoc, Hrun, Hc.
      * destruct prev_word; apply IH; cbn [all_chars]; auto.
        now rewrite Hc.
    + destruct (Unicode.is_word unicode_word ch).
      * now apply IH.
      * apply Forall_app. split; [now apply emit_good|now apply IH].
Qed.

(** On ASCII text the words found are those of the ASCII model. *)
Lemma unicode_scan_words_ascii (unicode_word : string -> bool) (s : string) :
  forall prev_word run,
    Unicode.is_ascii s = true ->
    Unicode.scan_words unicode_word
      (map (fun c => String c EmptyString) (list_ascii_of_string s))
      prev_word run
    = scan_words s prev_word run.
Proof.
  induction s as [|c r IH]; intros prev_word run Ha; [reflexivity|].
  unfold Unicode.is_ascii in Ha. cbn [all_chars] in Ha.
  apply andb_prop in Ha. destruct Ha as [Hc Hr].
  cbn [list_ascii_of_string map Unicode.scan_words scan_words].
  unfold Unicode.letter, Unicode.is_word, Unicode.ascii_of. rewrite Hc.
  destruct (Py.is_alpha c).
  - destruct run as [w|]; [now apply IH|].
    destruct prev_word; now apply IH.
  - destruct (Py.is_word c); [now apply IH|].
    f_equal. now apply IH.
Qed.

Lemma unicode_findall_words_ascii (unicode_word : string -> bool)
      (s : string) :
  Unicode.is_ascii s = true ->
  Unicode.findall_words unicode_word s = findall_words s.
Proof.
  intros Ha. unfold Unicode.findall_words, findall_words.
  rewrite (chars_ascii _ Ha). now apply unicode_scan_words_ascii.
Qed.

(** [Py.lower] leaves no upper-case letter. *)
Lemma lower_no_upper (s : string) :
  all_chars (fun c => negb (Py.is_upper c)) (Py.lower s) = true.
Proof.
  induction s as [|c r IH]; [reflexivity|].
  cbn [Py.lower all_chars]. rewrite IH, andb_true_r.
  apply (forall_ascii (fun c => negb (Py.is_upper (Py.lower_char c)))).
  vm_compute. reflexivity.
Qed.

Lemma unicode_extract_slide_keywords_first_seen
      (str_lower : string -> string) (unicode_word : string -> bool)
      (title description : string) (max_keywords : Z) :
  (1 <= max_keywords)%Z ->
  Unicode.extract_slide_keywords str_lower unicode_word title description
    max_keywords
  = firstn (Z.to_nat max_keywords)
      (first_seen []
         (filter (fun w => negb (Py.mem w stop_words))
            (Unicode.findall_words unicode_word
               (str_lower (title ++ " " ++ description))))).
Proof.
  intros H. unfold Unicode.extract_slide_keywords.
  rewrite keyword_loop_first_seen by (simpl; lia).
  simpl. now rewrite Nat.sub_0_r.
Qed.

(** C8.  For every title and description, of ASCII or not, with
    [str_lower] for [str.lower] and [unicode_word] for the word
    characters outside ASCII: for [max_keywords >= 1],
    [extract_slide_keywords] returns the words found in the lower-cased
    text that are not stop words, in first-seen order and without
    duplicates, truncated to [max_keywords]: the list has no duplicates
    and at most [max_keywords] elements, each one a run of at least 3
    lower-case letters outside the stop-word set.  For the title "How
    to Start Investing Today", the description "Learn the basics of the
    stock market" and [max_keywords = 5] the list is start, investing,
    today, learn, basics: it has none of how, to, the, of.  Of
    [str.lower] two facts are used: on ASCII text it is the ASCII
    mapping, and its result has no upper-case ASCII letter. *)
Theorem extract_slide_keywords_first_seen_unique :
  forall (str_lower : string -> string) (unicode_word : string -> bool),
    (forall s, Unicode.is_ascii s = true -> str_lower s = Py.lower s) ->
    (forall s,
        all_chars (fun c => negb (Py.is_upper c)) (str_lower s) = true) ->
    (forall (title description : string) (max_keywords : Z),
        (1 <= max_keywords)%Z ->
        let keywords :=
          Unicode.extract_slide_keywords str_lower unicode_word
            title description max_keywords in
        let words :=
          Unicode.findall_words unicode_word
            (str_lower (title ++ " " ++ description)) in
        keywords
        = firstn (Z.to_nat max_keywords)
            (first_seen []
               (filter (fun w => negb (Py.mem w stop_words)) words)) /\
        NoDup keywords /\
        (Z.of_nat (List.length keywords) <= max_keywords)%Z /\
        Forall (fun k =>
                  (3 <= String.length k)%nat /\
                  all_chars Py.is_lower k = true /\
                  Py.mem k stop_words = false) keywords) /\
    Unicode.extract_slide_keywords str_lower unicode_word
      "How to Start Investing Today"
      "Learn the basics of the stock market" 5
    = ["start"; "investing"; "today"; "learn"; "basics"].
Proof.
  intros str_lower unicode_word Hlower Hupper. split.
  - intros title description max_keywords Hmax keywords words.
    subst keywords.
    rewrite unicode_extract_slide_keywords_first_seen by exact Hmax.
    fold words.
    set (kept := filter (fun w => negb (Py.mem w stop_words)) words).
    destruct (first_seen_spec kept []) as [Hnd Hin].
    split; [reflexivity|]. split; [now apply NoDup_firstn_prefix|]. split.
    + pose proof (firstn_le_length (Z.to_nat max_keywords)
                    (first_seen [] kept)).
      lia.
    + apply Forall_forall. intros k Hk.
      apply In_firstn in Hk. destruct (Hin k Hk) as [Hkept _].
      apply filter_In in Hkept. destruct Hkept as [Hw Hstop].
      assert (Hgood : Forall good_word words).
      { apply unicode_scan_words_good; [|exact I].
        apply chars_all, Hupper. }
      pose proof (proj1 (Forall_forall _ _) Hgood k Hw) as [Hlen Hlow].
      apply negb_true_iff in Hstop. auto.
  - unfold Unicode.extract_slide_keywords.
    rewrite Hlower by reflexivity.
    rewrite unicode_findall_words_ascii by reflexivity.
    vm_compute. reflexivity.
Qed.

Lemma extract_slide_keywords_first_seen_unique_witness :
  let keywords :=
    Unicode.extract_slide_keywords Py.lower (fun _ => false)
      "Top tips: top TIPS for the gym" "Gym_bag and 3tips" 2 in
  keywords = ["top"; "tips"] /\ NoDup keywords.
Proof.
  destruct (proj1 (extract_slide_keywords_first_seen_unique
                     Py.lower (fun _ => false)
                     (fun s _ => eq_refl) lower_no_upper)
              "Top tips: top TIPS for the gym" "Gym_bag and 3tips" 2%Z)
    as (H1 & H2 & _); [lia|].
  split; [reflexivity|exact H2].
Defined.

(** ** PromptComposer: the choice between Layer 2 and Layer 1 *)

Lemma split_from_not_nil (sep : ascii) (s cur : string) :
  Py.split_from sep s cur <> [].
Proof.
  revert cur. induction s as [|c r IH]; intros cur; simpl; [discriminate|].
  destruct (Ascii.eqb c sep); [discriminate|apply IH].
Qed.

Lemma static_list_length (field : string) :
  (0 < List.length (static_list field))%nat.
Proof.
  unfold static_list, Py.split. rewrite length_map.
  pose proof (split_from_not_nil "," field EmptyString).
  destruct (Py.split_from "," field ""); [congruence|simpl; lia].
Qed.

Lemma getindex_in_range (xs : list string) (i : Z) :
  (0 <= i < Z.of_nat (List.length xs))%Z ->
  exists x, getindex xs i = Ok x.
Proof.
  intros Hi. unfold getindex.
  replace (i <? 0)%Z with false by (symmetry; apply Z.ltb_ge; lia).
  destruct (nth_error xs (Z.to_nat i)) as [x|] eqn:E; [now exists x|].
  apply nth_error_None in E. lia.
Qed.

(** The loop over [range(3)] on a window of distinct entries keeps the
    three of them. *)
Lemma select_objects_window (xs : list string) (start : Z) :
  (0 <= start < Z.of_nat (List.length xs))%Z ->
  window_distinct xs start = true ->
  exists o1 o2 o3,
    getindex xs start = Ok o1 /\
    getindex xs ((start + 1) mod Z.of_nat (List.length xs))%Z = Ok o2 /\
    getindex xs ((start + 2) mod Z.of_nat (List.length xs))%Z = Ok o3 /\
    o1 <> o2 /\ o1 <> o3 /\ o2 <> o3 /\
    select_objects [0; 1; 2]%Z xs start [] = Ok [o1; o2; o3].
Proof.
  intros Hs Hw. unfold window_distinct in Hw. cbn [select_objects].
  rewrite Z.add_0_r, (Z.mod_small start) by lia.
  destruct (getindex xs start) as [o1|]; [|discriminate].
  destruct (getindex xs ((start + 1) mod Z.of_nat (List.length xs)))
    as [o2|]; [|discriminate].
  destruct (getindex xs ((start + 2) mod Z.of_nat (List.length xs)))
    as [o3|]; [|discriminate].
  apply andb_prop in Hw. destruct Hw as [Hw H23].
  apply andb_prop in Hw. destruct Hw as [H12 H13].
  apply negb_true_iff in H12, H13, H23.
  exists o1, o2, o3.
  repeat (split; [first [reflexivity | now apply String.eqb_neq]|]).
  cbn [bind Py.mem existsb negb orb app].
  rewrite (String.eqb_sym o2 o1), H12. cbn [negb orb app].
  rewrite (String.eqb_sym o3 o1), (String.eqb_sym o3 o2), H13, H23.
  reflexivity.
Qed.

(** In every palette of the table, any three cyclically consecutive
    objects are pairwise distinct. *)
Lemma palettes_windows_distinct :
  forallb (fun entry => windows_distinct (static_list (Palette.objects (snd entry))))
          TOPIC_COLOR_PALETTES = true.
Proof. vm_compute. reflexivity. Qed.

Lemma lookup_In {A : Type} (k : string) (d : list (string * A)) (v : A) :
  lookup k d = Some v -> In (k, v) d.
Proof.
  induction d as [|[k' v'] r IH]; simpl; [discriminate|].
  destruct (String.eqb k k') eqn:E.
  - apply String.eqb_eq in E. intros H. inversion H; subst. now left.
  - intros H. right. now apply IH.
Qed.

Lemma In_lookup {A : Type} (k : string) (d : list (string * A)) :
  In k (map fst d) -> exists v, lookup k d = Some v.
Proof.
  induction d as [|[k' v'] r IH]; simpl; [intros []|].
  destruct (String.eqb k k') eqn:E; [eauto|].
  intros [H|H]; [|auto]. subst. rewrite String.eqb_refl in E. discriminate.
Qed.

Lemma category_palette_some (category : string) :
  exists palette,
    category_palette category = Some palette /\
    windows_distinct (static_list (Palette.objects palette)) = true.
Proof.
  assert (Hall : forall k p, In (k, p) TOPIC_COLOR_PALETTES ->
                 windows_distinct (static_list (Palette.objects p)) = true).
  { intros k p Hin.
    exact (proj1 (forallb_forall _ _) palettes_windows_distinct (k, p) Hin). }
  unfold category_palette.
  destruct (lookup category TOPIC_COLOR_PALETTES) as [p|] eqn:E.
  - exists p. split; [reflexivity|]. exact (Hall _ _ (lookup_In _ _ _ E)).
  - destruct (lookup "default" TOPIC_COLOR_PALETTES) as [p|] eqn:Ed;
      [|discriminate Ed].
    exists p. split; [reflexivity|]. exact (Hall _ _ (lookup_In _ _ _ Ed)).
Qed.

(** The Layer-1 instruction for a palette whose objects have distinct
    windows. *)
Lemma layer1_instruction_rotation (palette : Palette.t)
      (topic_category topic : string) (slide_number : Z) :
  windows_distinct (static_list (Palette.objects palette)) = true ->
  let all_objects := static_list (Palette.objects palette) in
  let all_creative := static_list (Palette.creative_elements palette) in
  let n := Z.of_nat (List.length all_objects) in
  let start := ((slide_number - 1) mod n)%Z in
  exists o1 o2 o3 creative,
    getindex all_objects start = Ok o1 /\
    getindex all_objects ((start + 1) mod n)%Z = Ok o2 /\
    getindex all_objects ((start + 2) mod n)%Z = Ok o3 /\
    o1 <> o2 /\ o1 <> o3 /\ o2 <> o3 /\
    getindex all_creative
      ((slide_number - 1) mod Z.of_nat (List.length all_creative))%Z
    = Ok creative /\
    layer1_instruction palette topic_category topic slide_number
    = Ok (Layer1 topic_category (Py.join ", " [o1; o2; o3]) creative topic).
Proof.
  intros Hw all_objects all_creative n start.
  pose proof (static_list_length (Palette.objects palette)) as Hlo.
  pose proof (static_list_length (Palette.creative_elements palette)) as Hlc.
  fold all_objects in Hlo, Hw. fold all_creative in Hlc.
  assert (Hs : (0 <= start < n)%Z)
    by (apply Z.mod_pos_bound; unfold n; lia).
  assert (Hwin : window_distinct all_objects start = true).
  { unfold windows_distinct in Hw. rewrite forallb_forall in Hw.
    specialize (Hw (Z.to_nat start)). rewrite Z2Nat.id in Hw by lia.
    apply Hw, in_seq. unfold n in Hs. lia. }
  destruct (select_objects_window all_objects start Hs Hwin)
    as (o1 & o2 & o3 & G1 & G2 & G3 & D12 & D13 & D23 & Hsel).
  destruct (getindex_in_range all_creative
              ((slide_number - 1) mod Z.of_nat (List.length all_creative)))
    as [creative Hc]; [apply Z.mod_pos_bound; lia|].
  exists o1, o2, o3, creative.
  repeat (split; [assumption|]).
  unfold layer1_instruction.
  fold (static_list (Palette.objects palette)).
  fold (static_list (Palette.creative_elements palette)).
  fold all_objects. fold all_creative. fold n. fold start.
  rewrite Hsel. cbn [bind firstn]. rewrite Hc. reflexivity.
Qed.

Lemma candidate_set_keys (style_hint : option string) (key : string) :
  In key (candidate_set style_hint) -> In key (map fst DESIGN_TEMPLATES).
Proof.
  unfold candidate_set.
  destruct style_hint as [h|]; [|auto].
  destruct (lookup (Py.lower h) style_preferences) as [p|]; [|auto].
  destruct (filter (fun t => Py.mem t (map fst DESIGN_TEMPLATES)) p)
    as [|a l] eqn:E; [auto|].
  intros Hin. rewrite <- E in Hin. apply filter_In in Hin.
  now apply mem_In.
Qed.

Section PromptFacts.

Variable float : Type.
Variable default_boost : float.
Variable pastel_channels : Z * Z * Z -> float -> result (Z * Z * Z).
Variable md5_hex8 : string -> Z.
Variable rng : Type.
Variable seeded : Z -> rng.
Variable randbelow : rng -> nat -> nat * rng.

Hypothesis randbelow_lt :
  forall g n, (0 < n)%nat -> (fst (randbelow g n) < n)%nat.

Lemma generate_pastel_variant_ok (hex_color : string) (boost : float) :
  exists c, generate_pastel_variant float pastel_channels hex_color boost
            = Ok c.
Proof.
  unfold generate_pastel_variant, try_except.
  destruct (hex_to_rgb hex_color) as [rgb|e]; cbn [bind]; [|eauto].
  destruct (pastel_channels rgb boost); cbn [bind]; eauto.
Qed.

(** Brand colours leave the objects and the creative elements of the
    palette of the category as they are. *)
Lemma get_topic_color_palette_objects (topic : string)
      (brand_colors : option (list string)) :
  exists palette base,
    get_topic_color_palette float default_boost pastel_channels
      topic brand_colors = Ok palette /\
    category_palette (get_topic_category topic) = Some base /\
    windows_distinct (static_list (Palette.objects base)) = true /\
    Palette.objects palette = Palette.objects base /\
    Palette.creative_elements palette = Palette.creative_elements base.
Proof.
  destruct (category_palette_some (get_topic_category topic))
    as (base & Hbase & Hwin).
  unfold get_topic_color_palette.
  assert (Hd : exists d, lookup "default" TOPIC_COLOR_PALETTES = Some d)
    by (eexists; reflexivity).
  destruct Hd as [d Hd]. unfold getitem. rewrite Hd. cbn [bind].
  assert (Hget : get_or TOPIC_COLOR_PALETTES (get_topic_category topic) d
                 = base).
  { unfold get_or. unfold category_palette in Hbase.
    destruct (lookup (get_topic_category topic) TOPIC_COLOR_PALETTES);
      congruence. }
  rewrite Hget.
  destruct brand_colors as [[|first others]|].
  - exists base, base. auto.
  - destruct (generate_pastel_variant_ok first default_boost) as [c ->].
    cbn [bind]. eexists. exists base. repeat split; auto.
  - exists base, base. auto.
Qed.

Lemma select_design_template_template (seed : Z)
      (style_hint : option string) (g : rng) :
  exists key template,
    fst (select_design_template rng seeded randbelow (Some seed)
           style_hint g) = Ok key /\
    getitem DESIGN_TEMPLATES key = Ok template.
Proof.
  rewrite select_design_template_seeded.
  destruct (random_choice_member rng randbelow randbelow_lt
              (candidate_set style_hint) (seeded seed)
              (candidate_set_not_empty style_hint)) as (key & Hk & Hin).
  destruct (In_lookup key DESIGN_TEMPLATES (candidate_set_keys _ _ Hin))
    as [template Ht].
  exists key, template. split; [exact Hk|]. unfold getitem. now rewrite Ht.
Qed.

(** The prompt is always built; its objects instruction is the Layer-2
    one when the title and the description are both true values, the
    Layer-1 rotation otherwise. *)
Lemma image_prompt_layers (topic : string) (slide_number total_slides : Z)
      (style : option string) (brand_colors : option (list string))
      (project_id : option Z) (slide_title slide_description : option string)
      (g : rng) :
  exists prompt,
    fst (generate_enhanced_image_prompt float default_boost pastel_channels
           md5_hex8 rng seeded randbelow topic slide_number total_slides
           style brand_colors project_id slide_title slide_description g)
    = Ok prompt /\
    (truthy slide_title && truthy slide_description = true ->
     exists title description context,
       slide_title = Some title /\ slide_description = Some description /\
       get_slide_visual_context title description slide_number total_slides
         topic = Ok context /\
       prompt_objects_instruction prompt = Layer2 title context) /\
    (truthy slide_title && truthy slide_description = false ->
     exists palette o1 o2 o3 creative,
       category_palette (get_topic_category topic) = Some palette /\
       let all_objects := static_list (Palette.objects palette) in
       let all_creative := static_list (Palette.creative_elements palette) in
       let n := Z.of_nat (List.length all_objects) in
       let start := ((slide_number - 1) mod n)%Z in
       getindex all_objects start = Ok o1 /\
       getindex all_objects ((start + 1) mod n)%Z = Ok o2 /\
       getindex all_objects ((start + 2) mod n)%Z = Ok o3 /\
       o1 <> o2 /\ o1 <> o3 /\ o2 <> o3 /\
       getindex all_creative
         ((slide_number - 1) mod Z.of_nat (List.length all_creative))%Z
       = Ok creative /\
       prompt_objects_instruction prompt
       = Layer1 (get_topic_category topic) (Py.join ", " [o1; o2; o3])
           creative topic).
Proof.
  unfold generate_enhanced_image_prompt.
  set (seed := generate_carousel_flow_seed md5_hex8
                 match project_id with Some p => p | None => 0%Z end topic).
  destruct (select_design_template_template seed style g)
    as (key & template & Hsel & Htemplate).
  destruct (select_design_template rng seeded randbelow (Some seed) style g)
    as [chosen g'].
  simpl fst in Hsel. subst chosen. cbn [fst bind]. rewrite Htemplate.
  cbn [bind].
  destruct (get_topic_color_palette_objects topic brand_colors)
    as (palette & base & Hpal & Hbase & Hwin & Hobj & Hcre).
  rewrite Hpal. cbn [bind].
  destruct (layer1_instruction_rotation palette (get_topic_category topic)
              topic slide_number)
    as (o1 & o2 & o3 & creative & G1 & G2 & G3 & D12 & D13 & D23 & Hc & Hl1);
    [now rewrite Hobj|].
  rewrite Hobj in G1, G2, G3. rewrite Hcre in Hc.
  assert (Hlayer1 :
            forall prompt,
              prompt_objects_instruction prompt
              = Layer1 (get_topic_category topic)
                  (Py.join ", " [o1; o2; o3]) creative topic ->
              exists palette o1 o2 o3 creative,
                category_palette (get_topic_category topic) = Some palette /\
                let all_objects := static_list (Palette.objects palette) in
                let all_creative :=
                  static_list (Palette.creative_elements palette) in
                let n := Z.of_nat (List.length all_objects) in
                let start := ((slide_number - 1) mod n)%Z in
                getindex all_objects start = Ok o1 /\
                getindex all_objects ((start + 1) mod n)%Z = Ok o2 /\
                getindex all_objects ((start + 2) mod n)%Z = Ok o3 /\
                o1 <> o2 /\ o1 <> o3 /\ o2 <> o3 /\
                getindex all_creative
                  ((slide_number - 1)
                   mod Z.of_nat (List.length all_creative))%Z
                = Ok creative /\
                prompt_objects_instruction prompt
                = Layer1 (get_topic_category topic)
                    (Py.join ", " [o1; o2; o3]) creative topic).
  { intros prompt Hp. exists base, o1, o2, o3, creative.
    split; [exact Hbase|]. cbv zeta. repeat (split; [assumption|]).
    exact Hp. }
  destruct slide_title as [title|]; destruct slide_description as [description|];
    try (cbn [bind]; rewrite Hl1; cbn [bind]; eexists;
         split; [reflexivity|];
         split; [intros Ht; simpl in Ht;
                 try rewrite andb_false_r in Ht; discriminate Ht
                |intros _; apply Hlayer1; reflexivity]).
  destruct (truthy (Some title) && truthy (Some description)) eqn:Et.
  - destruct (get_slide_visual_context_purpose title description
                slide_number total_slides topic) as (context & Hctx & _).
    rewrite Hctx. cbn [bind]. eexists. split; [reflexivity|].
    split; [|discriminate].
    intros _. exists title, description, context. repeat split; auto.
  - cbn [bind]. rewrite Hl1. cbn [bind]. eexists. split; [reflexivity|].
    split; [discriminate|]. intros _. apply Hlayer1. reflexivity.
Qed.

End PromptFacts.

(** C9, as the code has it.  [generate_enhanced_image_prompt] always
    builds its prompt.  It runs the per-slide analysis (Layer 2) exactly
    when the slide title and the slide description are both supplied
    and not empty: the code tests their truth value, and an empty string
    is false.  The objects instruction is then made of the context that
    [get_slide_visual_context] returns.  Otherwise it is the Layer-1
    fallback: three pairwise distinct objects of the static objects list
    of the category of the topic, read cyclically from index
    [(slide_number - 1) mod] the length of that list, and the creative
    element at index [(slide_number - 1) mod] the length of the creative
    list. *)
Theorem image_prompt_layer2_iff_title_and_description_true :
  forall (float : Type) (default_boost : float)
         (pastel_channels : Z * Z * Z -> float -> result (Z * Z * Z))
         (md5_hex8 : string -> Z)
         (rng : Type) (seeded : Z -> rng)
         (randbelow : rng -> nat -> nat * rng),
    (forall g n, (0 < n)%nat -> (fst (randbelow g n) < n)%nat) ->
    forall (topic : string) (slide_number total_slides : Z)
           (style : option string) (brand_colors : option (list string))
           (project_id : option Z)
           (slide_title slide_description : option string) (g : rng),
    exists prompt,
      fst (generate_enhanced_image_prompt float default_boost pastel_channels
             md5_hex8 rng seeded randbelow topic slide_number total_slides
             style brand_colors project_id slide_title slide_description g)
      = Ok prompt /\
      ((exists title context,
           prompt_objects_instruction prompt = Layer2 title context) <->
       truthy slide_title && truthy slide_description = true) /\
      (truthy slide_title && truthy slide_description = true ->
       exists title description context,
         slide_title = Some title /\ slide_description = Some description /\
         get_slide_visual_context title description slide_number total_slides
           topic = Ok context /\
         prompt_objects_instruction prompt = Layer2 title context) /\
      (truthy slide_title && truthy slide_description = false ->
       exists palette o1 o2 o3 creative,
         category_palette (get_topic_category topic) = Some palette /\
         let all_objects := static_list (Palette.objects palette) in
         let all_creative := static_list (Palette.creative_elements palette) in
         let n := Z.of_nat (List.length all_objects) in
         let start := ((slide_number - 1) mod n)%Z in
         getindex all_objects start = Ok o1 /\
         getindex all_objects ((start + 1) mod n)%Z = Ok o2 /\
         getindex all_objects ((start + 2) mod n)%Z = Ok o3 /\
         o1 <> o2 /\ o1 <> o3 /\ o2 <> o3 /\
         getindex all_creative
           ((slide_number - 1) mod Z.of_nat (List.length all_creative))%Z
         = Ok creative /\
         prompt_objects_instruction prompt
         = Layer1 (get_topic_category topic) (Py.join ", " [o1; o2; o3])
             creative topic).
Proof.
  intros float default_boost pastel_channels md5_hex8 rng seeded randbelow
         Hlt topic slide_number total_slides style brand_colors project_id
         slide_title slide_description g.
  destruct (image_prompt_layers float default_boost pastel_channels md5_hex8
              rng seeded randbelow Hlt topic slide_number total_slides style
              brand_colors project_id slide_title slide_description g)
    as (prompt & Hp & H2 & H1).
  exists prompt. split; [exact Hp|]. split; [|split; assumption].
  split.
  - intros (title & context & Hl2).
    destruct (truthy slide_title && truthy slide_description) eqn:Et;
      [reflexivity|].
    destruct (H1 eq_refl) as (palette & o1 & o2 & o3 & creative & _ & Hl1).
    cbv zeta in Hl1. destruct Hl1 as (_ & _ & _ & _ & _ & _ & _ & Hl1).
    congruence.
  - intros Ht. destruct (H2 Ht) as (title & description & context & _ & _ & _ & Hl2).
    now exists title, context.
Qed.

(** Slide 2 of 5 on "Investing basics", without slide text, with the
    sample generator: the Layer-1 instruction. *)
Lemma image_prompt_layer2_iff_title_and_description_true_witness :
  exists prompt,
    fst (generate_enhanced_image_prompt unit tt (fun rgb _ => Ok rgb)
           (fun _ => 0%Z) SampleRandom.rng SampleRandom.seeded
           SampleRandom.randbelow "Investing basics" 2 5 (Some "modern")
           None None None None 0%Z) = Ok prompt /\
    exists selected creative,
      prompt_objects_instruction prompt
      = Layer1 "finance" selected creative "Investing basics".
Proof.
  destruct (image_prompt_layer2_iff_title_and_description_true
              unit tt (fun rgb _ => Ok rgb) (fun _ => 0%Z)
              SampleRandom.rng SampleRandom.seeded SampleRandom.randbelow
              sample_randbelow_lt "Investing basics" 2%Z 5%Z (Some "modern")
              None None None None 0%Z)
    as (prompt & Hp & _ & _ & H1).
  exists prompt. split; [exact Hp|].
  destruct (H1 eq_refl) as (palette & o1 & o2 & o3 & creative & _ & Hl1).
  cbv zeta in Hl1. destruct Hl1 as (_ & _ & _ & _ & _ & _ & _ & Hl1).
  exists (Py.join ", " [o1; o2; o3]), creative. exact Hl1.
Defined.

(** C9 as stated fails: a title that is supplied but empty, with a
    description, gets the Layer-1 instruction, not the per-slide
    analysis. *)
Lemma image_prompt_layer2_iff_supplied_counterexample :
  (exists prompt,
      fst (generate_enhanced_image_prompt unit tt (fun rgb _ => Ok rgb)
             (fun _ => 0%Z) SampleRandom.rng SampleRandom.seeded
             SampleRandom.randbelow "Investing basics" 2 5 (Some "modern")
             None None (Some "") (Some "Learn the basics of the stock market")
             0%Z) = Ok prompt /\
      prompt_objects_instruction prompt
      = Layer1 "finance" "coins, money graphics, financial charts"
          "growth arrows" "Investing basics") /\
  ~ (forall (float : Type) (default_boost : float)
            (pastel_channels : Z * Z * Z -> float -> result (Z * Z * Z))
            (md5_hex8 : string -> Z)
            (rng : Type) (seeded : Z -> rng)
            (randbelow : rng -> nat -> nat * rng),
        (forall g n, (0 < n)%nat -> (fst (randbelow g n) < n)%nat) ->
        forall (topic : string) (slide_number total_slides : Z)
               (style : option string) (brand_colors : option (list string))
               (project_id : option Z)
               (slide_title slide_description : option string) (g : rng)
               (prompt : ImagePrompt),
          fst (generate_enhanced_image_prompt float default_boost
                 pastel_channels md5_hex8 rng seeded randbelow topic
                 slide_number total_slides style brand_colors project_id
                 slide_title slide_description g) = Ok prompt ->
          ((exists title context,
               prompt_objects_instruction prompt = Layer2 title context) <->
           (exists title description,
               slide_title = Some title /\
               slide_description = Some description))).
Proof.
  assert (Heval :
            fst (generate_enhanced_image_prompt unit tt (fun rgb _ => Ok rgb)
                   (fun _ => 0%Z) SampleRandom.rng SampleRandom.seeded
                   SampleRandom.randbelow "Investing basics" 2 5
                   (Some "modern") None None (Some "")
                   (Some "Learn the basics of the stock market") 0%Z)
            = Ok {| prompt_template_key := "light_gray_minimal";
                    prompt_flow_desc :=
                      get_slide_flow_description 2 5
                        "A clean horizontal accent line";
                    prompt_bg_color := "#D4FFED";
                    prompt_bg_alt := "#A7F3D0";
                    prompt_accent_color := "#10B981";
                    prompt_objects_instruction :=
                      Layer1 "finance"
                        "coins, money graphics, financial charts"
                        "growth arrows" "Investing basics" |})
    by (vm_compute; reflexivity).
  split.
  - eexists. split; [exact Heval|reflexivity].
  - intros H.
    destruct (proj2 (H unit tt (fun rgb _ => Ok rgb) (fun _ => 0%Z)
                       SampleRandom.rng SampleRandom.seeded
                       SampleRandom.randbelow sample_randbelow_lt
                       "Investing basics" 2%Z 5%Z (Some "modern") None None
                       (Some "") (Some "Learn the basics of the stock market")
                       0%Z _ Heval))
      as (title & context & Hl2).
    + exists "", "Learn the basics of the stock market". auto.
    + discriminate Hl2.
Qed.

(** * Further properties of the prompt generator *)

(** ** Slide purpose *)

(** X1.  For every title and description, of ASCII or not, and with
    [str_lower] for [str.lower]: [analyze_slide_purpose] always returns
    one of the nine purposes of [KEYWORD_TO_PURPOSE]: ['concept'] when
    no purpose keyword occurs in the lower-cased title and description,
    and otherwise the first purpose of the table with the greatest
    number of keywords occurring, every earlier purpose scoring
    strictly less and every later one no more. *)
Theorem analyze_slide_purpose_first_highest_score :
  forall (str_lower : string -> string) (title description : string),
    let text := str_lower (title ++ " " ++ description) in
    In (Unicode.analyze_slide_purpose str_lower title description)
       (map fst KEYWORD_TO_PURPOSE) /\
    ((forall purpose words,
         In (purpose, words) KEYWORD_TO_PURPOSE ->
         Py.count_in words text = 0%nat) ->
     Unicode.analyze_slide_purpose str_lower title description = "concept") /\
    ((exists purpose words,
         In (purpose, words) KEYWORD_TO_PURPOSE /\
         (0 < Py.count_in words text)%nat) ->
     exists before purpose words after,
       KEYWORD_TO_PURPOSE = (before ++ (purpose, words) :: after)%list /\
       Unicode.analyze_slide_purpose str_lower title description = purpose /\
       (0 < Py.count_in words text)%nat /\
       Forall (fun entry =>
                 (Py.count_in (snd entry) text < Py.count_in words text)%nat)
              before /\
       Forall (fun entry =>
                 (Py.count_in (snd entry) text <= Py.count_in words text)%nat)
              after).
Proof.
  intros str_lower title description text.
  unfold Unicode.analyze_slide_purpose, Py.max_key. fold text.
  destruct (keyword_scores KEYWORD_TO_PURPOSE text) as [|kv rest] eqn:E.
  - split; [simpl; tauto|]. split; [reflexivity|].
    intros (purpose & words & Hin & Hpos). exfalso.
    pose proof (proj1 (keyword_scores_nil _ _) E _ _ Hin). lia.
  - destruct (best_key_first_max _ _ _ _ E)
      as (tpre & key & ws & tpost & Ht & Hk & Hp & Hb & Ha).
    split; [|split].
    + rewrite Hk, Ht, map_app. apply in_or_app. right. now left.
    + intros Hnone. exfalso.
      assert (Hin : In (key, ws) KEYWORD_TO_PURPOSE)
        by (rewrite Ht; apply in_or_app; right; now left).
      pose proof (Hnone _ _ Hin). lia.
    + intros _. exists tpre, key, ws, tpost. auto.
Qed.

Lemma analyze_slide_purpose_first_highest_score_witness :
  Unicode.analyze_slide_purpose Py.lower "Hello there" "" = "concept" /\
  exists before purpose words after,
    KEYWORD_TO_PURPOSE = (before ++ (purpose, words) :: after)%list /\
    Unicode.analyze_slide_purpose Py.lower "5 steps to compare plans" ""
    = purpose.
Proof.
  split.
  - apply (proj1 (proj2 (analyze_slide_purpose_first_highest_score
                           Py.lower "Hello there" ""))).
    intros purpose words Hin. simpl in Hin.
    repeat (destruct Hin as [Hin|Hin];
            [inversion Hin; subst; vm_compute; reflexivity|]).
    destruct Hin.
  - destruct (proj2 (proj2 (analyze_slide_purpose_first_highest_score
                              Py.lower "5 steps to compare plans" "")))
      as (before & purpose & words & after & H1 & H2 & _).
    + exists "process",
        ["step"; "steps"; "process"; "workflow"; "how to"; "guide"; "method";
         "procedure"; "framework"; "system"; "approach"; "sequence"; "phase";
         "stage"; "pipeline"].
      split; [simpl; tauto|vm_compute; lia].
    + exists before, purpose, words, after. auto.
Defined.

Lemma purpose_tables_same_keys :
  map fst VISUAL_OBJECTS_BY_PURPOSE = map fst KEYWORD_TO_PURPOSE /\
  map fst SLIDE_PURPOSE_TYPES = map fst KEYWORD_TO_PURPOSE.
Proof. split; reflexivity. Qed.

Lemma lookup_not_In {A : Type} (k : string) (d : list (string * A)) :
  ~ In k (map fst d) -> lookup k d = None.
Proof.
  intros H. destruct (lookup k d) as [v|] eqn:E; [|reflexivity].
  exfalso. apply H. apply lookup_In in E.
  change k with (fst (k, v)). now apply in_map.
Qed.

(** X2.  [get_purpose_specific_visuals] never raises.  For one of the nine
    purposes it returns the name, the approach, the objects, the icons
    and the style that the two purpose tables hold for it; for any
    other purpose it returns those of ['concept'].  The keywords are
    passed through. *)
Theorem get_purpose_specific_visuals_fallback :
  forall (purpose : string) (keywords : list string) (global_category : string)
         (slide_number total_slides : Z),
  exists context,
    get_purpose_specific_visuals purpose keywords global_category
      slide_number total_slides = Ok context /\
    ctx_keywords context = keywords /\
    (In purpose (map fst KEYWORD_TO_PURPOSE) ->
     exists visuals info,
       lookup purpose VISUAL_OBJECTS_BY_PURPOSE = Some visuals /\
       lookup purpose SLIDE_PURPOSE_TYPES = Some info /\
       ctx_purpose_name context = purpose_type_name info /\
       ctx_visual_approach context = purpose_type_visual_approach info /\
       ctx_objects context = visuals_objects visuals /\
       ctx_icons context = visuals_icons visuals /\
       ctx_style context = visuals_style visuals) /\
    (~ In purpose (map fst KEYWORD_TO_PURPOSE) ->
     ctx_purpose_name context = "Concept/Definition" /\
     ctx_visual_approach context
     = "Metaphorical illustrations, conceptual icons" /\
     ctx_objects context
     = "lightbulb illustration, brain graphic, abstract shapes, conceptual diagram, thought bubble" /\
     ctx_icons context
     = "idea bulb, brain icon, puzzle pieces, concept cloud, abstract symbols" /\
     ctx_style context
     = "metaphorical illustration, abstract representation, conceptual visual").
Proof.
  intros purpose keywords global_category slide_number total_slides.
  unfold get_purpose_specific_visuals.
  assert (Hv : exists v, getitem VISUAL_OBJECTS_BY_PURPOSE "concept" = Ok v /\
                         lookup "concept" VISUAL_OBJECTS_BY_PURPOSE = Some v)
    by (eexists; split; reflexivity).
  assert (Hi : exists v, getitem SLIDE_PURPOSE_TYPES "concept" = Ok v /\
                         lookup "concept" SLIDE_PURPOSE_TYPES = Some v)
    by (eexists; split; reflexivity).
  destruct Hv as (cv & -> & Hcv). destruct Hi as (ci & -> & Hci).
  cbn [bind]. eexists. split; [reflexivity|]. split; [reflexivity|].
  cbn [ctx_purpose_name ctx_visual_approach ctx_objects ctx_icons ctx_style].
  unfold get_or. split.
  - intros Hin.
    destruct (In_lookup purpose VISUAL_OBJECTS_BY_PURPOSE) as [v Hlv];
      [now rewrite (proj1 purpose_tables_same_keys)|].
    destruct (In_lookup purpose SLIDE_PURPOSE_TYPES) as [i Hli];
      [now rewrite (proj2 purpose_tables_same_keys)|].
    exists v, i. rewrite Hlv, Hli. repeat split.
  - intros Hnot.
    rewrite (lookup_not_In purpose VISUAL_OBJECTS_BY_PURPOSE)
      by now rewrite (proj1 purpose_tables_same_keys).
    rewrite (lookup_not_In purpose SLIDE_PURPOSE_TYPES)
      by now rewrite (proj2 purpose_tables_same_keys).
    inversion Hcv; subst cv. inversion Hci; subst ci. repeat split.
Qed.

Lemma get_purpose_specific_visuals_fallback_witness :
  exists context,
    get_purpose_specific_visuals "story" ["once"] "default" 2 5 = Ok context /\
    ctx_purpose_name context = "Concept/Definition".
Proof.
  destruct (get_purpose_specific_visuals_fallback "story" ["once"] "default"
              2%Z 5%Z) as (context & Hc & _ & _ & Hfb).
  exists context. split; [exact Hc|].
  apply Hfb. simpl. intros H.
  repeat (destruct H as [H|H]; [discriminate|]). exact H.
Defined.

Lemma get_purpose_specific_visuals_known
      (purpose : string) (keywords : list string) (global_category : string)
      (slide_number total_slides : Z) :
  In purpose (map fst KEYWORD_TO_PURPOSE) ->
  exists visuals info,
    lookup purpose VISUAL_OBJECTS_BY_PURPOSE = Some visuals /\
    lookup purpose SLIDE_PURPOSE_TYPES = Some info /\
    get_purpose_specific_visuals purpose keywords global_category
      slide_number total_slides
    = Ok {| ctx_purpose_name := purpose_type_name info;
            ctx_visual_approach := purpose_type_visual_approach info;
            ctx_objects := visuals_objects visuals;
            ctx_icons := visuals_icons visuals;
            ctx_style := visuals_style visuals;
            ctx_keywords := keywords;
            ctx_slide_number := slide_number;
            ctx_total_slides := total_slides;
            ctx_detected_purpose := purpose;
            ctx_global_category := global_category |}.
Proof.
  intros Hin.
  destruct (In_lookup purpose VISUAL_OBJECTS_BY_PURPOSE) as [v Hlv];
    [now rewrite (proj1 purpose_tables_same_keys)|].
  destruct (In_lookup purpose SLIDE_PURPOSE_TYPES) as [i Hli];
    [now rewrite (proj2 purpose_tables_same_keys)|].
  exists v, i. split; [exact Hlv|]. split; [exact Hli|].
  unfold get_purpose_specific_visuals.
  assert (Hv : exists c, getitem VISUAL_OBJECTS_BY_PURPOSE "concept" = Ok c)
    by (eexists; reflexivity).
  assert (Hi : exists c, getitem SLIDE_PURPOSE_TYPES "concept" = Ok c)
    by (eexists; reflexivity).
  destruct Hv as [cv ->]. destruct Hi as [ci ->]. cbn [bind].
  unfold get_or. now rewrite Hlv, Hli.
Qed.

Lemma position_override_known (purpose : string) (slide_number total_slides : Z) :
  In purpose (map fst KEYWORD_TO_PURPOSE) ->
  In (position_override purpose slide_number total_slides)
     (map fst KEYWORD_TO_PURPOSE).
Proof.
  intros Hin. unfold position_override.
  destruct (slide_number =? 1)%Z.
  - destruct (Py.mem purpose ["data"; "timeline"]); [exact Hin|simpl; tauto].
  - destruct (slide_number =? total_slides)%Z; [simpl; tauto|exact Hin].
Qed.

(** X3.  [get_slide_visual_context] never raises, and the purpose it settles
    on after the position rule is always one of the nine purposes: the
    name, approach, objects, icons and style of the context are the
    entries of the two purpose tables for that purpose, never the
    ['concept'] fallback taken for a missing key.  The context carries at
    most 5 keywords, those of [extract_slide_keywords], and the category
    of the global topic. *)
Theorem get_slide_visual_context_uses_detected_purpose :
  forall (title description : string) (slide_number total_slides : Z)
         (global_topic : string),
  exists context visuals info,
    get_slide_visual_context title description slide_number total_slides
      global_topic = Ok context /\
    In (ctx_detected_purpose context) (map fst KEYWORD_TO_PURPOSE) /\
    lookup (ctx_detected_purpose context) VISUAL_OBJECTS_BY_PURPOSE
    = Some visuals /\
    lookup (ctx_detected_purpose context) SLIDE_PURPOSE_TYPES = Some info /\
    ctx_purpose_name context = purpose_type_name info /\
    ctx_visual_approach context = purpose_type_visual_approach info /\
    ctx_objects context = visuals_objects visuals /\
    ctx_icons context = visuals_icons visuals /\
    ctx_style context = visuals_style visuals /\
    ctx_keywords context = extract_slide_keywords title description 5 /\
    (List.length (ctx_keywords context) <= 5)%nat /\
    ctx_global_category context = get_topic_category global_topic /\
    ctx_slide_number context = slide_number /\
    ctx_total_slides context = total_slides.
Proof.
  intros title description slide_number total_slides global_topic.
  unfold get_slide_visual_context.
  set (purpose := position_override
                    (analyze_slide_purpose title description)
                    slide_number total_slides).
  assert (Hin : In purpose (map fst KEYWORD_TO_PURPOSE)).
  { apply position_override_known.
    unfold analyze_slide_purpose, Py.max_key.
    destruct (keyword_scores KEYWORD_TO_PURPOSE
                (Py.lower (title ++ " " ++ description)))
      as [|kv rest] eqn:E; [simpl; tauto|].
    destruct (best_key_first_max _ _ _ _ E)
      as (tpre & key & ws & tpost & Ht & Hk & _).
    rewrite Hk, Ht, map_app. apply in_or_app. right. now left. }
  destruct (get_purpose_specific_visuals_known purpose
              (extract_slide_keywords title description 5)
              (get_topic_category global_topic) slide_number total_slides Hin)
    as (visuals & info & Hv & Hi & ->).
  eexists. exists visuals, info. split; [reflexivity|].
  cbn [ctx_detected_purpose ctx_purpose_name ctx_visual_approach ctx_objects
       ctx_icons ctx_style ctx_keywords ctx_global_category ctx_slide_number
       ctx_total_slides].
  repeat (split; [first [assumption | reflexivity]|]).
  split; [|repeat split].
  rewrite extract_slide_keywords_first_seen by lia.
  unfold keywords_first_seen. apply firstn_le_length.
Qed.

(** ** Topic category and palettes *)

Lemma get_topic_category_in_table (topic : string) :
  In (get_topic_category topic) ("default" :: map fst TOPIC_KEYWORDS).
Proof.
  unfold get_topic_category, Py.max_key.
  destruct (keyword_scores TOPIC_KEYWORDS (Py.lower topic))
    as [|kv rest] eqn:E; [now left|].
  destruct (best_key_first_max _ _ _ _ E)
    as (tpre & key & ws & tpost & Ht & Hk & _).
  right. rewrite Hk, Ht, map_app. apply in_or_app. right. now left.
Qed.

Lemma topic_palette_found (topic : string) :
  exists palette,
    lookup (get_topic_category topic) TOPIC_COLOR_PALETTES = Some palette /\
    topic_palette topic = Ok palette.
Proof.
  destruct (In_lookup (get_topic_category topic) TOPIC_COLOR_PALETTES)
    as [palette Hl].
  { pose proof (get_topic_category_in_table topic) as H.
    revert H. generalize (get_topic_category topic). intros c H.
    simpl in H. simpl.
    repeat (destruct H as [H|H]; [subst c; tauto|]). destruct H. }
  exists palette. split; [exact Hl|].
  unfold topic_palette.
  assert (Hd : exists d, getitem TOPIC_COLOR_PALETTES "default" = Ok d)
    by (eexists; reflexivity).
  destruct Hd as [d ->]. cbn [bind]. unfold get_or. now rewrite Hl.
Qed.

(** X4.  Every category that [get_topic_category] can return is one of
    [get_all_topic_categories()]: the palette table has an entry for it,
    so the [.get(category, default)] of the palette functions always
    finds the key of the category itself. *)
Theorem get_topic_category_has_palette :
  forall topic : string,
    In (get_topic_category topic) get_all_topic_categories /\
    exists palette,
      lookup (get_topic_category topic) TOPIC_COLOR_PALETTES = Some palette /\
      topic_palette topic = Ok palette /\
      category_palette (get_topic_category topic) = Some palette.
Proof.
  intros topic.
  destruct (topic_palette_found topic) as (palette & Hl & Hp).
  split.
  - unfold get_all_topic_categories. apply lookup_In in Hl.
    change (get_topic_category topic)
      with (fst (get_topic_category topic, palette)).
    now apply in_map.
  - exists palette. split; [exact Hl|]. split; [exact Hp|].
    unfold category_palette. now rewrite Hl.
Qed.

(** The seven colours of every palette of the table are [#RRGGBB]. *)
Lemma palette_colours_valid :
  forallb (fun entry =>
             let p := snd entry in
             hash_rrggbb (Palette.background p)
             && hash_rrggbb (Palette.background_alt p)
             && hash_rrggbb (Palette.accent_bg p)
             && hash_rrggbb (Palette.font_color p)
             && hash_rrggbb (Palette.accent p)
             && hash_rrggbb (Palette.highlight p)
             && hash_rrggbb (Palette.light p))
          TOPIC_COLOR_PALETTES = true.
Proof. vm_compute. reflexivity. Qed.

Lemma hash_rrggbb_converts (s : string) :
  hash_rrggbb s = true ->
  exists rgb, hex_to_rgb s = Ok rgb /\ channels_in_range rgb.
Proof.
  intros H. apply hex_to_rgb_six_hex_digits.
  destruct s as [|c r]; [discriminate|].
  destruct c as [[] [] [] [] [] [] [] []]; try discriminate.
  cbn [hash_rrggbb] in H. rewrite lstrip_hash_hash.
  destruct (six_hex_digits_inv _ H)
    as (c1 & c2 & c3 & c4 & c5 & c6 & v1 & v2 & v3 & v4 & v5 & v6
        & Hs & H1 & _).
  rewrite Hs, lstrip_hash_first; [now rewrite <- Hs|].
  intros ->. discriminate H1.
Qed.

(** X5.  The three colour accessors never raise, and for every topic the
    background, font and accent colours they return are of the form
    [#RRGGBB]: [hex_to_rgb] converts each of them to channels in
    [0, 255]. *)
Theorem topic_colours_are_hex :
  forall topic : string,
  exists background font accent,
    get_topic_background_color topic = Ok background /\
    get_topic_font_color topic = Ok font /\
    get_topic_accent_color topic = Ok accent /\
    hash_rrggbb background = true /\
    hash_rrggbb font = true /\
    hash_rrggbb accent = true /\
    (exists rgb, hex_to_rgb background = Ok rgb /\ channels_in_range rgb) /\
    (exists rgb, hex_to_rgb font = Ok rgb /\ channels_in_range rgb) /\
    (exists rgb, hex_to_rgb accent = Ok rgb /\ channels_in_range rgb).
Proof.
  intros topic.
  destruct (topic_palette_found topic) as (palette & Hl & Hp).
  pose proof (proj1 (forallb_forall _ _) palette_colours_valid
                    (get_topic_category topic, palette) (lookup_In _ _ _ Hl))
    as Hvalid.
  cbv beta zeta in Hvalid. cbn [snd] in Hvalid.
  repeat (apply andb_prop in Hvalid; destruct Hvalid as [Hvalid ?]).
  exists (Palette.background palette), (Palette.font_color palette),
    (Palette.accent palette).
  unfold get_topic_background_color, get_topic_font_color,
    get_topic_accent_color. rewrite Hp. cbn [bind].
  repeat (split; [first [reflexivity | assumption]|]).
  repeat split; now apply hash_rrggbb_converts.
Qed.

(** X6.  [get_topic_color_palette] never raises.  Without brand colours
    ([None] or an empty list) it returns the palette of the category of
    the topic as it stands in the table.  With brand colours the accent
    is the first brand colour, [pastel] is its pastel variant (the
    fallback ['#FFE4EC'] when the brand colour is not a hex colour),
    [secondary] is the second brand colour when there is one, and the
    other eight entries are those of the table: a brand colour never
    changes the backgrounds, the font colour, the objects or the creative
    elements. *)
Theorem get_topic_color_palette_brand_colours :
  forall (float : Type) (default_boost : float)
         (pastel_channels : Z * Z * Z -> float -> result (Z * Z * Z))
         (topic : string),
  exists base,
    lookup (get_topic_category topic) TOPIC_COLOR_PALETTES = Some base /\
    get_topic_color_palette float default_boost pastel_channels topic None
    = Ok base /\
    get_topic_color_palette float default_boost pastel_channels topic (Some [])
    = Ok base /\
    forall (first : string) (others : list string),
    exists palette pastel,
      get_topic_color_palette float default_boost pastel_channels topic
        (Some (first :: others)) = Ok palette /\
      Palette.accent palette = first /\
      generate_pastel_variant float pastel_channels first default_boost
      = Ok pastel /\
      Palette.pastel palette = Some pastel /\
      ((exists e, hex_to_rgb first = Raise e) -> pastel = "#FFE4EC") /\
      Palette.secondary palette = hd_error others /\
      Palette.background palette = Palette.background base /\
      Palette.background_alt palette = Palette.background_alt base /\
      Palette.accent_bg palette = Palette.accent_bg base /\
      Palette.font_color palette = Palette.font_color base /\
      Palette.highlight palette = Palette.highlight base /\
      Palette.light palette = Palette.light base /\
      Palette.objects palette = Palette.objects base /\
      Palette.creative_elements palette = Palette.creative_elements base.
Proof.
  intros float default_boost pastel_channels topic.
  destruct (topic_palette_found topic) as (base & Hl & _).
  exists base. split; [exact Hl|].
  assert (Hd : exists d, getitem TOPIC_COLOR_PALETTES "default" = Ok d)
    by (eexists; reflexivity).
  destruct Hd as [d Hd].
  unfold get_topic_color_palette. rewrite Hd. cbn [bind].
  unfold get_or. rewrite Hl.
  split; [reflexivity|]. split; [reflexivity|].
  intros first others.
  destruct (generate_pastel_variant_ok float pastel_channels first
              default_boost) as [pastel Hp].
  rewrite Hp. cbn [bind]. eexists. exists pastel.
  split; [reflexivity|]. cbn.
  split; [reflexivity|]. split; [reflexivity|]. split; [reflexivity|].
  split.
  - intros [e He]. unfold generate_pastel_variant in Hp.
    rewrite He in Hp. cbn in Hp. congruence.
  - split; [now destruct others|]. repeat split.
Qed.

Lemma get_topic_color_palette_brand_colours_witness :
  exists palette,
    get_topic_color_palette unit tt (fun rgb _ => Ok rgb) "Yoga at home"
      (Some ["not-a-colour"; "#112233"]) = Ok palette /\
    Palette.accent palette = "not-a-colour" /\
    Palette.pastel palette = Some "#FFE4EC" /\
    Palette.secondary palette = Some "#112233".
Proof.
  destruct (get_topic_color_palette_brand_colours unit tt
              (fun rgb _ => Ok rgb) "Yoga at home")
    as (base & _ & _ & _ & H).
  destruct (H "not-a-colour" ["#112233"])
    as (palette & pastel & Hp & Ha & _ & Hpastel & Hfb & Hs & _).
  exists palette. split; [exact Hp|]. split; [exact Ha|].
  split; [|exact Hs].
  rewrite Hpastel. f_equal. apply Hfb. exists ValueError. reflexivity.
Defined.

(** ** Template selection and the shared generator *)

Section SelectStateFacts.

Variable rng : Type.
Variable seeded : Z -> rng.
Variable randbelow : rng -> nat -> nat * rng.

(** Whatever the seed, the template is drawn from the candidate set, by
    the generator in the state that [random.seed] leaves. *)
Lemma select_design_template_choice (seed : option Z)
      (style_hint : option string) (g : rng) :
  select_design_template rng seeded randbelow seed style_hint g
  = random_choice rng randbelow (candidate_set style_hint)
      (random_seed rng seeded seed g).
Proof.
  unfold select_design_template, candidate_set, truthy.
  destruct style_hint as [[|c r]|]; try reflexivity.
  destruct (lookup (Py.lower (String c r)) style_preferences) as [p|];
    [|reflexivity].
  destruct (filter (fun t => Py.mem t (map fst DESIGN_TEMPLATES)) p);
    reflexivity.
Qed.

Lemma random_choice_state (seq : list string) (g : rng) :
  seq <> [] ->
  snd (random_choice rng randbelow seq g)
  = snd (randbelow g (List.length seq)).
Proof.
  intros Hne. unfold random_choice. destruct seq as [|a l]; [congruence|].
  destruct (randbelow g (List.length (a :: l))) as [i g'].
  now destruct (nth_error (a :: l) i).
Qed.

End SelectStateFacts.

(** X7.  For a generator whose draws stay below the bound, with or without a
    seed and for every style hint, [select_design_template] returns a
    key of the candidate set of the hint, which is a key of
    [DESIGN_TEMPLATES]: the lookup [DESIGN_TEMPLATES[template_key]] of the
    caller never raises [KeyError], and [get_all_design_templates()]
    lists the key with the name of that template. *)
Theorem select_design_template_key_exists :
  forall (rng : Type) (seeded : Z -> rng)
         (randbelow : rng -> nat -> nat * rng),
    (forall g n, (0 < n)%nat -> (fst (randbelow g n) < n)%nat) ->
    forall (seed : option Z) (style_hint : option string) (g : rng),
    exists key template,
      fst (select_design_template rng seeded randbelow seed style_hint g)
      = Ok key /\
      In key (candidate_set style_hint) /\
      getitem DESIGN_TEMPLATES key = Ok template /\
      lookup key get_all_design_templates = Some (name template).
Proof.
  intros rng seeded randbelow Hlt seed style_hint g.
  rewrite select_design_template_choice.
  destruct (random_choice_member rng randbelow Hlt
              (candidate_set style_hint) (random_seed rng seeded seed g)
              (candidate_set_not_empty style_hint)) as (key & Hk & Hin).
  pose proof (candidate_set_keys _ _ Hin) as Hkeys.
  destruct (In_lookup key DESIGN_TEMPLATES Hkeys) as [template Ht].
  exists key, template. split; [exact Hk|]. split; [exact Hin|].
  split; [unfold getitem; now rewrite Ht|].
  unfold get_all_design_templates. clear - Ht.
  induction DESIGN_TEMPLATES as [|[k v] r IH]; simpl in *; [discriminate|].
  destruct (String.eqb key k); [congruence|auto].
Qed.

Lemma select_design_template_key_exists_witness :
  exists key template,
    fst (select_design_template SampleRandom.rng SampleRandom.seeded
           SampleRandom.randbelow None (Some "unknown style") 12345%Z)
    = Ok key /\
    getitem DESIGN_TEMPLATES key = Ok template.
Proof.
  destruct (select_design_template_key_exists
              SampleRandom.rng SampleRandom.seeded SampleRandom.randbelow
              sample_randbelow_lt None (Some "unknown style") 12345%Z)
    as (key & template & Hk & _ & Ht & _).
  now exists key, template.
Defined.

(** X8.  The effect of [select_design_template] on the generator shared by the
    process.  With a seed the state found is discarded: the state left
    is the one after a single draw from the generator seeded afresh, the
    same whatever happened before the call.  Without a seed the state
    left is the one after a single draw from the state found. *)
Theorem select_design_template_reseeds_shared_generator :
  forall (rng : Type) (seeded : Z -> rng)
         (randbelow : rng -> nat -> nat * rng)
         (style_hint : option string),
    (forall (seed : Z) (g : rng),
        snd (select_design_template rng seeded randbelow (Some seed)
               style_hint g)
        = snd (randbelow (seeded seed)
                 (List.length (candidate_set style_hint)))) /\
    (forall (seed : Z) (g1 g2 : rng),
        snd (select_design_template rng seeded randbelow (Some seed)
               style_hint g1)
        = snd (select_design_template rng seeded randbelow (Some seed)
                 style_hint g2)) /\
    (forall g : rng,
        snd (select_design_template rng seeded randbelow None style_hint g)
        = snd (randbelow g (List.length (candidate_set style_hint)))).
Proof.
  intros rng seeded randbelow style_hint.
  assert (H : forall seed g,
             snd (select_design_template rng seeded randbelow seed
                    style_hint g)
             = snd (randbelow (random_seed rng seeded seed g)
                      (List.length (candidate_set style_hint)))).
  { intros seed g. rewrite select_design_template_choice.
    apply random_choice_state, candidate_set_not_empty. }
  split; [intros seed g; apply H|]. split.
  - intros seed g1 g2. now rewrite !H.
  - intros g. apply H.
Qed.

(** ** Colour conversion the other way round *)

(** Two hexadecimal digits, read by [int(., 16)] and written back by
    [format(., '02x')], come back in lower case. *)
Lemma format_02x_two_digits (c d : ascii) (v w : Z) :
  PyInt.digit16 c = Some v -> PyInt.digit16 d = Some w ->
  format_02x (16 * v + w)
  = String (Py.lower_char c) (String (Py.lower_char d) EmptyString).
Proof.
  intros Hc Hd.
  assert (H : forallb (fun c => forallb (fun d =>
             match PyInt.digit16 c, PyInt.digit16 d with
             | Some v, Some w =>
                 String.eqb (format_02x (16 * v + w))
                   (String (Py.lower_char c)
                      (String (Py.lower_char d) EmptyString))
             | _, _ => true
             end) all_ascii) all_ascii = true) by (vm_compute; reflexivity).
  pose proof (forall_ascii _ (forall_ascii _ H c) d) as E. cbv beta in E.
  rewrite Hc, Hd in E. now apply String.eqb_eq in E.
Qed.

(** X9.  For every colour of the form [#RRGGBB], in either case,
    [rgb_to_hex(hex_to_rgb(colour))] is the colour in lower case. *)
Theorem rgb_to_hex_of_hex_to_rgb_lowers :
  forall colour : string,
    hash_rrggbb colour = true ->
    exists rgb,
      hex_to_rgb colour = Ok rgb /\
      rgb_to_hex rgb = Py.lower colour.
Proof.
  intros colour H.
  destruct colour as [|h r]; [discriminate|].
  destruct h as [[] [] [] [] [] [] [] []]; try discriminate.
  cbn [hash_rrggbb] in H.
  destruct (six_hex_digits_inv _ H)
    as (c1 & c2 & c3 & c4 & c5 & c6 & v1 & v2 & v3 & v4 & v5 & v6
        & -> & H1 & H2 & H3 & H4 & H5 & H6).
  unfold hex_to_rgb. rewrite lstrip_hash_hash, lstrip_hash_first
    by (intros ->; discriminate H1).
  cbn [slice drop take Nat.sub].
  destruct (int16_two_digits _ _ _ _ H1 H2) as [-> _].
  destruct (int16_two_digits _ _ _ _ H3 H4) as [-> _].
  destruct (int16_two_digits _ _ _ _ H5 H6) as [-> _].
  cbn [bind]. eexists. split; [reflexivity|].
  unfold rgb_to_hex.
  rewrite (format_02x_two_digits _ _ _ _ H1 H2),
    (format_02x_two_digits _ _ _ _ H3 H4),
    (format_02x_two_digits _ _ _ _ H5 H6).
  reflexivity.
Qed.

Lemma rgb_to_hex_of_hex_to_rgb_lowers_witness :
  exists rgb,
    hex_to_rgb "#7C3AED" = Ok rgb /\ rgb_to_hex rgb = "#7c3aed".
Proof.
  exact (rgb_to_hex_of_hex_to_rgb_lowers "#7C3AED" eq_refl).
Defined.

(** ** Flow description by position *)

Lemma contains_here (needle rest : string) :
  Py.contains needle (needle ++ rest) = true.
Proof.
  pose proof (contains_startswith needle rest) as H.
  destruct (needle ++ rest); simpl; now rewrite H.
Qed.

(** X10.  The three flow descriptions are told apart by their first line, and
    the position decides which one is returned: the opening one exactly
    for slide 1, the closing one exactly for a last slide that is not
    slide 1, the middle one exactly for every other slide.  Each of
    them names the flow element. *)
Theorem get_slide_flow_description_by_position :
  forall (slide_number total_slides : Z) (flow : string),
    let text := get_slide_flow_description slide_number total_slides flow in
    (Py.startswith (String "010" "VISUAL FLOW POSITION: OPENING SLIDE") text
     = true <-> slide_number = 1%Z) /\
    (Py.startswith (String "010" "VISUAL FLOW POSITION: CLOSING SLIDE") text
     = true <-> slide_number <> 1%Z /\ slide_number = total_slides) /\
    (Py.startswith (String "010" "VISUAL FLOW POSITION: MIDDLE SLIDE") text
     = true <-> slide_number <> 1%Z /\ slide_number <> total_slides) /\
    Py.contains flow text = true.
Proof.
  intros slide_number total_slides flow text. subst text.
  unfold get_slide_flow_description.
  pose proof (contains_here flow) as Hhere.
  destruct (slide_number =? 1)%Z eqn:E1.
  - apply Z.eqb_eq in E1.
    split; [split; [intros _; exact E1|reflexivity]|].
    split; [split; [discriminate|intros [H _]; contradiction]|].
    split; [split; [discriminate|intros [H _]; contradiction]|].
    unfold opening_flow. do 3 apply contains_append_right. apply Hhere.
  - apply Z.eqb_neq in E1.
    destruct (slide_number =? total_slides)%Z eqn:E2.
    + apply Z.eqb_eq in E2.
      split; [split; [discriminate|contradiction]|].
      split; [split; [intros _; split; assumption|reflexivity]|].
      split; [split; [discriminate|intros [_ H]; contradiction]|].
      unfold closing_flow. do 5 apply contains_append_right. apply Hhere.
    + apply Z.eqb_neq in E2.
      split; [split; [discriminate|contradiction]|].
      split; [split; [discriminate|intros [_ H]; contradiction]|].
      split; [split; [intros _; split; assumption|reflexivity]|].
      unfold middle_flow. do 5 apply contains_append_right. apply Hhere.
Qed.

Lemma get_slide_flow_description_by_position_witness :
  Py.startswith (String "010" "VISUAL FLOW POSITION: CLOSING SLIDE")
    (get_slide_flow_description 5 5 "A thin elegant dividing line") = true.
Proof.
  apply (proj1 (proj2 (get_slide_flow_description_by_position
                         5 5 "A thin elegant dividing line"))).
  split; [discriminate|reflexivity].
Defined.

(** ** Keyword extraction at the bounds *)

(** The loop from an empty list with a bound of at most 1: the bound is
    tested only after a keyword has been appended, so the first keyword
    found is returned even for a bound of 0 or less. *)
Lemma keyword_loop_small_bound (words : list string) :
  forall seen max_keywords,
    (max_keywords <= 1)%Z ->
    keyword_loop words [] seen max_keywords
    = firstn 1 (first_seen seen
                  (filter (fun w => negb (Py.mem w stop_words)) words)).
Proof.
  induction words as [|w r IH]; intros seen max_keywords Hmax;
    [reflexivity|].
  cbn [keyword_loop filter].
  destruct (Py.mem w stop_words); cbn [negb andb]; [now apply IH|].
  cbn [first_seen]. destruct (Py.mem w seen); cbn [negb]; [now apply IH|].
  cbn [app List.length firstn].
  replace (max_keywords <=? Z.of_nat 1)%Z with true
    by (symmetry; apply Z.leb_le; lia).
  reflexivity.
Qed.

(** X11.  For every title and description, of ASCII or not:
    [extract_slide_keywords] with [max_keywords] of 0 or less does not
    return an empty list when the text has a keyword.  It returns what
    it returns for [max_keywords = 1]: the first word found in the
    lower-cased text that is not a stop word, when there is one. *)
Theorem extract_slide_keywords_nonpositive_bound :
  forall (str_lower : string -> string) (unicode_word : string -> bool)
         (title description : string) (max_keywords : Z),
    (max_keywords <= 0)%Z ->
    let words :=
      Unicode.findall_words unicode_word
        (str_lower (title ++ " " ++ description)) in
    Unicode.extract_slide_keywords str_lower unicode_word
      title description max_keywords
    = Unicode.extract_slide_keywords str_lower unicode_word
        title description 1 /\
    Unicode.extract_slide_keywords str_lower unicode_word
      title description max_keywords
    = firstn 1 (filter (fun w => negb (Py.mem w stop_words)) words) /\
    (List.length
       (Unicode.extract_slide_keywords str_lower unicode_word
          title description max_keywords) <= 1)%nat.
Proof.
  intros str_lower unicode_word title description max_keywords Hmax words.
  assert (H : forall m,
             (m <= 1)%Z ->
             Unicode.extract_slide_keywords str_lower unicode_word
               title description m
             = firstn 1 (filter (fun w => negb (Py.mem w stop_words)) words)).
  { intros m Hm. unfold Unicode.extract_slide_keywords.
    rewrite keyword_loop_small_bound by exact Hm. fold words.
    destruct (filter (fun w => negb (Py.mem w stop_words)) words);
      reflexivity. }
  rewrite !H by lia. split; [reflexivity|]. split; [reflexivity|].
  apply firstn_le_length.
Qed.

Lemma extract_slide_keywords_nonpositive_bound_witness :
  Unicode.extract_slide_keywords Py.lower (fun _ => false)
    "The future of remote work" "" 0
  = ["future"].
Proof.
  rewrite (proj1 (extract_slide_keywords_nonpositive_bound
                    Py.lower (fun _ => false)
                    "The future of remote work" "" 0%Z (Z.le_refl 0))).
  reflexivity.
Defined.

(** X12.  A smaller bound gives a prefix: for [1 <= m <= n] the keywords
    returned for the bound [m] are the first [m] of the keywords
    returned for the bound [n]. *)
Theorem extract_slide_keywords_prefix :
  forall (title description : string) (m n : Z),
    (1 <= m <= n)%Z ->
    extract_slide_keywords title description m
    = firstn (Z.to_nat m) (extract_slide_keywords title description n).
Proof.
  intros title description m n Hmn.
  rewrite !extract_slide_keywords_first_seen by lia.
  unfold keywords_first_seen. rewrite firstn_firstn.
  f_equal. lia.
Qed.

Lemma extract_slide_keywords_prefix_witness :
  extract_slide_keywords "How to Start Investing Today"
    "Learn the basics of the stock market" 2
  = firstn 2 (extract_slide_keywords "How to Start Investing Today"
                "Learn the basics of the stock market" 5).
Proof.
  apply (extract_slide_keywords_prefix "How to Start Investing Today"
           "Learn the basics of the stock market" 2%Z 5%Z). lia.
Defined.

(** ** The content prompt *)

Lemma startswith_contains (needle hay : string) :
  Py.startswith needle hay = true -> Py.contains needle hay = true.
Proof. intros H. destruct hay; simpl; now rewrite H. Qed.

Lemma startswith_app_same (a needle hay : string) :
  Py.startswith needle hay = true ->
  Py.startswith (a ++ needle) (a ++ hay) = true.
Proof.
  intros H. induction a as [|c r IH]; simpl; [exact H|].
  now rewrite Ascii.eqb_refl, IH.
Qed.

Lemma contains_drop (k : nat) :
  forall (lit hay needle : string),
    Py.contains needle (drop k lit ++ hay) = true ->
    Py.contains needle (lit ++ hay) = true.
Proof.
  induction k as [|k IH]; intros [|c r] hay needle H; simpl in *;
    try exact H.
  rewrite (IH r hay needle H). apply orb_true_r.
Qed.

(** A needle that starts with the last [k] characters of a literal,
    where the text has that literal and then what the needle goes on
    with. *)
Lemma contains_literal_end (k : nat) (lit x more hay : string) :
  drop k lit = x ->
  Py.startswith more hay = true ->
  Py.contains (x ++ more) (lit ++ hay) = true.
Proof.
  intros Hd Hs. apply (contains_drop k). rewrite Hd.
  apply startswith_contains, startswith_app_same, Hs.
Qed.

Ltac pieces_match :=
  first [ apply contains_startswith
        | apply startswith_app_same; pieces_match ].

Ltac needle_here :=
  match goal with
  | |- Py.contains (?x ++ ?more) (String ?c ?r ++ ?hay) = true =>
      let k := eval vm_compute in
                 (String.length (String c r) - String.length x)%nat in
      let d := eval vm_compute in (drop k (String c r)) in
      constr_eq d x;
      apply (contains_literal_end k (String c r) x more hay);
      [ vm_compute; reflexivity | pieces_match ]
  end.

Ltac find_needle :=
  first [ needle_here
        | apply contains_append_right; find_needle ].

(** X13.  [generate_slide_content_prompt] never raises, and the colours it
    asks the text model to use are the ones the colour accessors return
    for the topic: the prompt has the lines
    [- background_color: "<background>"], [- font_color: "<font>"] and
    [- accent_color: "<accent>"] with those colours, and it ends on the
    same background and font colour. *)
Theorem generate_slide_content_prompt_embeds_topic_colours :
  forall (topic : string) (slide_count : Z) (platform style : string),
  exists prompt background font accent,
    generate_slide_content_prompt topic slide_count platform style
    = Ok prompt /\
    get_topic_background_color topic = Ok background /\
    get_topic_font_color topic = Ok font /\
    get_topic_accent_color topic = Ok accent /\
    Py.contains ("- background_color: " ++ dquote ++ background ++ dquote)
      prompt = true /\
    Py.contains ("- font_color: " ++ dquote ++ font ++ dquote) prompt = true /\
    Py.contains ("- accent_color: " ++ dquote ++ accent ++ dquote) prompt
    = true /\
    Py.contains ("CRITICAL: Use " ++ dquote ++ background ++ dquote
                 ++ " for background_color and " ++ dquote ++ font ++ dquote)
      prompt = true.
Proof.
  intros topic slide_count platform style.
  destruct (topic_palette_found topic) as (palette & Hl & Hp).
  unfold generate_slide_content_prompt, get_topic_background_color,
    get_topic_font_color, get_topic_accent_color.
  rewrite Hp. unfold topic_palette in Hp.
  destruct (getitem TOPIC_COLOR_PALETTES "default") as [d|]; [|discriminate].
  cbn [bind] in *. inversion Hp as [Hget]. rewrite Hget.
  eexists. exists (Palette.background palette), (Palette.font_color palette),
    (Palette.accent palette).
  repeat (split; [reflexivity|]).
  unfold content_prompt_text.
  split; [find_needle|]. split; [find_needle|]. split; find_needle.
Qed.

(** * Properties of the fallback content of the views *)

(** ** [validate_hex_color] *)

Lemma last_char_some (s : string) (c : ascii) :
  last_char (String c s) <> None.
Proof.
  revert c. induction s as [|d r IH]; intros c; [discriminate|].
  change (last_char (String c (String d r))) with (last_char (String d r)).
  apply IH.
Qed.

Lemma last_char_cons (c : ascii) (s : string) :
  last_char (String c s)
  = match last_char s with Some d => Some d | None => Some c end.
Proof.
  destruct s as [|d r]; [reflexivity|].
  change (last_char (String c (String d r))) with (last_char (String d r)).
  destruct (last_char (String d r)) eqn:E; [reflexivity|].
  now apply last_char_some in E.
Qed.

Lemma last_char_none (s : string) : last_char s = None -> s = EmptyString.
Proof.
  destruct s as [|c r]; [reflexivity|]. rewrite last_char_cons.
  destruct (last_char r); discriminate.
Qed.

(** What [rstrip] leaves does not end with a stripped character. *)
Lemma rstrip_by_last (p : ascii -> bool) (s : string) (c : ascii) :
  last_char (Py.rstrip_by p s) = Some c -> p c = false.
Proof.
  induction s as [|a r IH]; [discriminate|]. cbn [Py.rstrip_by].
  destruct (Py.rstrip_by p r) as [|b r'] eqn:E.
  - destruct (p a) eqn:Ea; [discriminate|].
    cbn. intros H. now inversion H; subst.
  - rewrite last_char_cons.
    destruct (last_char (String b r')) as [d|] eqn:El.
    + intros H. inversion H; subst. now apply IH.
    + apply last_char_none in El. discriminate.
Qed.

Lemma last_char_upper (s : string) :
  last_char (upper s) = option_map upper_char (last_char s).
Proof.
  induction s as [|c r IH]; [reflexivity|].
  cbn [upper]. rewrite !last_char_cons, IH.
  now destruct (last_char r).
Qed.

Lemma upper_char_line_feed (c : ascii) :
  upper_char c = "010"%char -> Py.is_space c = true.
Proof.
  intros H.
  pose proof (forall_ascii
                (fun c => implb (Ascii.eqb (upper_char c) "010")
                                (Py.is_space c))
                ltac:(vm_compute; reflexivity) c) as E.
  cbv beta in E. rewrite H in E. exact E.
Qed.

(** The text that [validate_hex_color] matches against its two patterns
    does not end with a line feed. *)
Lemma normalised_colour_last (text : string) :
  let u := upper (Py.strip text) in
  last_char (if negb (Py.startswith "#" u) then "#" ++ u else u)
  <> Some "010"%char.
Proof.
  intros u.
  assert (Hu : last_char u <> Some "010"%char).
  { unfold u. rewrite last_char_upper.
    destruct (last_char (Py.strip text)) as [c|] eqn:E; [|discriminate].
    cbn. intros H. inversion H as [Hc].
    apply upper_char_line_feed in Hc.
    unfold Py.strip, Py.strip_by in E.
    rewrite (rstrip_by_last _ _ _ E) in Hc. discriminate. }
  destruct (negb (Py.startswith "#" u)); [|exact Hu].
  cbn [append]. rewrite last_char_cons.
  destruct (last_char u); [exact Hu|discriminate].
Qed.

Lemma upper_hex_run_all (n : nat) :
  forall s rest,
    upper_hex_run n s = Some rest ->
    exists h,
      s = h ++ rest /\ String.length h = n /\ all_chars is_upper_hex h = true.
Proof.
  induction n as [|n IH]; intros s rest H; cbn [upper_hex_run] in H.
  - inversion H; subst. now exists EmptyString.
  - destruct s as [|c r]; [discriminate|].
    destruct (is_upper_hex c) eqn:E; [|discriminate].
    destruct (IH _ _ H) as (h & -> & Hl & Ha).
    exists (String c h). cbn. now rewrite E, Ha, Hl.
Qed.

Lemma last_char_app_line_feed (h : string) :
  last_char (h ++ String "010" EmptyString) = Some "010"%char.
Proof.
  induction h as [|c r IH]; [reflexivity|].
  cbn [append]. now rewrite last_char_cons, IH.
Qed.

(** A match of [^#[0-9A-F]{n}$] on a text that does not end with a line
    feed: the text is [#] and exactly [n] such characters. *)
Lemma match_hash_hex_exact (n : nat) (s : string) :
  match_hash_hex n s = true ->
  last_char s <> Some "010"%char ->
  exists h,
    s = String "#" h /\ String.length h = n /\
    all_chars is_upper_hex h = true.
Proof.
  intros Hm Hlast. unfold match_hash_hex in Hm.
  destruct s as [|c r]; [discriminate|].
  destruct c as [[] [] [] [] [] [] [] []]; try discriminate.
  destruct (upper_hex_run n r) as [rest|] eqn:E; [|discriminate].
  destruct (upper_hex_run_all _ _ _ E) as (h & -> & Hl & Ha).
  apply orb_prop in Hm. destruct Hm as [Hm|Hm]; apply String.eqb_eq in Hm;
    subst rest.
  - exists h. split; [|auto].
    f_equal. clear. induction h as [|c r IH]; [reflexivity|].
    cbn. now rewrite IH.
  - exfalso. apply Hlast. rewrite last_char_cons.
    now rewrite last_char_app_line_feed.
Qed.

Lemma is_upper_hex_digit16 (c : ascii) :
  is_upper_hex c = true -> exists v, PyInt.digit16 c = Some v.
Proof.
  intros H.
  pose proof (forall_ascii
                (fun c => implb (is_upper_hex c)
                                match PyInt.digit16 c with
                                | Some _ => true
                                | None => false
                                end)
                ltac:(vm_compute; reflexivity) c) as E.
  cbv beta in E. rewrite H in E.
  destruct (PyInt.digit16 c) as [v|]; [now exists v|discriminate].
Qed.

Lemma all_upper_hex_all_hex (h : string) :
  all_chars is_upper_hex h = true -> all_hex h = true.
Proof.
  induction h as [|c r IH]; [reflexivity|]. cbn.
  intros H. apply andb_prop in H. destruct H as [Hc Hr].
  destruct (is_upper_hex_digit16 c Hc) as [v ->]. now apply IH.
Qed.

Lemma upper_hex_colour_hash_rrggbb (s : string) :
  upper_hex_colour s = true -> hash_rrggbb s = true.
Proof.
  destruct s as [|c r]; [discriminate|].
  destruct c as [[] [] [] [] [] [] [] []]; try discriminate.
  cbn [upper_hex_colour hash_rrggbb]. unfold six_hex_digits.
  intros H. apply andb_prop in H. destruct H as [Hl Ha].
  now rewrite Hl, (all_upper_hex_all_hex _ Ha).
Qed.

Lemma validate_hex_color_upper_hex (color : option string) :
  exists valid,
    validate_hex_color color = Ok valid /\ upper_hex_colour valid = true.
Proof.
  unfold validate_hex_color.
  destruct color as [text|]; [|now exists "#FFFFFF"].
  destruct (negb (truthy (Some text))); [now exists "#FFFFFF"|].
  pose proof (normalised_colour_last text) as Hlast. cbv zeta in Hlast.
  set (s := if negb (Py.startswith "#" (upper (Py.strip text)))
            then "#" ++ upper (Py.strip text)
            else upper (Py.strip text)) in *.
  destruct (match_hash_hex 6 s) eqn:E6.
  - destruct (match_hash_hex_exact 6 s E6 Hlast) as (h & Hs & Hl & Ha).
    exists s. split; [reflexivity|]. rewrite Hs. cbn [upper_hex_colour].
    now rewrite Hl, Ha.
  - destruct (match_hash_hex 3 s) eqn:E3; [|now exists "#405DE6"].
    destruct (match_hash_hex_exact 3 s E3 Hlast) as (h & Hs & Hl & Ha).
    destruct h as [|c1 [|c2 [|c3 [|c4 r]]]]; try discriminate.
    rewrite Hs. cbn [char_at String.get bind append].
    eexists. split; [reflexivity|].
    cbn in Ha. apply andb_prop in Ha. destruct Ha as [A1 Ha].
    apply andb_prop in Ha. destruct Ha as [A2 Ha].
    apply andb_prop in Ha. destruct Ha as [A3 _].
    cbn. now rewrite A1, A2, A3.
Qed.

(** X14.  [validate_hex_color] never raises, and whatever it is given (nothing,
    an empty text, a colour with or without [#], in either case, with
    spaces around it, or any other text) it returns [#] followed by
    exactly 6 characters of [[0-9A-F]]: a colour that [hex_to_rgb]
    converts to channels in [0, 255]. *)
Theorem validate_hex_color_returns_hex_colour :
  forall color : option string,
  exists valid,
    validate_hex_color color = Ok valid /\
    upper_hex_colour valid = true /\
    hash_rrggbb valid = true /\
    exists rgb, hex_to_rgb valid = Ok rgb /\ channels_in_range rgb.
Proof.
  intros color.
  destruct (validate_hex_color_upper_hex color) as (valid & Hv & Hu).
  exists valid.
  split; [exact Hv|]. split; [exact Hu|].
  pose proof (upper_hex_colour_hash_rrggbb _ Hu) as Hh.
  split; [exact Hh|]. now apply hash_rrggbb_converts.
Qed.

(** What the functions of [validate_hex_color] do to a hexadecimal
    digit. *)
Lemma hex_digit_facts (c : ascii) (v : Z) :
  PyInt.digit16 c = Some v ->
  Py.is_space c = false /\
  is_upper_hex (upper_char c) = true /\
  Ascii.eqb "#" (upper_char c) = false /\
  PyInt.digit16 (upper_char c) = Some v.
Proof.
  intros H.
  pose proof (forall_ascii
                (fun c =>
                   match PyInt.digit16 c with
                   | Some v =>
                       negb (Py.is_space c)
                       && is_upper_hex (upper_char c)
                       && negb (Ascii.eqb "#" (upper_char c))
                       && match PyInt.digit16 (upper_char c) with
                          | Some w => (v =? w)%Z
                          | None => false
                          end
                   | None => true
                   end)
                ltac:(vm_compute; reflexivity) c) as E.
  cbv beta in E. rewrite H in E.
  repeat (apply andb_prop in E; destruct E as [E ?]).
  destruct (PyInt.digit16 (upper_char c)) as [w|]; [|discriminate].
  rewrite Z.eqb_eq in *. subst w.
  rewrite negb_true_iff in *. auto.
Qed.

Lemma rstrip_by_keeps (p : ascii -> bool) (s : string) (c : ascii) :
  last_char s = Some c -> p c = false -> Py.rstrip_by p s = s.
Proof.
  induction s as [|a r IH]; [reflexivity|].
  rewrite last_char_cons. cbn [Py.rstrip_by].
  destruct (last_char r) as [d|] eqn:E.
  - intros H Hp. inversion H; subst d. rewrite (IH eq_refl Hp).
    destruct r; [discriminate|reflexivity].
  - intros H Hp. inversion H; subst a.
    apply last_char_none in E. subst r. cbn. now rewrite Hp.
Qed.

(** A text whose first and last characters are not spaces is left as it
    is by [strip()]. *)
Lemma strip_keeps (c : ascii) (r : string) (d : ascii) :
  Py.is_space c = false ->
  last_char (String c r) = Some d -> Py.is_space d = false ->
  Py.strip (String c r) = String c r.
Proof.
  intros Hc Hl Hd. unfold Py.strip, Py.strip_by.
  cbn [Py.lstrip_by]. rewrite Hc. now apply (rstrip_by_keeps _ _ d).
Qed.

(** The colour returned for a text of 6 hexadecimal digits, with or
    without a leading [#]. *)
Lemma validate_six_digits (h : string) :
  six_hex_digits h = true ->
  validate_hex_color (Some h) = Ok (String "#" (upper h)) /\
  validate_hex_color (Some (String "#" h)) = Ok (String "#" (upper h)).
Proof.
  intros H.
  destruct (six_hex_digits_inv _ H)
    as (c1 & c2 & c3 & c4 & c5 & c6 & v1 & v2 & v3 & v4 & v5 & v6
        & -> & H1 & H2 & H3 & H4 & H5 & H6).
  destruct (hex_digit_facts _ _ H1) as (S1 & U1 & N1 & _).
  destruct (hex_digit_facts _ _ H2) as (_ & U2 & _).
  destruct (hex_digit_facts _ _ H3) as (_ & U3 & _).
  destruct (hex_digit_facts _ _ H4) as (_ & U4 & _).
  destruct (hex_digit_facts _ _ H5) as (_ & U5 & _).
  destruct (hex_digit_facts _ _ H6) as (S6 & U6 & _).
  unfold validate_hex_color. cbn [truthy negb].
  split.
  - rewrite strip_keeps with (d := c6); [|exact S1|reflexivity|exact S6].
    cbn [upper Py.startswith]. rewrite N1. cbn [andb negb append].
    cbn [match_hash_hex upper_hex_run].
    now rewrite U1, U2, U3, U4, U5, U6.
  - rewrite strip_keeps with (d := c6); [|reflexivity|reflexivity|exact S6].
    cbn [upper]. change (upper_char "#") with "#"%char.
    cbn [Py.startswith Ascii.eqb Bool.eqb andb negb].
    cbn [match_hash_hex upper_hex_run].
    now rewrite U1, U2, U3, U4, U5, U6.
Qed.

(** X15.  For a text of exactly 6 hexadecimal digits, in either case and with
    or without a leading [#], [validate_hex_color] returns [#] followed
    by the digits in upper case, a colour that [hex_to_rgb] reads as the
    same channels as the text given. *)
Theorem validate_hex_color_normalises_six_digits :
  forall h : string,
    six_hex_digits h = true ->
    validate_hex_color (Some h) = Ok (String "#" (upper h)) /\
    validate_hex_color (Some (String "#" h)) = Ok (String "#" (upper h)) /\
    hex_to_rgb (String "#" (upper h)) = hex_to_rgb h.
Proof.
  intros h H. destruct (validate_six_digits h H) as [V1 V2].
  split; [exact V1|]. split; [exact V2|].
  destruct (six_hex_digits_inv _ H)
    as (c1 & c2 & c3 & c4 & c5 & c6 & v1 & v2 & v3 & v4 & v5 & v6
        & -> & H1 & H2 & H3 & H4 & H5 & H6).
  destruct (hex_digit_facts _ _ H1) as (_ & _ & N1 & D1).
  destruct (hex_digit_facts _ _ H2) as (_ & _ & _ & D2).
  destruct (hex_digit_facts _ _ H3) as (_ & _ & _ & D3).
  destruct (hex_digit_facts _ _ H4) as (_ & _ & _ & D4).
  destruct (hex_digit_facts _ _ H5) as (_ & _ & _ & D5).
  destruct (hex_digit_facts _ _ H6) as (_ & _ & _ & D6).
  unfold hex_to_rgb. cbn [upper]. rewrite lstrip_hash_hash.
  rewrite !lstrip_hash_first.
  - cbn [slice drop take Nat.sub].
    rewrite (proj1 (int16_two_digits _ _ _ _ D1 D2)),
      (proj1 (int16_two_digits _ _ _ _ D3 D4)),
      (proj1 (int16_two_digits _ _ _ _ D5 D6)),
      (proj1 (int16_two_digits _ _ _ _ H1 H2)),
      (proj1 (int16_two_digits _ _ _ _ H3 H4)),
      (proj1 (int16_two_digits _ _ _ _ H5 H6)).
    reflexivity.
  - intros E. subst c1. vm_compute in H1. discriminate H1.
  - intros E. rewrite E in N1. discriminate N1.
Qed.

Lemma validate_hex_color_normalises_six_digits_witness :
  validate_hex_color (Some "7c3aed") = Ok "#7C3AED" /\
  validate_hex_color (Some "#7c3aed") = Ok "#7C3AED".
Proof.
  destruct (validate_hex_color_normalises_six_digits "7c3aed" eq_refl)
    as (H1 & H2 & _).
  split; [exact H1|exact H2].
Defined.

Lemma upper_hex_upper (h : string) :
  all_chars is_upper_hex h = true -> upper h = h.
Proof.
  induction h as [|c r IH]; [reflexivity|]. cbn.
  intros H. apply andb_prop in H. destruct H as [Hc Hr].
  rewrite (IH Hr). f_equal.
  pose proof (forall_ascii
                (fun c => implb (is_upper_hex c) (Ascii.eqb (upper_char c) c))
                ltac:(vm_compute; reflexivity) c) as E.
  cbv beta in E. rewrite Hc in E. now apply Ascii.eqb_eq in E.
Qed.

Lemma validate_hex_color_keeps_upper_hex (valid : string) :
  upper_hex_colour valid = true ->
  validate_hex_color (Some valid) = Ok valid.
Proof.
  intros Hu. destruct valid as [|c h]; [discriminate|].
  destruct c as [[] [] [] [] [] [] [] []]; try discriminate.
  cbn [upper_hex_colour] in Hu. apply andb_prop in Hu.
  destruct Hu as [Hl Ha].
  assert (H6 : six_hex_digits h = true)
    by (unfold six_hex_digits; now rewrite Hl, (all_upper_hex_all_hex _ Ha)).
  rewrite (proj2 (validate_six_digits h H6)).
  now rewrite (upper_hex_upper _ Ha).
Qed.

(** X16.  [validate_hex_color] is idempotent: a colour it has returned is
    returned unchanged when validated again. *)
Theorem validate_hex_color_idempotent :
  forall (color : option string) (valid : string),
    validate_hex_color color = Ok valid ->
    validate_hex_color (Some valid) = Ok valid.
Proof.
  intros color valid H.
  apply validate_hex_color_keeps_upper_hex.
  destruct (validate_hex_color_upper_hex color) as (v & Hv & Hu).
  congruence.
Qed.

Lemma validate_hex_color_idempotent_witness :
  validate_hex_color (Some " 1a2b3c ") = Ok "#1A2B3C" /\
  validate_hex_color (Some "#1A2B3C") = Ok "#1A2B3C".
Proof.
  split; [vm_compute; reflexivity|].
  apply (validate_hex_color_idempotent (Some " 1a2b3c ")).
  vm_compute. reflexivity.
Defined.

(** X17.  A colour of 3 hexadecimal digits, with or without a leading [#], is
    expanded by doubling each digit, as in CSS: [validate_hex_color]
    returns [#] and the 6 doubled digits in upper case, which
    [hex_to_rgb] reads as 17 times each digit. *)
Theorem validate_hex_color_expands_shorthand :
  forall (c1 c2 c3 : ascii) (v1 v2 v3 : Z),
    PyInt.digit16 c1 = Some v1 ->
    PyInt.digit16 c2 = Some v2 ->
    PyInt.digit16 c3 = Some v3 ->
    let short := String c1 (String c2 (String c3 EmptyString)) in
    let long :=
      String "#"
        (String (upper_char c1) (String (upper_char c1)
        (String (upper_char c2) (String (upper_char c2)
        (String (upper_char c3) (String (upper_char c3) EmptyString)))))) in
    validate_hex_color (Some short) = Ok long /\
    validate_hex_color (Some (String "#" short)) = Ok long /\
    hex_to_rgb long = Ok (17 * v1, 17 * v2, 17 * v3)%Z.
Proof.
  intros c1 c2 c3 v1 v2 v3 H1 H2 H3 short long. subst short long.
  destruct (hex_digit_facts _ _ H1) as (S1 & U1 & N1 & D1).
  destruct (hex_digit_facts _ _ H2) as (_ & U2 & _ & D2).
  destruct (hex_digit_facts _ _ H3) as (S3 & U3 & _ & D3).
  unfold validate_hex_color. cbn [truthy negb].
  split; [|split].
  - rewrite strip_keeps with (d := c3); [|exact S1|reflexivity|exact S3].
    cbn [upper Py.startswith]. rewrite N1. cbn [andb negb append].
    cbn [match_hash_hex upper_hex_run]. rewrite U1, U2, U3.
    cbn [String.eqb orb char_at String.get bind append]. reflexivity.
  - rewrite strip_keeps with (d := c3); [|reflexivity|reflexivity|exact S3].
    cbn [upper]. change (upper_char "#") with "#"%char.
    cbn [Py.startswith Ascii.eqb Bool.eqb andb negb].
    cbn [match_hash_hex upper_hex_run]. rewrite U1, U2, U3.
    cbn [String.eqb orb char_at String.get bind append]. reflexivity.
  - unfold hex_to_rgb. rewrite lstrip_hash_hash, lstrip_hash_first.
    + cbn [slice drop take Nat.sub].
      rewrite (proj1 (int16_two_digits _ _ _ _ D1 D1)),
        (proj1 (int16_two_digits _ _ _ _ D2 D2)),
        (proj1 (int16_two_digits _ _ _ _ D3 D3)).
      cbn [bind].
      replace (16 * v1 + v1)%Z with (17 * v1)%Z by lia.
      replace (16 * v2 + v2)%Z with (17 * v2)%Z by lia.
      replace (16 * v3 + v3)%Z with (17 * v3)%Z by lia.
      reflexivity.
    + intros E. rewrite E in N1. discriminate N1.
Qed.

Lemma validate_hex_color_expands_shorthand_witness :
  validate_hex_color (Some "f0a") = Ok "#FF00AA" /\
  hex_to_rgb "#FF00AA" = Ok (255, 0, 170)%Z.
Proof.
  destruct (validate_hex_color_expands_shorthand "f" "0" "a" 15 0 10
              eq_refl eq_refl eq_refl) as (H1 & _ & H3).
  split; [exact H1|exact H3].
Defined.

(** ** [create_default_slides] *)

Lemma py_getitem_nat {A : Type} (xs : list A) (k : nat) (x : A) :
  nth_error xs k = Some x -> py_getitem xs (Z.of_nat k) = Ok x.
Proof.
  intros H. unfold py_getitem. cbv zeta.
  assert (Hk : (k < List.length xs)%nat)
    by (apply nth_error_Some; congruence).
  assert (E1 : (Z.of_nat k <? 0)%Z = false) by (apply Z.ltb_ge; lia).
  assert (E2 : (Z.of_nat (List.length xs) <=? Z.of_nat k)%Z = false)
    by (apply Z.leb_gt; lia).
  rewrite E1. cbv iota. rewrite E1, E2. cbn [orb].
  rewrite Nat2Z.id, H. reflexivity.
Qed.

Lemma nth_error_in_range {A : Type} (xs : list A) (k : nat) :
  (k < List.length xs)%nat -> exists x, nth_error xs k = Some x.
Proof.
  intros H. destruct (nth_error xs k) as [x|] eqn:E; [now exists x|].
  apply nth_error_None in E. lia.
Qed.

(** The loop of [create_default_slides] over a range inside the
    templates appends one slide per index, the one of
    [default_slide_at]. *)
Lemma default_slides_loop_range
      (colors : list (string * string)) (templates : list SlideTemplate)
      (platform topic : string) (k : nat) :
  colors <> [] ->
  forall (a : nat) (slides : list SlideContent),
    (a + k <= List.length templates)%nat ->
    exists new,
      default_slides_loop (map Z.of_nat (seq a k)) colors templates platform
        topic slides = Ok (slides ++ new)%list /\
      List.length new = k /\
      forall j, (j < k)%nat ->
                nth_error new j
                = default_slide_at colors templates platform topic (a + j).
Proof.
  intros Hne. induction k as [|k IH]; intros a slides Hlen.
  - exists []. cbn. rewrite app_nil_r. repeat split. intros j Hj. lia.
  - cbn [seq map default_slides_loop].
    assert (Hc : (0 < List.length colors)%nat)
      by (destruct colors; [congruence|simpl; lia]).
    destruct (nth_error_in_range colors (a mod List.length colors))
      as [colour Hcol]; [apply Nat.mod_upper_bound; lia|].
    destruct (nth_error_in_range templates a) as [template Htpl]; [lia|].
    rewrite <- Nat2Z.inj_mod.
    rewrite (py_getitem_nat _ _ _ Hcol). cbn [bind].
    rewrite (py_getitem_nat _ _ _ Htpl). cbn [bind].
    destruct (IH (S a)
                (slides ++
                 [{| sc_title := tpl_title template;
                     sc_description := tpl_description template;
                     sc_image_prompt :=
                       "Minimal saystory " ++ platform ++ " background: "
                       ++ tpl_suffix template
                       ++ ", perfect for professional " ++ topic
                       ++ " content, text-friendly design";
                     sc_background_color := fst colour;
                     sc_font_color := snd colour;
                     sc_layout := None |}])%list)
      as (new & Hrun & Hl & Hnth); [lia|].
    eexists (_ :: new). split; [|split].
    + rewrite Hrun, <- app_assoc. reflexivity.
    + simpl. now rewrite Hl.
    + intros [|j] Hj.
      * cbn [nth_error]. unfold default_slide_at.
        now rewrite Nat.add_0_r, Hcol, Htpl.
      * cbn [nth_error]. rewrite Hnth by lia. f_equal. lia.
Qed.

Lemma platform_colors_valid
      (table : list (string * list (string * string)))
      (platform : string) (fallback : list (string * string)) :
  platform_palettes_valid table = true ->
  lookup "instagram" table = Some fallback ->
  let colors := get_or table platform fallback in
  List.length colors = 5%nat /\
  forall pair, In pair colors ->
               upper_hex_colour (fst pair) = true /\
               upper_hex_colour (snd pair) = true.
Proof.
  intros Hv Hi colors.
  assert (Hin : exists k, In (k, colors) table).
  { unfold colors, get_or.
    destruct (lookup platform table) as [c|] eqn:E.
    - exists platform. now apply lookup_In.
    - exists "instagram". now apply lookup_In. }
  destruct Hin as [k Hin].
  unfold platform_palettes_valid in Hv. rewrite forallb_forall in Hv.
  specialize (Hv _ Hin). cbn [snd] in Hv.
  apply andb_prop in Hv. destruct Hv as [Hl Hc].
  apply Nat.eqb_eq in Hl. split; [exact Hl|].
  intros pair Hp. rewrite forallb_forall in Hc.
  specialize (Hc _ Hp). now apply andb_prop in Hc.
Qed.

(** X18.  [create_default_slides] never raises and returns
    [min(slide_count, 8)] slides, none for a count of 0 or less: a
    carousel of more than 8 slides gets only 8 default slides.  The
    slide at position [i] has the title and description of the template
    of that position and the colour pair of position [i mod 5] in the
    palette of the platform, the Instagram palette for a platform that
    is not in the table; both colours are [#RRGGBB] in upper case. *)
Theorem create_default_slides_at_most_eight :
  forall (topic : string) (slide_count : Z) (platform style : string),
  exists slides instagram,
    create_default_slides topic slide_count platform style = Ok slides /\
    lookup "instagram" default_color_palettes = Some instagram /\
    List.length slides = Z.to_nat (Z.min slide_count 8) /\
    (List.length slides <= 8)%nat /\
    forall (i : nat) (slide : SlideContent),
      nth_error slides i = Some slide ->
      default_slide_at (get_or default_color_palettes platform instagram)
        (default_templates topic) platform topic i = Some slide /\
      upper_hex_colour (sc_background_color slide) = true /\
      upper_hex_colour (sc_font_color slide) = true.
Proof.
  intros topic slide_count platform style.
  unfold create_default_slides, getitem.
  destruct (lookup "instagram" default_color_palettes) as [instagram|] eqn:Ei;
    [|discriminate Ei].
  cbn [bind].
  destruct (platform_colors_valid default_color_palettes platform instagram
              ltac:(vm_compute; reflexivity) Ei) as [Hlen Hvalid].
  set (colors := get_or default_color_palettes platform instagram) in *.
  assert (Ht : List.length (default_templates topic) = 8%nat) by reflexivity.
  rewrite Ht. unfold py_range.
  destruct (default_slides_loop_range colors (default_templates topic)
              platform topic (Z.to_nat (Z.min slide_count 8)))
    with (a := 0%nat) (slides := @nil SlideContent)
    as (new & Hrun & Hl & Hnth).
  - destruct colors; [discriminate Hlen|discriminate].
  - rewrite Ht. lia.
  - change (Z.of_nat 8) with 8%Z. rewrite Hrun. cbn [app].
    exists new, instagram. split; [reflexivity|]. split; [reflexivity|].
    split; [exact Hl|]. split; [lia|].
    intros i slide Hs.
    assert (Hi : (i < Z.to_nat (Z.min slide_count 8))%nat)
      by (rewrite <- Hl; apply nth_error_Some; congruence).
    rewrite (Hnth i Hi) in Hs. cbn [Nat.add] in Hs.
    split; [exact Hs|].
    unfold default_slide_at in Hs.
    destruct (nth_error colors (i mod List.length colors)) as [colour|] eqn:Ec;
      [|discriminate].
    destruct (nth_error (default_templates topic) i); [|discriminate].
    inversion Hs; subst slide. cbn [sc_background_color sc_font_color].
    apply Hvalid. exact (nth_error_In _ _ Ec).
Qed.

(** ** [create_fallback_slide] *)

Lemma py_getitem_in_range {A : Type} (xs : list A) (i : Z) :
  (- Z.of_nat (List.length xs) <= i < Z.of_nat (List.length xs))%Z ->
  exists x, py_getitem xs i = Ok x /\ In x xs.
Proof.
  intros Hi. unfold py_getitem. cbv zeta.
  set (n := Z.of_nat (List.length xs)) in *.
  set (j := if (i <? 0)%Z then (i + n)%Z else i).
  assert (Hj : (0 <= j < n)%Z)
    by (unfold j; destruct (Z.ltb_spec i 0); lia).
  replace ((j <? 0)%Z || (n <=? j)%Z) with false
    by (symmetry; apply orb_false_iff; split;
        [apply Z.ltb_ge|apply Z.leb_gt]; lia).
  destruct (nth_error xs (Z.to_nat j)) as [x|] eqn:E.
  - exists x. split; [reflexivity|exact (nth_error_In _ _ E)].
  - apply nth_error_None in E. unfold n in Hj. lia.
Qed.

Lemma py_getitem_out_of_range {A : Type} (xs : list A) (i : Z) :
  (i < - Z.of_nat (List.length xs) \/ Z.of_nat (List.length xs) <= i)%Z ->
  py_getitem xs i = Raise IndexError.
Proof.
  intros Hi. unfold py_getitem. cbv zeta.
  set (n := Z.of_nat (List.length xs)) in *.
  set (j := if (i <? 0)%Z then (i + n)%Z else i).
  assert (Hj : (j < 0 \/ n <= j)%Z)
    by (unfold j; destruct (Z.ltb_spec i 0); lia).
  replace ((j <? 0)%Z || (n <=? j)%Z) with true; [reflexivity|].
  symmetry. apply orb_true_iff.
  destruct Hj; [left; apply Z.ltb_lt|right; apply Z.leb_le]; lia.
Qed.

(** X19.  [create_fallback_slide] returns a slide for every slide number from
    -9 on, with colours [#RRGGBB] in upper case, and raises [IndexError]
    for a slide number below -9: the title index [slide_number - 1] is
    capped at 9 from above only, and a negative index counts from the
    end of the 10 titles.  From slide 10 on the title and the
    description are those of slide 10.  The colour pair depends on the
    slide number modulo 5. *)
Theorem create_fallback_slide_bounds :
  forall (topic : string) (slide_number : Z) (platform style : string),
    ((-9 <= slide_number)%Z ->
     exists slide,
       create_fallback_slide topic slide_number platform style = Ok slide /\
       upper_hex_colour (sc_background_color slide) = true /\
       upper_hex_colour (sc_font_color slide) = true) /\
    ((slide_number < -9)%Z ->
     create_fallback_slide topic slide_number platform style
     = Raise IndexError) /\
    ((10 <= slide_number)%Z ->
     exists slide,
       create_fallback_slide topic slide_number platform style = Ok slide /\
       sc_title slide = "Conquer " ++ topic ++ " Challenges" /\
       sc_description slide
       = "Conquer obstacles and achieve " ++ topic ++ " mastery.") /\
    (forall slide later,
        create_fallback_slide topic slide_number platform style = Ok slide ->
        create_fallback_slide topic (slide_number + 5) platform style
        = Ok later ->
        sc_background_color later = sc_background_color slide /\
        sc_font_color later = sc_font_color slide).
Proof.
  intros topic slide_number platform style.
  unfold create_fallback_slide, getitem.
  destruct (lookup "instagram" fallback_color_palettes) as [instagram|] eqn:Ei;
    [|discriminate Ei].
  cbn [bind].
  destruct (platform_colors_valid fallback_color_palettes platform instagram
              ltac:(vm_compute; reflexivity) Ei) as [Hlen Hvalid].
  set (colors := get_or fallback_color_palettes platform instagram) in *.
  rewrite Hlen.
  change (Z.of_nat (List.length (saystory_titles topic))) with 10%Z.
  change (Z.of_nat (List.length (saystory_descriptions topic))) with 10%Z.
  change (Z.of_nat 5) with 5%Z.
  assert (Hcol : forall n, exists colour,
               py_getitem colors ((n - 1) mod 5)%Z = Ok colour /\
               In colour colors).
  { intros n. apply py_getitem_in_range. rewrite Hlen.
    pose proof (Z.mod_pos_bound (n - 1) 5). lia. }
  destruct (Hcol slide_number) as (colour & Hc & Hin).
  rewrite Hc. cbn [bind].
  split; [|split; [|split]].
  - intros Hn.
    destruct (py_getitem_in_range (saystory_titles topic)
                (Z.min (slide_number - 1) (10 - 1))) as (t & -> & _);
      [change (Z.of_nat (List.length (saystory_titles topic))) with 10%Z; lia|].
    destruct (py_getitem_in_range (saystory_descriptions topic)
                (Z.min (slide_number - 1) (10 - 1))) as (d & -> & _);
      [change (Z.of_nat (List.length (saystory_descriptions topic)))
         with 10%Z; lia|].
    cbn [bind]. eexists. split; [reflexivity|]. apply Hvalid, Hin.
  - intros Hn.
    rewrite (py_getitem_out_of_range (saystory_titles topic));
      [reflexivity|].
    change (Z.of_nat (List.length (saystory_titles topic))) with 10%Z. lia.
  - intros Hn. replace (Z.min (slide_number - 1) (10 - 1)) with 9%Z by lia.
    eexists. split; [reflexivity|]. split; reflexivity.
  - intros slide later Hs Hl.
    replace ((slide_number + 5 - 1) mod 5)%Z with ((slide_number - 1) mod 5)%Z
      in Hl
      by (replace (slide_number + 5 - 1)%Z with (slide_number - 1 + 1 * 5)%Z
            by lia; now rewrite Z.mod_add).
    rewrite Hc in Hl. cbn [bind] in Hl.
    destruct (py_getitem (saystory_titles topic)
                (Z.min (slide_number - 1) (10 - 1))); [|discriminate].
    destruct (py_getitem (saystory_descriptions topic)
                (Z.min (slide_number - 1) (10 - 1))); [|discriminate].
    destruct (py_getitem (saystory_titles topic)
                (Z.min (slide_number + 5 - 1) (10 - 1))); [|discriminate].
    destruct (py_getitem (saystory_descriptions topic)
                (Z.min (slide_number + 5 - 1) (10 - 1))); [|discriminate].
    cbn [bind] in *. inversion Hs; inversion Hl; subst. now split.
Qed.

Lemma create_fallback_slide_bounds_witness :
  (exists slide,
      create_fallback_slide "AI" 0 "twitter" "modern" = Ok slide /\
      upper_hex_colour (sc_background_color slide) = true) /\
  create_fallback_slide "AI" (-10) "twitter" "modern" = Raise IndexError /\
  (exists slide,
      create_fallback_slide "AI" 25 "twitter" "modern" = Ok slide /\
      sc_title slide = "Conquer AI Challenges").
Proof.
  destruct (create_fallback_slide_bounds "AI" 0 "twitter" "modern")
    as (H0 & _).
  destruct (create_fallback_slide_bounds "AI" (-10) "twitter" "modern")
    as (_ & Hlow & _).
  destruct (create_fallback_slide_bounds "AI" 25 "twitter" "modern")
    as (_ & _ & Hhigh & _).
  split; [|split].
  - destruct H0 as (slide & Hs & Hb & _); [lia|]. now exists slide.
  - apply Hlow. lia.
  - destruct Hhigh as (slide & Hs & Ht & _); [lia|]. now exists slide.
Defined.

(** ** [map_layout] *)

(** X20.  For every layout name, of ASCII or not, with [str_lower] for
    [str.lower] and [unicode_space] for the white space outside ASCII:
    [map_layout] returns one of the five layouts of the front end, and
    a layout it has returned is mapped to itself.  With the name
    lower-cased, stripped and its spaces replaced by underscores: a
    front-end layout is returned as it is, one of the five premium
    layouts is returned as the front-end layout the mapping gives for
    it, and any other name becomes ['image-right'].  Of [str.lower]
    only its result on ASCII text is used, for the layouts
    returned. *)
Theorem map_layout_front_end_layout :
  forall (str_lower : string -> string) (unicode_space : string -> bool),
    (forall s, Unicode.is_ascii s = true -> str_lower s = Py.lower s) ->
    forall (layout_name : string) (slide_num total_slides : Z),
      let layout :=
        Unicode.map_layout str_lower unicode_space layout_name
          slide_num total_slides in
      let normal :=
        replace_char " " "_"
          (Unicode.strip unicode_space (str_lower layout_name)) in
      In layout legacy_layouts /\
      (forall slide_num' total_slides',
          Unicode.map_layout str_lower unicode_space layout
            slide_num' total_slides'
          = layout) /\
      (In normal legacy_layouts -> layout = normal) /\
      (forall front,
          ~ In normal legacy_layouts ->
          lookup normal layout_mapping = Some front ->
          layout = front) /\
      (~ In normal legacy_layouts ->
       ~ In normal (map fst layout_mapping) ->
       layout = "image-right").
Proof.
  intros str_lower unicode_space Hlower layout_name slide_num total_slides
         layout normal.
  assert (Hin : In layout legacy_layouts).
  { subst layout. unfold Unicode.map_layout. fold normal.
    destruct (Py.mem normal legacy_layouts) eqn:E; [now apply mem_In|].
    unfold get_or.
    destruct (lookup normal layout_mapping) as [v|] eqn:El; [|simpl; tauto].
    apply lookup_In in El. simpl in El.
    repeat (destruct El as [El|El]; [inversion El; subst; simpl; tauto|]).
    destruct El. }
  split; [exact Hin|]. split; [|split; [|split]].
  - intros slide_num' total_slides'.
    revert Hin. generalize layout. intros r Hr. simpl in Hr.
    repeat (destruct Hr as [Hr|Hr];
            [subst r; unfold Unicode.map_layout;
             rewrite Hlower by reflexivity; vm_compute; reflexivity|]).
    destruct Hr.
  - intros Hl. subst layout. unfold Unicode.map_layout. fold normal.
    apply mem_In in Hl. now rewrite Hl.
  - intros front Hl Hm. subst layout. unfold Unicode.map_layout. fold normal.
    destruct (Py.mem normal legacy_layouts) eqn:E;
      [apply mem_In in E; contradiction|].
    unfold get_or. now rewrite Hm.
  - intros Hl Hm. subst layout. unfold Unicode.map_layout. fold normal.
    destruct (Py.mem normal legacy_layouts) eqn:E;
      [apply mem_In in E; contradiction|].
    unfold get_or. now rewrite (lookup_not_In normal layout_mapping Hm).
Qed.

Lemma map_layout_front_end_layout_witness :
  Unicode.map_layout Py.lower (fun _ => false) "Timeline View" 2 5
  = "image-right" /\
  Unicode.map_layout Py.lower (fun _ => false) " Visual Focus " 2 5
  = "full-background" /\
  Unicode.map_layout Py.lower (fun _ => false) "TABLE" 2 5 = "table".
Proof.
  pose proof (map_layout_front_end_layout
                Py.lower (fun _ => false) (fun s _ => eq_refl)) as H.
  split; [|split].
  - apply (proj2 (proj2 (proj2 (proj2 (H "Timeline View" 2%Z 5%Z))))).
    + simpl. intros F. repeat (destruct F as [F|F]; [discriminate|]). exact F.
    + simpl. intros F. repeat (destruct F as [F|F]; [discriminate|]). exact F.
  - apply (proj1 (proj2 (proj2 (proj2 (H " Visual Focus " 2%Z 5%Z))))).
    + simpl. intros F. repeat (destruct F as [F|F]; [discriminate|]). exact F.
    + reflexivity.
  - rewrite (proj1 (proj2 (proj2 (H "TABLE" 2%Z 5%Z)))).
    + reflexivity.
    + simpl. tauto.
Defined.

(** ** The validation loop of [generate_saystory_slides_content] *)

Lemma create_fallback_slide_returns (topic : string) (slide_number : Z)
      (platform style : string) :
  (-9 <= slide_number)%Z ->
  exists slide,
    create_fallback_slide topic slide_number platform style = Ok slide.
Proof.
  intros Hn. unfold create_fallback_slide, getitem.
  destruct (lookup "instagram" fallback_color_palettes) as [instagram|] eqn:Ei;
    [|discriminate Ei].
  cbn [bind].
  destruct (platform_colors_valid fallback_color_palettes platform instagram
              ltac:(vm_compute; reflexivity) Ei) as [Hlen _].
  set (colors := get_or fallback_color_palettes platform instagram) in *.
  destruct (py_getitem_in_range colors
              ((slide_number - 1) mod Z.of_nat (List.length colors)))
    as (colour & -> & _).
  { rewrite Hlen.
    pose proof (Z.mod_pos_bound (slide_number - 1) (Z.of_nat 5)). lia. }
  cbn [bind].
  change (Z.of_nat (List.length (saystory_titles topic))) with 10%Z.
  change (Z.of_nat (List.length (saystory_descriptions topic))) with 10%Z.
  destruct (py_getitem_in_range (saystory_titles topic)
              (Z.min (slide_number - 1) (10 - 1))) as (t & -> & _);
    [change (Z.of_nat (List.length (saystory_titles topic))) with 10%Z; lia|].
  destruct (py_getitem_in_range (saystory_descriptions topic)
              (Z.min (slide_number - 1) (10 - 1))) as (d & -> & _);
    [change (Z.of_nat (List.length (saystory_descriptions topic)))
       with 10%Z; lia|].
  cbn [bind]. eexists. reflexivity.
Qed.

Section ParsedSlidesFacts.

Variable json : Type.
Variable text_field : json -> string -> string -> option string.
Variable colour_field : json -> string -> string -> option string.
Variable layout_field : json -> option string.
Variable topic platform style : string.
Variable slide_count : Z.

(** Every slide of the list is the fallback slide of its position. *)
Let all_fallback (slides : list SlideContent) : Prop :=
  forall (j : nat) (slide : SlideContent),
    nth_error slides j = Some slide ->
    create_fallback_slide topic (Z.of_nat j + 1) platform style = Ok slide.

Lemma all_fallback_snoc (slides : list SlideContent) (slide : SlideContent) :
  all_fallback slides ->
  create_fallback_slide topic (Z.of_nat (List.length slides) + 1) platform
    style = Ok slide ->
  all_fallback (slides ++ [slide]).
Proof.
  intros Hall Hs j s Hj.
  destruct (Nat.lt_ge_cases j (List.length slides)) as [Hlt|Hge].
  - rewrite nth_error_app1 in Hj by exact Hlt. now apply Hall.
  - rewrite nth_error_app2 in Hj by exact Hge.
    destruct (j - List.length slides)%nat as [|k] eqn:E.
    + cbn in Hj. inversion Hj; subst s.
      replace j with (List.length slides) by lia. exact Hs.
    + cbn in Hj. now destruct k.
Qed.

(** Before [def map_layout] has run the loop body always raises. *)
Lemma validated_slide_unbound (i : Z) (slide : json) :
  validated_slide json text_field colour_field layout_field topic platform
    style slide_count None i slide = None.
Proof.
  unfold validated_slide.
  destruct (text_field slide "title" _); [|reflexivity].
  destruct (text_field slide "description" _); [|reflexivity].
  destruct (text_field slide "image_prompt" _); [|reflexivity].
  destruct (colour_field slide "background_color" _); [|reflexivity].
  destruct (colour_field slide "font_color" _); reflexivity.
Qed.

Lemma validation_loop_unbound (items : list json) :
  forall validated,
    all_fallback validated ->
    exists out,
      validation_loop json text_field colour_field layout_field topic
        platform style slide_count None items
        (Z.of_nat (List.length validated)) validated = Ok out /\
      all_fallback out /\
      List.length out = (List.length validated + List.length items)%nat.
Proof.
  induction items as [|slide rest IH]; intros validated Hall.
  - exists validated. cbn. rewrite Nat.add_0_r. auto.
  - cbn [validation_loop]. rewrite validated_slide_unbound.
    destruct (create_fallback_slide_returns topic
                (Z.of_nat (List.length validated) + 1) platform style)
      as [fallback Hf]; [lia|].
    rewrite Hf. cbn [bind].
    destruct (IH (validated ++ [fallback])%list) as (out & Hrun & Hout & Hl).
    { now apply all_fallback_snoc. }
    rewrite length_app in Hrun, Hl. cbn [List.length] in Hrun, Hl.
    rewrite Nat2Z.inj_add in Hrun. exists out.
    split; [exact Hrun|]. split; [exact Hout|]. cbn [List.length]. lia.
Qed.

Lemma pad_loop_fallback (fuel : nat) :
  forall validated,
    all_fallback validated ->
    (Z.to_nat (slide_count - Z.of_nat (List.length validated)) <= fuel)%nat ->
    exists out,
      pad_loop topic platform style slide_count fuel validated
      = Some (Ok out) /\
      all_fallback out /\
      List.length out
      = Nat.max (List.length validated) (Z.to_nat slide_count).
Proof.
  induction fuel as [|fuel IH]; intros validated Hall Hfuel.
  - cbn [pad_loop].
    replace (Z.of_nat (List.length validated) <? slide_count)%Z with false
      by (symmetry; apply Z.ltb_ge; lia).
    exists validated. split; [reflexivity|]. split; [exact Hall|]. lia.
  - cbn [pad_loop].
    destruct (Z.ltb_spec (Z.of_nat (List.length validated)) slide_count)
      as [Hlt|Hge].
    + destruct (create_fallback_slide_returns topic
                  (Z.of_nat (List.length validated) + 1) platform style)
        as [fallback Hf]; [lia|].
      rewrite Hf.
      destruct (IH (validated ++ [fallback])%list) as (out & Hrun & Hout & Hl).
      * now apply all_fallback_snoc.
      * rewrite length_app. cbn [List.length]. lia.
      * exists out. split; [exact Hrun|]. split; [exact Hout|].
        rewrite Hl, length_app. cbn [List.length]. lia.
    + exists validated. split; [reflexivity|]. split; [exact Hall|]. lia.
Qed.

(** X21.  Whatever the text model answered, once its response is parsed the
    slides that [generate_saystory_slides_content] returns are all made
    by [create_fallback_slide]: the loop body reads the local
    [map_layout] before the [def] statement that binds it, so it raises
    for every slide of the response and the [except] clause puts the
    fallback slide of that position in its place; the [while] loop then
    pads the list with fallback slides.  The [while] loop ends, and the
    list has [slide_count] slides when [slide_count >= 0]; no title,
    description, colour or layout of the response reaches the result. *)
Theorem parsed_slides_are_all_fallback_slides :
  forall (slides_data : list json),
  exists (enough : nat) (slides : list SlideContent),
    (forall fuel,
        (enough <= fuel)%nat ->
        validate_parsed_slides json text_field colour_field layout_field
          topic platform style slide_count fuel slides_data
        = Some (Ok slides)) /\
    (forall (j : nat) (slide : SlideContent),
        nth_error slides j = Some slide ->
        create_fallback_slide topic (Z.of_nat j + 1) platform style
        = Ok slide /\
        sc_layout slide = None) /\
    List.length slides
    = Nat.max (List.length (py_slice_to slides_data slide_count))
              (Z.to_nat slide_count) /\
    ((0 <= slide_count)%Z -> List.length slides = Z.to_nat slide_count).
Proof.
  intros slides_data.
  destruct (validation_loop_unbound (py_slice_to slides_data slide_count) [])
    as (validated & Hrun & Hall & Hlen).
  { intros j s Hj. destruct j; discriminate Hj. }
  cbn [List.length Z.of_nat Nat.add] in Hrun, Hlen.
  destruct (pad_loop_fallback
              (Z.to_nat (slide_count - Z.of_nat (List.length validated)))
              validated Hall (Nat.le_refl _)) as (slides & _ & Hout & Hl).
  exists (Z.to_nat (slide_count - Z.of_nat (List.length validated))), slides.
  split; [|split; [|split]].
  - intros fuel Hfuel. unfold validate_parsed_slides. rewrite Hrun.
    destruct (pad_loop_fallback fuel validated Hall Hfuel)
      as (slides' & Hrun' & Hout' & Hl').
    rewrite Hrun'. do 2 f_equal.
    (* the two lists have the same length and the same slides *)
    apply nth_error_ext. intros j.
    destruct (nth_error slides' j) as [s'|] eqn:E';
      destruct (nth_error slides j) as [s|] eqn:E; try reflexivity.
    + pose proof (Hout' _ _ E'). pose proof (Hout _ _ E). congruence.
    + apply nth_error_None in E.
      assert (j < List.length slides')%nat
        by (apply nth_error_Some; congruence). lia.
    + apply nth_error_None in E'.
      assert (j < List.length slides)%nat
        by (apply nth_error_Some; congruence). lia.
  - intros j slide Hj. pose proof (Hout _ _ Hj) as Hf.
    split; [exact Hf|].
    unfold create_fallback_slide in Hf.
    destruct (getitem fallback_color_palettes "instagram"); [|discriminate].
    cbn [bind] in Hf.
    destruct (py_getitem _ _); [|discriminate]. cbn [bind] in Hf.
    destruct (py_getitem _ _); [|discriminate]. cbn [bind] in Hf.
    destruct (py_getitem _ _); [|discriminate]. cbn [bind] in Hf.
    now inversion Hf.
  - rewrite Hl, Hlen. reflexivity.
  - intros Hpos. rewrite Hl, Hlen. unfold py_slice_to.
    replace (slide_count <? 0)%Z with false by (symmetry; apply Z.ltb_ge; lia).
    pose proof (firstn_le_length (Z.to_nat slide_count) slides_data). lia.
Qed.

End ParsedSlidesFacts.

(** * The prompt sent to the image API *)





Section ImageApiFacts.

Variable float : Type.
Variable default_boost : float.
Variable pastel_channels : Z * Z * Z -> float -> result (Z * Z * Z).
Variable md5_hex8 : string -> Z.
Variable rng : Type.
Variable seeded : Z -> rng.
Variable randbelow : rng -> nat -> nat * rng.

Hypothesis randbelow_lt :
  forall g n, (0 < n)%nat -> (fst (randbelow g n) < n)%nat.




End ImageApiFacts.



(** ** The utilities of [api/utils.py] *)

Lemma lookup_map_values {A B : Type} (f : A -> B) (k : string)
      (d : list (string * A)) :
  lookup k (map (fun e => (fst e, f (snd e))) d) = option_map f (lookup k d).
Proof.
  induction d as [|[k' v] d IH]; [reflexivity|].
  cbn [map lookup fst snd]. destruct (String.eqb k k'); [reflexivity|exact IH].
Qed.

(** X23.  [get_color_palette] never raises, and the 5 colours it returns for
    a platform are the background colours that [create_default_slides]
    takes for this platform, in the same order, with the same fall-back
    to the Instagram palette for a platform that is not in the table.
    Each of them is a colour that [validate_hex_color] returns
    unchanged. *)
Theorem get_color_palette_default_slide_backgrounds :
  forall platform : string,
  exists instagram,
    lookup "instagram" default_color_palettes = Some instagram /\
    let colors := map fst (get_or default_color_palettes platform instagram) in
    get_color_palette platform = Ok colors /\
    List.length colors = 5%nat /\
    forall c, In c colors -> validate_hex_color (Some c) = Ok c.
Proof.
  intros platform.
  destruct (lookup "instagram" default_color_palettes) as [instagram|] eqn:Ei;
    [|discriminate Ei].
  exists instagram. split; [reflexivity|]. intros colors.
  destruct (platform_colors_valid default_color_palettes platform instagram
              ltac:(vm_compute; reflexivity) Ei) as [Hlen Hvalid].
  split; [|split].
  - unfold get_color_palette, getitem.
    change platform_colors
      with (map (fun e : string * list (string * string) =>
                   (fst e, map fst (snd e))) default_color_palettes).
    rewrite !lookup_map_values, Ei. cbn [option_map bind].
    subst colors. unfold get_or. rewrite lookup_map_values.
    destruct (lookup platform default_color_palettes); reflexivity.
  - subst colors. rewrite length_map. exact Hlen.
  - intros c Hc. subst colors. apply in_map_iff in Hc.
    destruct Hc as (pair & <- & Hin).
    apply validate_hex_color_keeps_upper_hex. apply (Hvalid pair Hin).
Qed.

(** The sizes [get_platform_dimensions] can return, and the only case
    with a width other than 1080. *)
Lemma get_platform_dimensions_cases :
  forall platform format_type : string,
  exists width height,
    get_platform_dimensions platform format_type = Ok (width, height) /\
    In (width, height)
       [(1080, 1080); (1080, 1350); (1080, 1920); (1080, 608);
        (1200, 627)]%Z /\
    (width <> 1080%Z <->
     platform = "linkedin" /\ format_type = "landscape").
Proof.
  intros platform format_type.
  unfold get_platform_dimensions, getitem, get_or, platform_dimensions.
  cbn [lookup String.eqb Ascii.eqb Bool.eqb bind].
  destruct (String.eqb_spec platform "instagram") as [Ep|Ep];
    [|destruct (String.eqb_spec platform "linkedin") as [El|El]];
    cbn [lookup String.eqb Ascii.eqb Bool.eqb bind];
    destruct (String.eqb_spec format_type "square") as [E1|E1];
    try destruct (String.eqb_spec format_type "portrait") as [E2|E2];
    try destruct (String.eqb_spec format_type "story") as [E3|E3];
    try destruct (String.eqb_spec format_type "landscape") as [E4|E4];
    do 2 eexists; (split; [reflexivity|]);
    (split; [cbn [In]; tauto|]);
    subst; split; try (intros H; exfalso; apply H; reflexivity);
    try (intros [H1 H2]; try discriminate H1; try discriminate H2; congruence);
    try (intros _; split; reflexivity).
Qed.

(** The two lookups of [get_platform_dimensions], each with its
    fall-back. *)
Lemma get_platform_dimensions_lookups (platform format_type : string) :
  exists instagram,
    lookup "instagram" platform_dimensions = Some instagram /\
    let sizes := get_or platform_dimensions platform instagram in
    lookup "square" sizes = Some (1080, 1080)%Z /\
    get_platform_dimensions platform format_type
    = Ok (get_or sizes format_type (1080, 1080)%Z).
Proof.
  eexists. split; [reflexivity|]. cbv zeta.
  unfold get_platform_dimensions, getitem, get_or, platform_dimensions.
  cbn [lookup String.eqb Ascii.eqb Bool.eqb bind].
  destruct (String.eqb platform "instagram");
    [split; reflexivity|].
  destruct (String.eqb platform "linkedin"); split; reflexivity.
Qed.

(** X24.  [get_platform_dimensions] never raises.  For a platform and
    a format of the table it returns the size of the table; for a
    format that the platform does not have, the square size of the
    platform, 1080 by 1080; for a platform that is not in the table,
    what it returns for Instagram and the same format.  The width is
    1080 pixels in every case but one, the landscape format of
    LinkedIn, which is 1200 by 627. *)
Theorem get_platform_dimensions_width :
  forall platform format_type : string,
  exists width height instagram,
    get_platform_dimensions platform format_type = Ok (width, height) /\
    lookup "instagram" platform_dimensions = Some instagram /\
    (forall sizes size,
        lookup platform platform_dimensions = Some sizes ->
        lookup format_type sizes = Some size ->
        (width, height) = size) /\
    (forall sizes,
        lookup platform platform_dimensions = Some sizes ->
        lookup format_type sizes = None ->
        lookup "square" sizes = Some (width, height) /\
        (width, height) = (1080, 1080)%Z) /\
    (lookup platform platform_dimensions = None ->
     get_platform_dimensions platform format_type
     = get_platform_dimensions "instagram" format_type /\
     (width, height) = get_or instagram format_type (1080, 1080)%Z) /\
    In (width, height)
       [(1080, 1080); (1080, 1350); (1080, 1920); (1080, 608);
        (1200, 627)]%Z /\
    (width <> 1080%Z <->
     platform = "linkedin" /\ format_type = "landscape").
Proof.
  intros platform format_type.
  destruct (get_platform_dimensions_cases platform format_type)
    as (width & height & Hok & Hin & Hwidth).
  destruct (get_platform_dimensions_lookups platform format_type)
    as (instagram & Hi & Hsquare & Hget).
  destruct (get_platform_dimensions_lookups "instagram" format_type)
    as (instagram' & Hi' & _ & Hget').
  cbv zeta in Hsquare, Hget, Hget'.
  assert (instagram' = instagram) by congruence. subst instagram'.
  exists width, height, instagram.
  split; [exact Hok|]. split; [exact Hi|].
  rewrite Hok in Hget. injection Hget as Hget.
  split; [|split; [|split; [|split; [exact Hin|exact Hwidth]]]].
  - intros sizes size Hp Hf. rewrite Hget. unfold get_or.
    now rewrite Hp, Hf.
  - intros sizes Hp Hf. unfold get_or in Hsquare, Hget.
    rewrite Hp in Hsquare, Hget. rewrite Hf in Hget.
    now rewrite Hget.
  - intros Hp. split.
    + rewrite Hok, Hget'. unfold get_or at 2. rewrite Hi.
      rewrite Hget. unfold get_or at 2. now rewrite Hp.
    + rewrite Hget. unfold get_or at 2. now rewrite Hp.
Qed.

Lemma append_cancel_left (prefix a b : string) :
  (prefix ++ a)%string = (prefix ++ b)%string -> a = b.
Proof.
  induction prefix as [|c r IH]; [exact (fun H => H)|].
  cbn [append]. intros H. injection H as H. exact (IH H).
Qed.

Lemma to_int_not_nil (z : Z) :
  Z.to_int z <> Decimal.Pos Decimal.Nil /\
  Z.to_int z <> Decimal.Neg Decimal.Nil.
Proof.
  destruct z as [|p|p]; cbn; split; try discriminate;
    intros E; injection E as E; revert E;
    apply DecimalPos.Unsigned.to_uint_nonnil.
Qed.

(** [str] gives different texts for different integers. *)
Lemma str_injective (a b : Z) : Py.str a = Py.str b -> a = b.
Proof.
  unfold Py.str. intros H. apply DecimalZ.to_int_inj.
  assert (S : Some (Z.to_int a) = Some (Z.to_int b)).
  { rewrite <- (NilZero.isi (Z.to_int a)) by apply to_int_not_nil.
    rewrite <- (NilZero.isi (Z.to_int b)) by apply to_int_not_nil.
    now rewrite H. }
  now injection S.
Qed.

Lemma NoDup_map_injective {A B : Type} (f : A -> B) (xs : list A) :
  (forall x y, In x xs -> In y xs -> f x = f y -> x = y) ->
  NoDup xs -> NoDup (map f xs).
Proof.
  intros Hinj Hnd. induction Hnd as [|x xs Hx Hnd IH]; [constructor|].
  cbn [map]. constructor.
  - intros Hin. apply in_map_iff in Hin. destruct Hin as (y & Hy & Hin).
    apply Hx. rewrite (Hinj x y); [exact Hin|now left|now right|now symmetry].
  - apply IH. intros a b Ha Hb. apply Hinj; now right.
Qed.

(** X25.  [generate_simple_slides] returns [slide_count] slides, none for a
    count of 0 or less; the slide at position [i] is titled with the
    topic and the part number [i + 1], so the parts are numbered from 1
    and no two slides of the list have the same title. *)
Theorem generate_simple_slides_distinct_titles :
  forall (topic : string) (slide_count : Z),
    let slides := generate_simple_slides topic slide_count in
    List.length slides = Z.to_nat slide_count /\
    (forall (i : nat) (slide : SlideContent),
        nth_error slides i = Some slide ->
        sc_title slide
        = (topic ++ " - Part " ++ Py.str (Z.of_nat i + 1))%string) /\
    NoDup (map sc_title slides).
Proof.
  intros topic slide_count slides. subst slides.
  unfold generate_simple_slides, py_range.
  split; [|split].
  - now rewrite !length_map, length_seq.
  - intros i slide Hi. rewrite !nth_error_map in Hi.
    destruct (nth_error (seq 0 (Z.to_nat slide_count)) i) as [k|] eqn:Ek;
      [|discriminate Hi].
    cbn [option_map] in Hi. injection Hi as <-. cbn [sc_title].
    assert (Hlt : (i < Z.to_nat slide_count)%nat).
    { rewrite <- (length_seq (Z.to_nat slide_count) 0).
      apply nth_error_Some. now rewrite Ek. }
    pose proof (nth_error_nth _ _ 0%nat Ek) as En.
    rewrite seq_nth in En by exact Hlt. cbn [Nat.add] in En. now subst k.
  - rewrite !map_map. cbn [sc_title].
    apply NoDup_map_injective; [|apply seq_NoDup].
    intros x y _ _ H.
    apply append_cancel_left in H. apply (append_cancel_left " - Part ") in H.
    apply str_injective in H. lia.
Qed.

(** * The functions on text outside ASCII, on values known from the
      Python interpreter

    With the Kelvin sign lower-cased to [k], the topic
    ['s' + U+212A + 'incare beauty tips'] has the two fashion keywords
    (skincare, beauty) against one education keyword (tips), and the
    title [U+212A + 'PI report'] has the data keywords. *)
Example get_topic_category_kelvin_sign :
  forall str_lower : string -> string,
    str_lower ("s" ++ Unicode.kelvin_sign ++ "incare beauty tips")
    = "skincare beauty tips" ->
    Unicode.get_topic_category str_lower
      ("s" ++ Unicode.kelvin_sign ++ "incare beauty tips")
    = "fashion".
Proof.
  intros str_lower H. unfold Unicode.get_topic_category. rewrite H.
  vm_compute. reflexivity.
Qed.

Example analyze_slide_purpose_kelvin_sign :
  forall str_lower : string -> string,
    str_lower ((Unicode.kelvin_sign ++ "PI report") ++ " " ++ "")
    = "kpi report " ->
    Unicode.analyze_slide_purpose str_lower
      (Unicode.kelvin_sign ++ "PI report") ""
    = "data".
Proof.
  intros str_lower H. unfold Unicode.analyze_slide_purpose. rewrite H.
  vm_compute. reflexivity.
Qed.

(** The accented letter of ['Café latte'] is a word character, so no
    word boundary follows [caf] and the only word found is [latte]. *)
Example extract_slide_keywords_accent :
  forall (str_lower : string -> string) (unicode_word : string -> bool),
    str_lower (("Caf" ++ Unicode.e_acute ++ " latte") ++ " " ++ "")
    = "caf" ++ Unicode.e_acute ++ " latte " ->
    unicode_word Unicode.e_acute = true ->
    Unicode.extract_slide_keywords str_lower unicode_word
      ("Caf" ++ Unicode.e_acute ++ " latte") "" 5
    = ["latte"].
Proof.
  intros str_lower unicode_word Hl Hw.
  unfold Unicode.extract_slide_keywords. rewrite Hl.
  vm_compute in Hw. vm_compute. rewrite Hw. reflexivity.
Qed.

(** Six Arabic-Indic digits three are read by [int(., 16)] as [33] in
    base 16 three times. *)
Example hex_to_rgb_arabic_digits :
  forall (unicode_space : string -> bool)
         (unicode_decimal : string -> option nat),
    unicode_space Unicode.arabic_three = false ->
    unicode_decimal Unicode.arabic_three = Some 3%nat ->
    let three := Unicode.arabic_three in
    Unicode.hex_to_rgb unicode_space unicode_decimal
      (three ++ three ++ three ++ three ++ three ++ three)
    = Ok (51, 51, 51)%Z.
Proof.
  intros unicode_space unicode_decimal Hs Hd three. subst three.
  unfold Unicode.hex_to_rgb.
  change (Unicode.chars _)
    with [Unicode.arabic_three; Unicode.arabic_three; Unicode.arabic_three;
          Unicode.arabic_three; Unicode.arabic_three; Unicode.arabic_three].
  cbn [Unicode.slice firstn skipn Nat.sub].
  unfold Unicode.int16. cbn [map].
  assert (E : Unicode.to_ascii unicode_space unicode_decimal
                Unicode.arabic_three = "3"%char).
  { unfold Unicode.to_ascii.
    change (Unicode.ascii_of Unicode.arabic_three) with (@None ascii).
    rewrite Hs, Hd. reflexivity. }
  rewrite E. reflexivity.
Qed.

(** A no-break space before ['table'] is stripped, and the Kelvin sign
    of ['full-bac' + U+212A + 'ground'] is lower-cased to [k]. *)
Example map_layout_outside_ascii :
  forall (str_lower : string -> string) (unicode_space : string -> bool),
    str_lower (Unicode.no_break_space ++ "table")
    = Unicode.no_break_space ++ "table" ->
    str_lower ("full-bac" ++ Unicode.kelvin_sign ++ "ground")
    = "full-background" ->
    unicode_space Unicode.no_break_space = true ->
    Unicode.map_layout str_lower unicode_space
      (Unicode.no_break_space ++ "table") 1 5 = "table" /\
    Unicode.map_layout str_lower unicode_space
      ("full-bac" ++ Unicode.kelvin_sign ++ "ground") 1 5
    = "full-background".
Proof.
  intros str_lower unicode_space H1 H2 Hs. unfold Unicode.map_layout.
  rewrite H1, H2. split; [|vm_compute; reflexivity].
  unfold Unicode.strip.
  change (Unicode.chars _)
    with [Unicode.no_break_space; "t"; "a"; "b"; "l"; "e"].
  assert (E : Unicode.is_space unicode_space Unicode.no_break_space = true).
  { unfold Unicode.is_space.
    change (Unicode.ascii_of Unicode.no_break_space) with (@None ascii).
    exact Hs. }
  cbn [Unicode.lstrip_chars]. rewrite E.
  vm_compute. reflexivity.
Qed.

(** * The two models on ASCII text

    On ASCII text the functions of [Unicode] are those of the ASCII
    model, whatever the database says of the other characters, provided
    [str_lower] is the ASCII mapping there: see also
    [unicode_get_topic_category_ascii], [unicode_hex_to_rgb_ascii] and
    [unicode_findall_words_ascii]. *)

Lemma is_ascii_app (a b : string) :
  Unicode.is_ascii (a ++ b) = Unicode.is_ascii a && Unicode.is_ascii b.
Proof.
  unfold Unicode.is_ascii.
  induction a as [|c r IH]; [reflexivity|].
  cbn [append all_chars]. now rewrite IH, andb_assoc.
Qed.

Lemma lower_is_ascii (s : string) :
  Unicode.is_ascii s = true -> Unicode.is_ascii (Py.lower s) = true.
Proof.
  unfold Unicode.is_ascii.
  induction s as [|c r IH]; intros H; [reflexivity|].
  cbn [Py.lower all_chars] in *. apply andb_prop in H. destruct H as [Hc Hr].
  rewrite (IH Hr), andb_true_r.
  pose proof (forall_ascii
                (fun c => implb (Unicode.is_ascii_char c)
                                (Unicode.is_ascii_char (Py.lower_char c)))
                ltac:(vm_compute; reflexivity) c) as E.
  cbv beta in E. now rewrite Hc in E.
Qed.

Lemma title_description_ascii (title description : string) :
  Unicode.is_ascii title = true -> Unicode.is_ascii description = true ->
  Unicode.is_ascii (title ++ " " ++ description) = true.
Proof.
  intros Ht Hd. rewrite !is_ascii_app, Ht, Hd. reflexivity.
Qed.

Lemma unicode_analyze_slide_purpose_ascii
      (str_lower : string -> string) (title description : string) :
  (forall s, Unicode.is_ascii s = true -> str_lower s = Py.lower s) ->
  Unicode.is_ascii title = true -> Unicode.is_ascii description = true ->
  Unicode.analyze_slide_purpose str_lower title description
  = analyze_slide_purpose title description.
Proof.
  intros Hlower Ht Hd.
  unfold Unicode.analyze_slide_purpose, analyze_slide_purpose.
  now rewrite (Hlower _ (title_description_ascii _ _ Ht Hd)).
Qed.

Lemma unicode_extract_slide_keywords_ascii
      (str_lower : string -> string) (unicode_word : string -> bool)
      (title description : string) (max_keywords : Z) :
  (forall s, Unicode.is_ascii s = true -> str_lower s = Py.lower s) ->
  Unicode.is_ascii title = true -> Unicode.is_ascii description = true ->
  Unicode.extract_slide_keywords str_lower unicode_word title description
    max_keywords
  = extract_slide_keywords title description max_keywords.
Proof.
  intros Hlower Ht Hd.
  unfold Unicode.extract_slide_keywords, extract_slide_keywords.
  pose proof (title_description_ascii _ _ Ht Hd) as Ha.
  rewrite (Hlower _ Ha).
  now rewrite (unicode_findall_words_ascii _ _ (lower_is_ascii _ Ha)).
Qed.

Lemma lstrip_chars_app (p : string -> bool) (s t : list string) :
  Unicode.lstrip_chars p (s ++ t)
  = match Unicode.lstrip_chars p s with
    | [] => Unicode.lstrip_chars p t
    | ch :: r => ((ch :: r) ++ t)%list
    end.
Proof.
  induction s as [|ch r IH]; [reflexivity|].
  cbn [app Unicode.lstrip_chars]. destruct (p ch); [exact IH|reflexivity].
Qed.

Lemma lstrip_chars_In (p : string -> bool) (s : list string) (ch : string) :
  In ch (Unicode.lstrip_chars p s) -> In ch s.
Proof.
  induction s as [|a r IH]; [intros []|].
  cbn [Unicode.lstrip_chars]. destruct (p a); [|exact (fun H => H)].
  intros H. right. exact (IH H).
Qed.

Lemma is_space_ascii (unicode_space : string -> bool) (c : ascii) :
  Unicode.is_ascii_char c = true ->
  Unicode.is_space unicode_space (String c EmptyString) = Py.is_space c.
Proof.
  intros Hc. unfold Unicode.is_space, Unicode.ascii_of. now rewrite Hc.
Qed.

Lemma lstrip_chars_ascii (unicode_space : string -> bool) (s : string) :
  Unicode.is_ascii s = true ->
  Unicode.lstrip_chars (Unicode.is_space unicode_space)
    (map (fun c => String c EmptyString) (list_ascii_of_string s))
  = map (fun c => String c EmptyString)
      (list_ascii_of_string (Py.lstrip_by Py.is_space s)).
Proof.
  unfold Unicode.is_ascii.
  induction s as [|c r IH]; intros H; [reflexivity|].
  cbn [all_chars] in H. apply andb_prop in H. destruct H as [Hc Hr].
  cbn [list_ascii_of_string map Unicode.lstrip_chars Py.lstrip_by].
  rewrite (is_space_ascii _ _ Hc).
  destruct (Py.is_space c); [exact (IH Hr)|reflexivity].
Qed.

Lemma lstrip_by_ascii (p : ascii -> bool) (s : string) :
  Unicode.is_ascii s = true -> Unicode.is_ascii (Py.lstrip_by p s) = true.
Proof.
  unfold Unicode.is_ascii.
  induction s as [|c r IH]; intros H; [reflexivity|].
  cbn [Py.lstrip_by]. destruct (p c); [|exact H].
  cbn [all_chars] in H. apply andb_prop in H. exact (IH (proj2 H)).
Qed.

(** Stripping on the right, as stripping the reversed characters on the
    left. *)
Lemma rstrip_chars_ascii (unicode_space : string -> bool) (s : string) :
  Unicode.is_ascii s = true ->
  String.concat EmptyString
    (rev (Unicode.lstrip_chars (Unicode.is_space unicode_space)
            (rev (map (fun c => String c EmptyString)
                      (list_ascii_of_string s)))))
  = Py.rstrip_by Py.is_space s.
Proof.
  unfold Unicode.is_ascii.
  induction s as [|c r IH]; intros H; [reflexivity|].
  cbn [all_chars] in H. apply andb_prop in H. destruct H as [Hc Hr].
  specialize (IH Hr).
  cbn [list_ascii_of_string map rev Py.rstrip_by].
  rewrite lstrip_chars_app.
  destruct (Unicode.lstrip_chars (Unicode.is_space unicode_space)
              (rev (map (fun c => String c EmptyString)
                        (list_ascii_of_string r)))) as [|z zs] eqn:Ez.
  - cbn [rev String.concat] in IH. rewrite <- IH.
    cbn [Unicode.lstrip_chars]. rewrite (is_space_ascii _ _ Hc).
    destruct (Py.is_space c); reflexivity.
  - rewrite rev_app_distr. cbn [rev app].
    assert (Hne : exists d t,
               (rev zs ++ [z])%list = String d EmptyString :: t).
    { destruct (rev zs ++ [z])%list as [|y t] eqn:Ey.
      - destruct (rev zs); discriminate Ey.
      - assert (Hy : In y (z :: zs)).
        { apply in_rev. cbn [rev]. rewrite Ey. now left. }
        rewrite <- Ez in Hy. apply lstrip_chars_In in Hy.
        apply in_rev, in_map_iff in Hy. destruct Hy as (d & <- & _).
        now exists d, t. }
    destruct Hne as (d & t & Hne). cbn [rev] in IH. rewrite Hne in *.
    change (String.concat "" (String c "" :: String d "" :: t))
      with (String c (String.concat "" (String d "" :: t))).
    rewrite IH.
    destruct (Py.rstrip_by Py.is_space r) eqn:Er; [|reflexivity].
    destruct t; discriminate IH.
Qed.

Lemma unicode_strip_ascii (unicode_space : string -> bool) (s : string) :
  Unicode.is_ascii s = true -> Unicode.strip unicode_space s = Py.strip s.
Proof.
  intros Ha. unfold Unicode.strip, Py.strip, Py.strip_by.
  rewrite (chars_ascii _ Ha), (lstrip_chars_ascii _ _ Ha).
  apply rstrip_chars_ascii, lstrip_by_ascii, Ha.
Qed.

Lemma unicode_map_layout_ascii
      (str_lower : string -> string) (unicode_space : string -> bool)
      (layout_name : string) (slide_num total_slides : Z) :
  (forall s, Unicode.is_ascii s = true -> str_lower s = Py.lower s) ->
  Unicode.is_ascii layout_name = true ->
  Unicode.map_layout str_lower unicode_space layout_name
    slide_num total_slides
  = map_layout layout_name slide_num total_slides.
Proof.
  intros Hlower Ha. unfold Unicode.map_layout, map_layout.
  rewrite (Hlower _ Ha).
  now rewrite (unicode_strip_ascii _ _ (lower_is_ascii _ Ha)).
Qed.
